(** * LogicGate: the dependency graph of [logicgate/graph.py]

    A shallow embedding of [DependencyGraph] (graph construction, the
    enclosing-function and import resolvers, the reachability slicer and
    the context assembler) together with the parts of [pathlib] and
    [networkx] that the class calls, and the properties of the
    specification checked against it. *)

From Stdlib Require Import List String Ascii ZArith Lia Bool Permutation.
From Stdlib Require Import DecimalString.
Import ListNotations.

Local Open Scope string_scope.
Local Open Scope Z_scope.
Local Open Scope list_scope.

Set Implicit Arguments.

(* ================================================================== *)
(** ** Python values: strings, insertion-ordered dicts, exceptions     *)
(* ================================================================== *)

Module Py.

(** [name in names] on a list of strings. *)
Definition mem (x : string) (l : list string) : bool :=
  existsb (String.eqb x) l.

(** Truthiness of a [str]: the empty string is falsy. *)
Definition truthy (s : string) : bool := negb (String.eqb s "").

(** [str(n)] for an [int]. *)
Definition str_of_int (n : Z) : string :=
  NilZero.string_of_int (Z.to_int n).

(** [sep.join(parts)]. *)
Definition join (sep : string) (parts : list string) : string :=
  String.concat sep parts.

(** [s.split(sep)] for a one-character separator. *)
Fixpoint split (sep : ascii) (s : string) : list string :=
  match s with
  | EmptyString => [EmptyString]
  | String c r =>
      if Ascii.eqb c sep then EmptyString :: split sep r
      else match split sep r with
           | [] => [String c EmptyString]
           | h :: t => String c h :: t
           end
  end.

(** [s.rfind(c)]: index of the last occurrence of [c], [-1] if none. *)
Fixpoint rfind (c : ascii) (s : string) : Z :=
  match s with
  | EmptyString => -1
  | String a r =>
      let i := rfind c r in
      if 0 <=? i then i + 1
      else if Ascii.eqb a c then 0 else -1
  end.

(** [c in s] for a character. *)
Fixpoint contains_char (c : ascii) (s : string) : bool :=
  match s with
  | EmptyString => false
  | String a r => Ascii.eqb a c || contains_char c r
  end.

(** Number of leading occurrences of [c] (what [lstrip] removes). *)
Fixpoint leading (c : ascii) (s : string) : nat :=
  match s with
  | String a r => if Ascii.eqb a c then S (leading c r) else O
  | EmptyString => O
  end.

(** The exceptions that the modelled code can raise. *)
Inductive exn : Type :=
| ValueError (msg : string).

(** A computation that returns a value or raises. *)
Inductive result (A : Type) : Type :=
| Ok (a : A)
| Raise (e : exn).
Arguments Ok {A} a.
Arguments Raise {A} e.

Definition bind {A B : Type} (m : result A) (k : A -> result B) : result B :=
  match m with
  | Ok a => k a
  | Raise e => Raise e
  end.

Definition raises {A : Type} (m : result A) : bool :=
  match m with Ok _ => false | Raise _ => true end.

(** A [dict] keyed by [str]: Python dicts keep insertion order, and
    assigning to a key that is present keeps its position. *)
Section Dict.
Variable V : Type.

Definition dict := list (string * V).

Fixpoint get (k : string) (d : dict) : option V :=
  match d with
  | [] => None
  | (k', v) :: r => if String.eqb k k' then Some v else get k r
  end.

Definition contains (k : string) (d : dict) : bool :=
  match get k d with Some _ => true | None => false end.

Fixpoint set (k : string) (v : V) (d : dict) : dict :=
  match d with
  | [] => [(k, v)]
  | (k', v') :: r =>
      if String.eqb k k' then (k', v) :: r else (k', v') :: set k v r
  end.

Definition keys (d : dict) : list string := map fst d.
End Dict.

Arguments get {V} k d.
Arguments contains {V} k d.
Arguments set {V} k v d.
Arguments keys {V} d.

(** A [set] of [str], kept as the sequence of its distinct elements in
    insertion order.  The order in which Python iterates a set depends
    on the hashes of its elements (randomised per process for [str]),
    so iteration goes through a [SetOrder] chosen by the interpreter. *)
Definition pyset := list string.

Definition set_add (x : string) (s : pyset) : pyset :=
  if mem x s then s else s ++ [x].

Record SetOrder : Type := mkSetOrder {
  iter : pyset -> list string;
  iter_perm : forall s, NoDup s -> Permutation (iter s) s
}.

(** One possible interpreter: iteration in insertion order. *)
Definition insertion_order : SetOrder :=
  {| iter := fun s => s; iter_perm := fun s _ => Permutation_refl s |}.

(** Another one: iteration in reverse insertion order. *)
Definition reverse_order : SetOrder :=
  {| iter := fun s => rev s;
     iter_perm := fun s _ => Permutation_sym (Permutation_rev s) |}.

End Py.

Notation "x <- m ;; k" := (Py.bind m (fun x => k))
  (at level 61, m at next level, right associativity).

(* ================================================================== *)
(** ** [logicgate/models.py]                                           *)
(* ================================================================== *)

Module RouteInfo.
Record t : Type := mk {
  file_path : string;
  http_method : string;
  route_pattern : string;
  handler_start_line : Z;
  handler_end_line : Z;
  handler_source : string;
  middleware : list string
}.
End RouteInfo.

Module ImportInfo.
Record t : Type := mk {
  name : string;
  path : string;
  file_path : string;
  line : Z
}.
End ImportInfo.

Module FunctionDef.
Record t : Type := mk {
  name : string;
  file_path : string;
  start_line : Z;
  end_line : Z;
  source : string
}.
End FunctionDef.

Module FunctionCall.
Record t : Type := mk {
  name : string;
  file_path : string;
  line : Z;
  object_name : option string
}.
End FunctionCall.

(* ================================================================== *)
(** ** [pathlib]: pure POSIX paths and the file system                 *)
(* ================================================================== *)

Module Path.

(** A parsed path: [root] is [""], ["/"] or ["//"]; [parts] are the
    components after the root, with empty and ["."] components dropped
    by the parser. *)
Record t : Type := mk {
  root : string;
  parts : list string
}.

Definition keep_part (x : string) : bool :=
  negb (String.eqb x "") && negb (String.eqb x ".").

(** [Path(s)]. *)
Definition of_str (s : string) : t :=
  {| root := match Py.leading "/" s with
             | O => ""
             | 2%nat => "//"
             | _ => "/"
             end;
     parts := filter keep_part (Py.split "/" s) |}.

(** [str(p)]. *)
Definition str (p : t) : string :=
  match root p, parts p with
  | "", [] => "."
  | r, ps => (r ++ Py.join "/" ps)%string
  end.

(** [p.name]: the final component, empty for a bare root. *)
Definition name (p : t) : string := last (parts p) "".

(** [p.parent]. *)
Definition parent (p : t) : t :=
  {| root := root p; parts := removelast (parts p) |}.

(** [p / s]: an absolute right operand replaces the left one. *)
Definition joinpath (p : t) (s : string) : t :=
  let q := of_str s in
  if String.eqb (root q) "" then
    {| root := root p; parts := parts p ++ parts q |}
  else q.

(** [p.suffix]. *)
Definition suffix (p : t) : string :=
  let nm := name p in
  let i := Py.rfind "." nm in
  if (0 <? i) && (i <? Z.of_nat (String.length nm) - 1)
  then substring (Z.to_nat i) (String.length nm - Z.to_nat i) nm
  else "".

(** [p.with_suffix(suffix)]: replaces the current suffix when there is
    one, appends otherwise; raises [ValueError] on an invalid suffix
    and on a path with an empty name (the messages are shortened). *)
Definition with_suffix (p : t) (sfx : string) : Py.result t :=
  if Py.contains_char "/" sfx then
    Py.Raise (Py.ValueError "Invalid suffix")
  else if (Py.truthy sfx && negb (String.prefix "." sfx))
          || String.eqb sfx "." then
    Py.Raise (Py.ValueError "Invalid suffix")
  else
    let nm := name p in
    if negb (Py.truthy nm) then
      Py.Raise (Py.ValueError "has an empty name")
    else
      let old := suffix p in
      let nm' :=
        if negb (Py.truthy old) then (nm ++ sfx)%string
        else (substring 0 (String.length nm - String.length old) nm
              ++ sfx)%string in
      Py.Ok {| root := root p; parts := removelast (parts p) ++ [nm'] |}.

(** What [pathlib] asks the operating system: [p.resolve()] and
    [p.is_file()], on a file system where both calls return (module
    [os] below has the file system with the failures of the two
    calls). *)
Record FileSystem : Type := mkFS {
  resolve : t -> t;
  is_file : t -> bool
}.

(** A file system without symbolic links, given by the list of its
    regular files and the working directory: [resolve] makes the path
    absolute and removes [".."] components. *)
Fixpoint normalize (acc todo : list string) : list string :=
  match todo with
  | [] => acc
  | x :: r =>
      if String.eqb x ".." then normalize (removelast acc) r
      else normalize (acc ++ [x]) r
  end.

Definition lexical_resolve (cwd : list string) (p : t) : t :=
  {| root := "/";
     parts := if String.eqb (root p) "" then normalize cwd (parts p)
              else normalize [] (parts p) |}.

Definition plain_fs (cwd : list string) (files : list string) : FileSystem :=
  {| resolve := lexical_resolve cwd;
     is_file := fun p => Py.mem (str p) files |}.

End Path.

(* ================================================================== *)
(** ** [networkx]: [DiGraph] and breadth-first edges                   *)
(* ================================================================== *)

Module nx.

(** A directed graph as [networkx.DiGraph] stores it: [_node] maps a
    node to its attribute dict, of which only the ["data"] entry is
    ever written ([None] here: no such entry); [_succ] maps a node to
    its successors, in the order in which their edges were first added.
    The mirror dict [_pred] is never read by the code and is left out. *)
Record DiGraph : Type := mk {
  _node : Py.dict (option FunctionDef.t);
  _succ : Py.dict (list string)
}.

(** [nx.DiGraph()]. *)
Definition empty : DiGraph := {| _node := []; _succ := [] |}.

(** [n in G]. *)
Definition has_node (G : DiGraph) (n : string) : bool :=
  Py.contains n (_node G).

(** [G.add_node(n, data=d)]: a new node gets the attribute, an existing
    one has it updated. *)
Definition add_node (G : DiGraph) (n : string) (d : FunctionDef.t) : DiGraph :=
  if Py.contains n (_succ G) then
    {| _node := Py.set n (Some d) (_node G); _succ := _succ G |}
  else
    {| _node := Py.set n (Some d) (_node G);
       _succ := Py.set n [] (_succ G) |}.

(** The first half of [add_edge], once per endpoint: an endpoint that is
    not a node yet becomes one, without attributes. *)
Definition touch (G : DiGraph) (n : string) : DiGraph :=
  if Py.contains n (_succ G) then G
  else {| _node := Py.set n None (_node G);
          _succ := Py.set n [] (_succ G) |}.

(** [G.add_edge(u, v)]; adding an edge that exists changes nothing. *)
Definition add_edge (G : DiGraph) (u v : string) : DiGraph :=
  let G1 := touch (touch G u) v in
  let out := match Py.get u (_succ G1) with Some l => l | None => [] end in
  {| _node := _node G1;
     _succ := Py.set u (Py.set_add v out) (_succ G1) |}.

(** [G.neighbors(n)]: the successors of [n].  (networkx raises for an
    [n] that is not a node; the traversal below only asks for the start
    node, which its caller has tested, and for successors, which
    [add_edge] made nodes: see [closed_add_edge].) *)
Definition neighbors (G : DiGraph) (n : string) : list string :=
  match Py.get n (_succ G) with Some l => l | None => [] end.

Definition has_edge (G : DiGraph) (u v : string) : bool :=
  Py.mem v (neighbors G u).

(** [len(G)], [G.number_of_nodes()]. *)
Definition number_of_nodes (G : DiGraph) : nat := List.length (_node G).

(** [G.number_of_edges()]. *)
Definition number_of_edges (G : DiGraph) : nat :=
  list_sum (map (fun kv => List.length (snd kv)) (_succ G)).

(** [G.nodes[n].get("data")]. *)
Definition node_data (G : DiGraph) (n : string) : option FunctionDef.t :=
  match Py.get n (_node G) with Some a => a | None => None end.

(** *** [generic_bfs_edges] (networkx 3.x)

<<
  seen = {source}
  n = len(G)
  depth = 0
  next_parents_children = [(source, neighbors(source))]
  while next_parents_children and depth < depth_limit:
      this_parents_children = next_parents_children
      next_parents_children = []
      for parent, children in this_parents_children:
          for child in children:
              if child not in seen:
                  seen.add(child)
                  next_parents_children.append((child, neighbors(child)))
                  yield parent, child
          if len(seen) == n:
              return
      depth += 1
>>
    The traversal state is the triple of [seen], the next level and the
    edges yielded so far. *)
Record bfs_state : Type := mkBfs {
  seen : Py.pyset;
  next_level : list (string * list string);
  yielded : list (string * string)
}.

(** [for child in children: ...] *)
Fixpoint scan_children (G : DiGraph) (parent : string)
         (children : list string) (s : bfs_state) : bfs_state :=
  match children with
  | [] => s
  | child :: rest =>
      if Py.mem child (seen s) then scan_children G parent rest s
      else scan_children G parent rest
             {| seen := seen s ++ [child];
                next_level := next_level s ++ [(child, neighbors G child)];
                yielded := yielded s ++ [(parent, child)] |}
  end.

(** [for parent, children in this_parents_children: ...]; the boolean
    tells whether the generator returned from inside the loop. *)
Fixpoint scan_level (G : DiGraph) (n : nat)
         (this : list (string * list string)) (s : bfs_state)
  : bfs_state * bool :=
  match this with
  | [] => (s, false)
  | (parent, children) :: rest =>
      let s' := scan_children G parent children s in
      if Nat.eqb (List.length (seen s')) n then (s', true)
      else scan_level G n rest s'
  end.

(** The [while] loop; [budget] counts the iterations that
    [depth < depth_limit] still allows. *)
Fixpoint bfs_loop (G : DiGraph) (n : nat) (budget : nat) (s : bfs_state)
  : list (string * string) :=
  match next_level s, budget with
  | [], _ => yielded s
  | _, O => yielded s
  | this, S budget' =>
      let '(s', returned) :=
        scan_level G n this
          {| seen := seen s; next_level := []; yielded := yielded s |} in
      if returned then yielded s' else bfs_loop G n budget' s'
  end.

(** [nx.bfs_edges(G, source, depth_limit=depth)]. *)
Definition bfs_edges (G : DiGraph) (source : string) (depth_limit : Z)
  : list (string * string) :=
  bfs_loop G (number_of_nodes G) (Z.to_nat depth_limit)
    {| seen := [source];
       next_level := [(source, neighbors G source)];
       yielded := [] |}.

End nx.

(* ================================================================== *)
(** ** [logicgate/graph.py]: [DependencyGraph]                         *)
(* ================================================================== *)

(** The fields of a [DependencyGraph] instance (its [parser] is
    represented by the facts it returns, see [SourceFile]). *)
Record DependencyGraph : Type := mkDG {
  graph : nx.DiGraph;
  _file_functions : Py.dict (list FunctionDef.t);
  _file_calls : Py.dict (list FunctionCall.t);
  _file_imports : Py.dict (list ImportInfo.t);
  _symbol_table : Py.dict FunctionDef.t
}.

(** [DependencyGraph.__init__]. *)
Definition __init__ : DependencyGraph :=
  {| graph := nx.empty;
     _file_functions := [];
     _file_calls := [];
     _file_imports := [];
     _symbol_table := [] |}.

(** One iteration of the first loop of [build_graph] reads this much: a
    path yielded by [_walk_sources] (as [str(source_path)]) and what the
    parser's [find_function_defs], [find_function_calls] and
    [find_imports] return for it. *)
Record SourceFile : Type := mkSource {
  str_path : string;
  defs : list FunctionDef.t;
  calls : list FunctionCall.t;
  imports : list ImportInfo.t
}.

(** [f"{path}:{name}"]. *)
Definition node_id_of (path name : string) : string :=
  (path ++ ":" ++ name)%string.

(** [d.get(k, [])]. *)
Definition get_or_nil {A : Type} (k : string) (d : Py.dict (list A)) : list A :=
  match Py.get k d with Some l => l | None => [] end.

(** [for x in l: acc = f(acc, x)] where [f] may raise. *)
Fixpoint for_each {A B : Type} (f : B -> A -> Py.result B) (l : list A) (b : B)
  : Py.result B :=
  match l with
  | [] => Py.Ok b
  | a :: r => b' <- f b a ;; for_each f r b'
  end.

Definition node_count (self : DependencyGraph) : nat :=
  nx.number_of_nodes (graph self).

Definition edge_count (self : DependencyGraph) : nat :=
  nx.number_of_edges (graph self).

(** *** [_find_enclosing_function] *)

Definition span (d : FunctionDef.t) : Z :=
  FunctionDef.end_line d - FunctionDef.start_line d.

Definition encloses (d : FunctionDef.t) (line : Z) : bool :=
  (FunctionDef.start_line d <=? line) && (line <=? FunctionDef.end_line d).

(** The loop of [_find_enclosing_function], from the current [best]. *)
Fixpoint enclosing_scan (fdefs : list FunctionDef.t) (line : Z)
         (best : option FunctionDef.t) : option FunctionDef.t :=
  match fdefs with
  | [] => best
  | fdef :: rest =>
      if encloses fdef line then
        match best with
        | None => enclosing_scan rest line (Some fdef)
        | Some b =>
            if span fdef <? span b then enclosing_scan rest line (Some fdef)
            else enclosing_scan rest line best
        end
      else enclosing_scan rest line best
  end.

(** [return best.name if best else None]: a model instance is truthy. *)
Definition _find_enclosing_function (self : DependencyGraph)
           (file_path : string) (line : Z) : option string :=
  match enclosing_scan (get_or_nil file_path (_file_functions self)) line None with
  | Some best => Some (FunctionDef.name best)
  | None => None
  end.

Section WithInterpreter.

(** The file system that [pathlib] sees and the iteration order of
    string sets. *)
Variable fs : Path.FileSystem.
Variable ord : Py.SetOrder.

(** *** [_resolve_import_path] *)

(** The list [probes]; building it evaluates both [with_suffix] calls. *)
Definition probes_of (candidate : Path.t) : Py.result (list Path.t) :=
  p_js <- Path.with_suffix candidate ".js" ;;
  p_ts <- Path.with_suffix candidate ".ts" ;;
  Py.Ok [candidate; p_js; p_ts;
         Path.joinpath candidate "index.js";
         Path.joinpath candidate "index.ts"].

Definition _resolve_import_path (current_file : Path.t) (import_path : string)
  : Py.result (option Path.t) :=
  if negb (String.prefix "." import_path) then Py.Ok None
  else
    let base_dir := Path.parent current_file in
    let candidate := Path.resolve fs (Path.joinpath base_dir import_path) in
    probes <- probes_of candidate ;;
    Py.Ok (find (Path.is_file fs) probes).

(** *** [_resolve_call_via_imports] *)

(** The loop over the import bindings of the file. *)
Fixpoint scan_imports (self : DependencyGraph) (file_path call_name : string)
         (imps : list ImportInfo.t) : Py.result (option string) :=
  match imps with
  | [] => Py.Ok None
  | imp :: rest =>
      if String.eqb (ImportInfo.name imp) call_name then
        resolved_path <-
          _resolve_import_path (Path.of_str file_path) (ImportInfo.path imp) ;;
        match resolved_path with
        | Some rp =>
            let candidate_id := node_id_of (Path.str rp) call_name in
            if Py.contains candidate_id (_symbol_table self)
            then Py.Ok (Some candidate_id)
            else scan_imports self file_path call_name rest
        | None => scan_imports self file_path call_name rest
        end
      else scan_imports self file_path call_name rest
  end.

Definition _resolve_call_via_imports (self : DependencyGraph)
           (file_path call_name : string) : Py.result (option string) :=
  scan_imports self file_path call_name
    (get_or_nil file_path (_file_imports self)).

(** *** [_resolve_calls] *)

Definition with_graph (self : DependencyGraph) (G : nx.DiGraph) : DependencyGraph :=
  {| graph := G;
     _file_functions := _file_functions self;
     _file_calls := _file_calls self;
     _file_imports := _file_imports self;
     _symbol_table := _symbol_table self |}.

(** [name in local_defs], where [local_defs] is keyed by the names of
    the definitions of the file. *)
Definition in_local_defs (nm : string) (fdefs : list FunctionDef.t) : bool :=
  existsb (fun d => String.eqb nm (FunctionDef.name d)) fdefs.

(** The body of the loop of [_resolve_calls] for one call site. *)
Definition resolve_call (file_path : string) (self : DependencyGraph)
           (call : FunctionCall.t) : Py.result DependencyGraph :=
  let local_defs := get_or_nil file_path (_file_functions self) in
  match _find_enclosing_function self file_path (FunctionCall.line call) with
  | None => Py.Ok self
  | Some caller_name =>
      if negb (Py.truthy caller_name) then Py.Ok self
      else
        let caller_id := node_id_of file_path caller_name in
        if in_local_defs (FunctionCall.name call) local_defs then
          let callee_id := node_id_of file_path (FunctionCall.name call) in
          if nx.has_node (graph self) caller_id
             && nx.has_node (graph self) callee_id
          then Py.Ok (with_graph self (nx.add_edge (graph self) caller_id callee_id))
          else Py.Ok self
        else
          resolved <- _resolve_call_via_imports self file_path
                        (FunctionCall.name call) ;;
          match resolved with
          | Some r =>
              if Py.truthy r && nx.has_node (graph self) caller_id
              then Py.Ok (with_graph self (nx.add_edge (graph self) caller_id r))
              else Py.Ok self
          | None => Py.Ok self
          end
  end.

Definition _resolve_calls (self : DependencyGraph) (file_path : string)
           (calls : list FunctionCall.t) : Py.result DependencyGraph :=
  for_each (resolve_call file_path) calls self.

(** *** [build_graph] *)

(** [for fdef in defs: ...] *)
Definition register_def (path : string) (self : DependencyGraph)
           (fdef : FunctionDef.t) : DependencyGraph :=
  let node_id := node_id_of path (FunctionDef.name fdef) in
  {| graph := nx.add_node (graph self) node_id fdef;
     _file_functions := _file_functions self;
     _file_calls := _file_calls self;
     _file_imports := _file_imports self;
     _symbol_table := Py.set node_id fdef (_symbol_table self) |}.

(** The body of the first loop, for one source file. *)
Definition register_file (self : DependencyGraph) (f : SourceFile)
  : DependencyGraph :=
  fold_left (register_def (str_path f)) (defs f)
    {| graph := graph self;
       _file_functions := Py.set (str_path f) (defs f) (_file_functions self);
       _file_calls := Py.set (str_path f) (calls f) (_file_calls self);
       _file_imports := Py.set (str_path f) (imports f) (_file_imports self);
       _symbol_table := _symbol_table self |}.

Definition phase1 (files : list SourceFile) (self : DependencyGraph)
  : DependencyGraph :=
  fold_left register_file files self.

(** [for file_path, calls in self._file_calls.items(): ...] *)
Definition phase2 (self : DependencyGraph) : Py.result DependencyGraph :=
  for_each (fun st item => _resolve_calls st (fst item) (snd item))
           (_file_calls self) self.

(** [build_graph], on the files that the walk yields, in that order.
    An exception leaves the method; the instance it was mutating is
    not returned. *)
Definition build_graph (files : list SourceFile) (self : DependencyGraph)
  : Py.result DependencyGraph :=
  phase2 (phase1 files self).

(** *** [get_slice] *)

(** [for nid in ...: data = self.graph.nodes[nid].get("data") ...] *)
Fixpoint collect_data (G : nx.DiGraph) (nids : list string) : list FunctionDef.t :=
  match nids with
  | [] => []
  | nid :: rest =>
      match nx.node_data G nid with
      | Some data => data :: collect_data G rest
      | None => collect_data G rest
      end
  end.

(** The set [reachable] after the loop over [bfs_edges]. *)
Definition reachable_set (G : nx.DiGraph) (node_id : string) (depth : Z)
  : Py.pyset :=
  fold_left (fun s e => Py.set_add (snd e) s)
            (nx.bfs_edges G node_id depth) [node_id].

Definition get_slice (self : DependencyGraph) (node_id : string) (depth : Z)
  : list FunctionDef.t :=
  if negb (nx.has_node (graph self) node_id) then []
  else collect_data (graph self)
         (Py.iter ord (reachable_set (graph self) node_id depth)).

(** *** [get_route_context] *)

Definition in_handler (route : RouteInfo.t) (call : FunctionCall.t) : bool :=
  (RouteInfo.handler_start_line route <=? FunctionCall.line call)
  && (FunctionCall.line call <=? RouteInfo.handler_end_line route).

Definition calls_in_handler (self : DependencyGraph) (route : RouteInfo.t)
  : list FunctionCall.t :=
  filter (in_handler route)
         (get_or_nil (RouteInfo.file_path route) (_file_calls self)).

(** The pair of [seen_node_ids] and [all_defs]. *)
Definition collected : Type := (list string * list FunctionDef.t)%type.

Definition nid_of (fdef : FunctionDef.t) : string :=
  node_id_of (FunctionDef.file_path fdef) (FunctionDef.name fdef).

(** [for fdef in slice: nid = ...; if nid not in seen_node_ids: ...] *)
Fixpoint absorb (slice : list FunctionDef.t) (acc : collected) : collected :=
  match slice with
  | [] => acc
  | fdef :: rest =>
      if Py.mem (nid_of fdef) (fst acc) then absorb rest acc
      else absorb rest (fst acc ++ [nid_of fdef], snd acc ++ [fdef])
  end.

(** The body of the loop over [calls_in_handler]. *)
Definition collect_call (self : DependencyGraph) (file_path : string)
           (depth : Z) (acc : collected) (call : FunctionCall.t)
  : Py.result collected :=
  let candidate_id := node_id_of file_path (FunctionCall.name call) in
  if Py.contains candidate_id (_symbol_table self) then
    if negb (Py.mem candidate_id (fst acc))
    then Py.Ok (absorb (get_slice self candidate_id depth) acc)
    else Py.Ok acc
  else
    resolved <- _resolve_call_via_imports self file_path
                  (FunctionCall.name call) ;;
    match resolved with
    | Some r =>
        if Py.truthy r && negb (Py.mem r (fst acc))
        then Py.Ok (absorb (get_slice self r depth) acc)
        else Py.Ok acc
    | None => Py.Ok acc
    end.

(** [all_defs] after the loop. *)
Definition collect_defs (self : DependencyGraph) (route : RouteInfo.t)
           (depth : Z) : Py.result (list FunctionDef.t) :=
  acc <- for_each (collect_call self (RouteInfo.file_path route) depth)
                  (calls_in_handler self route) ([], []) ;;
  Py.Ok (snd acc).

Definition header (file_path : string) (first last : Z) : string :=
  ("// File: " ++ file_path ++ ", Lines " ++ Py.str_of_int first ++ "-"
     ++ Py.str_of_int last ++ String "010" "")%string.

Definition fallback_block (route : RouteInfo.t) : string :=
  (header (RouteInfo.file_path route) (RouteInfo.handler_start_line route)
          (RouteInfo.handler_end_line route)
     ++ RouteInfo.handler_source route ++ String "010" "")%string.

Definition def_block (fdef : FunctionDef.t) : string :=
  (header (FunctionDef.file_path fdef) (FunctionDef.start_line fdef)
          (FunctionDef.end_line fdef)
     ++ FunctionDef.source fdef)%string.

Definition get_route_context (self : DependencyGraph) (route : RouteInfo.t)
           (depth : Z) : Py.result string :=
  all_defs <- collect_defs self route depth ;;
  match all_defs with
  | [] => Py.Ok (fallback_block route)
  | _ =>
      Py.Ok (Py.join (String "010" (String "010" "")) (map def_block all_defs)
               ++ String "010" "")%string
  end.

(** *** Default arguments

    [depth: int = 5] in both signatures: a call may leave [depth] out. *)
Definition default_depth : Z := 5.

Definition depth_argument (depth : option Z) : Z :=
  match depth with Some d => d | None => default_depth end.

Definition get_slice_call (self : DependencyGraph) (node_id : string)
           (depth : option Z) : list FunctionDef.t :=
  get_slice self node_id (depth_argument depth).

Definition get_route_context_call (self : DependencyGraph)
           (route : RouteInfo.t) (depth : option Z) : Py.result string :=
  get_route_context self route (depth_argument depth).

End WithInterpreter.

(* ================================================================== *)
(** ** Facts about the Python containers                               *)
(* ================================================================== *)

Module PyFacts.


Lemma mem_In (x : string) (l : list string) : Py.mem x l = true <-> In x l.
Proof.
  unfold Py.mem. rewrite existsb_exists. split.
  - intros [y [Hy Heq]]. apply String.eqb_eq in Heq. now subst.
  - intros H. exists x. split; [assumption | apply String.eqb_refl].
Qed.

Lemma mem_false (x : string) (l : list string) :
  Py.mem x l = false <-> ~ In x l.
Proof.
  rewrite <- mem_In. destruct (Py.mem x l); split; congruence.
Qed.

Lemma mem_app (x : string) (l1 l2 : list string) :
  Py.mem x (l1 ++ l2) = Py.mem x l1 || Py.mem x l2.
Proof. unfold Py.mem. apply existsb_app. Qed.

Lemma set_add_In (x y : string) (s : Py.pyset) :
  In y (Py.set_add x s) <-> y = x \/ In y s.
Proof.
  unfold Py.set_add. destruct (Py.mem x s) eqn:E.
  - apply mem_In in E. split; [auto | intros [->|]; auto].
  - rewrite in_app_iff. simpl. intuition congruence.
Qed.

Lemma set_add_NoDup (x : string) (s : Py.pyset) :
  NoDup s -> NoDup (Py.set_add x s).
Proof.
  intros H. unfold Py.set_add. destruct (Py.mem x s) eqn:E; [assumption|].
  apply mem_false in E.
  apply NoDup_rev in H. rewrite <- (rev_involutive (s ++ [x])).
  apply NoDup_rev. rewrite rev_app_distr. simpl. constructor; [|assumption].
  now rewrite <- in_rev.
Qed.

Section DictFacts.
Variable V : Type.
Implicit Types (d : Py.dict V) (k : string) (v : V).

Lemma get_set_same k v d : Py.get k (Py.set k v d) = Some v.
Proof.
  induction d as [|[k' v'] r IH]; simpl.
  - now rewrite String.eqb_refl.
  - destruct (String.eqb k k') eqn:E; simpl; rewrite E; auto.
Qed.

Lemma get_set_other k k' v d :
  k <> k' -> Py.get k' (Py.set k v d) = Py.get k' d.
Proof.
  intros Hne. induction d as [|[k0 v0] r IH]; simpl.
  - destruct (String.eqb_spec k' k); congruence.
  - destruct (String.eqb_spec k k0) as [->|Hk]; simpl.
    + destruct (String.eqb_spec k' k0); congruence.
    + destruct (String.eqb k' k0); auto.
Qed.

Lemma get_set k k' v d :
  Py.get k' (Py.set k v d) = if String.eqb k' k then Some v else Py.get k' d.
Proof.
  destruct (String.eqb_spec k' k) as [->|Hne].
  - apply get_set_same.
  - apply get_set_other. congruence.
Qed.

Lemma contains_set k k' v d :
  Py.contains k' (Py.set k v d) = String.eqb k' k || Py.contains k' d.
Proof.
  unfold Py.contains. rewrite get_set. now destruct (String.eqb k' k).
Qed.

Lemma contains_keys k d : Py.contains k d = Py.mem k (Py.keys d).
Proof.
  unfold Py.contains, Py.keys, Py.mem.
  induction d as [|[k' v'] r IH]; simpl; [reflexivity|].
  destruct (String.eqb k k'); simpl; auto.
Qed.

Lemma get_None_contains k d : Py.get k d = None <-> Py.contains k d = false.
Proof. unfold Py.contains. destruct (Py.get k d); split; congruence. Qed.

Lemma get_Some_contains k v d : Py.get k d = Some v -> Py.contains k d = true.
Proof. unfold Py.contains. now intros ->. Qed.

(** Assigning to a fresh key appends; to a present key, keeps the keys. *)
Lemma keys_set k v d :
  Py.keys (Py.set k v d) =
  if Py.contains k d then Py.keys d else Py.keys d ++ [k].
Proof.
  unfold Py.keys, Py.contains.
  induction d as [|[k' v'] r IH]; simpl; [reflexivity|].
  destruct (String.eqb k k') eqn:E; simpl; [reflexivity|].
  rewrite IH. now destruct (Py.get k r).
Qed.

Lemma set_fresh k v d :
  Py.contains k d = false -> Py.set k v d = d ++ [(k, v)].
Proof.
  unfold Py.contains.
  induction d as [|[k' v'] r IH]; simpl; [reflexivity|].
  destruct (String.eqb k k') eqn:E; [discriminate|].
  intros H. now rewrite IH.
Qed.

Lemma get_In k v d : Py.get k d = Some v -> In (k, v) d.
Proof.
  induction d as [|[k' v'] r IH]; simpl; [discriminate|].
  destruct (String.eqb_spec k k') as [->|Hne].
  - intros [= ->]. now left.
  - intros H. right. auto.
Qed.

Lemma In_get k v d : NoDup (Py.keys d) -> In (k, v) d -> Py.get k d = Some v.
Proof.
  unfold Py.keys.
  induction d as [|[k' v'] r IH]; simpl; [intros _ []|].
  intros Hnd [Heq|Hin].
  - injection Heq as -> ->. now rewrite String.eqb_refl.
  - inversion Hnd as [|? ? Hnot Hnd']; subst.
    destruct (String.eqb_spec k k') as [->|Hne]; [|auto].
    exfalso. apply Hnot. apply in_map_iff. now exists (k', v).
Qed.
End DictFacts.

End PyFacts.

(* ================================================================== *)
(** ** The enclosing-function resolver                                 *)
(* ================================================================== *)

Lemma encloses_iff (d : FunctionDef.t) (line : Z) :
  encloses d line = true <->
  FunctionDef.start_line d <= line <= FunctionDef.end_line d.
Proof. unfold encloses. rewrite andb_true_iff, !Z.leb_le. tauto. Qed.

(** What the scan returns, starting from any enclosing [best]. *)
Lemma enclosing_scan_spec (line : Z) (fdefs : list FunctionDef.t) :
  forall best : option FunctionDef.t,
    (forall b, best = Some b -> encloses b line = true) ->
    match enclosing_scan fdefs line best with
    | None => best = None /\ forall d, In d fdefs -> encloses d line = false
    | Some r =>
        encloses r line = true
        /\ (best = Some r \/ In r fdefs)
        /\ (forall b, best = Some b -> span r <= span b)
        /\ (forall d, In d fdefs -> encloses d line = true -> span r <= span d)
    end.
Proof.
  induction fdefs as [|fdef rest IH]; intros best Hbest; simpl.
  - destruct best as [b|].
    + repeat split; auto; try tauto.
      intros b' [= ->]. lia.
    + split; [reflexivity | tauto].
  - destruct (encloses fdef line) eqn:Henc.
    + destruct best as [b|].
      * destruct (span fdef <? span b) eqn:Hlt.
        -- apply Z.ltb_lt in Hlt.
           specialize (IH (Some fdef)).
           destruct (enclosing_scan rest line (Some fdef)) as [r|].
           ++ destruct IH as (He & Hin & Hb & Hall); [now intros ? [= <-]|].
              specialize (Hb fdef eq_refl).
              repeat split; auto.
              ** destruct Hin as [[= ->]|Hin]; auto.
              ** intros b' [= <-]. lia.
              ** intros d [<-|Hd] Hd'; auto.
           ++ destruct IH as [Hcontra _]; [now intros ? [= <-]|]. discriminate.
        -- apply Z.ltb_ge in Hlt.
           specialize (IH (Some b) Hbest).
           destruct (enclosing_scan rest line (Some b)) as [r|].
           ++ destruct IH as (He & Hin & Hb & Hall).
              specialize (Hb b eq_refl).
              repeat split; auto.
              ** destruct Hin as [Hin|Hin]; auto.
              ** intros b' [= <-]. lia.
              ** intros d [<-|Hd] Hd'; [lia | auto].
           ++ destruct IH as [Hcontra _]. discriminate.
      * specialize (IH (Some fdef)).
        destruct (enclosing_scan rest line (Some fdef)) as [r|].
        -- destruct IH as (He & Hin & Hb & Hall); [now intros ? [= <-]|].
           specialize (Hb fdef eq_refl).
           repeat split; auto.
           ++ destruct Hin as [[= ->]|Hin]; auto.
           ++ intros b' [=].
           ++ intros d [<-|Hd] Hd'; auto.
        -- destruct IH as [Hcontra _]; [now intros ? [= <-]|]. discriminate.
    + specialize (IH best Hbest).
      destruct (enclosing_scan rest line best) as [r|].
      * destruct IH as (He & Hin & Hb & Hall).
        repeat split; auto.
        -- destruct Hin; auto.
        -- intros d [<-|Hd] Hd'; [congruence | auto].
      * destruct IH as [Hnone Hall]. split; [assumption|].
        intros d [<-|Hd]; auto.
Qed.

(** C9. [_find_enclosing_function(file_path, line)] returns the name of a
    definition of the file whose inclusive line range contains [line] and
    whose span [end_line - start_line] is the smallest among all the
    definitions of the file that contain [line]; it returns [None]
    exactly when no definition of the file contains the line. *)
Theorem find_enclosing_function_innermost
        (self : DependencyGraph) (file_path : string) (line : Z) :
  let fdefs := get_or_nil file_path (_file_functions self) in
  let contains_line (d : FunctionDef.t) :=
    FunctionDef.start_line d <= line <= FunctionDef.end_line d in
  match _find_enclosing_function self file_path line with
  | Some nm =>
      exists d, In d fdefs /\ FunctionDef.name d = nm /\ contains_line d
                /\ forall d', In d' fdefs -> contains_line d' ->
                              FunctionDef.end_line d - FunctionDef.start_line d
                              <= FunctionDef.end_line d' - FunctionDef.start_line d'
  | None => forall d, In d fdefs -> ~ contains_line d
  end.
Proof.
  intros fdefs contains_line. unfold _find_enclosing_function. fold fdefs.
  pose proof (@enclosing_scan_spec line fdefs None) as H.
  destruct (enclosing_scan fdefs line None) as [r|].
  - destruct H as (He & Hin & _ & Hall); [discriminate|].
    exists r. destruct Hin as [Hin|Hin]; [discriminate|].
    repeat split; try (apply encloses_iff in He; unfold contains_line; lia); auto.
    intros d' Hd' Hc. apply (Hall d' Hd'). now apply encloses_iff.
  - destruct H as [_ Hall]; [discriminate|].
    intros d Hd Hc. apply encloses_iff in Hc. rewrite (Hall d Hd) in Hc.
    discriminate.
Qed.

(* ================================================================== *)
(** ** The breadth-first traversal                                     *)
(* ================================================================== *)

Module BfsFacts.
Import nx.

(** The traversal keeps [seen] equal to the source followed by the
    targets of the edges yielded so far, without repetition. *)
Definition tracks (source : string) (s : bfs_state) : Prop :=
  seen s = source :: map snd (yielded s) /\ NoDup (seen s).

Lemma NoDup_snoc (x : string) (l : list string) :
  NoDup l -> ~ In x l -> NoDup (l ++ [x]).
Proof.
  intros Hnd Hx. apply NoDup_rev in Hnd.
  rewrite <- (rev_involutive (l ++ [x])). apply NoDup_rev.
  rewrite rev_app_distr. simpl. constructor; [|assumption].
  now rewrite <- in_rev.
Qed.

Lemma tracks_scan_children G source parent children :
  forall s, tracks source s -> tracks source (scan_children G parent children s).
Proof.
  induction children as [|child rest IH]; intros s Hs; simpl; [assumption|].
  destruct (Py.mem child (seen s)) eqn:E; [auto|].
  apply IH. destruct Hs as [Hseen Hnd]. split; simpl.
  - rewrite Hseen, map_app. reflexivity.
  - apply NoDup_snoc; [assumption | now apply PyFacts.mem_false].
Qed.

Lemma tracks_scan_level G n source this :
  forall s, tracks source s -> tracks source (fst (scan_level G n this s)).
Proof.
  induction this as [|[parent children] rest IH]; intros s Hs; simpl;
    [assumption|].
  pose proof (@tracks_scan_children G source parent children s Hs) as H'.
  destruct (Nat.eqb _ n); simpl; auto.
Qed.

Lemma bfs_loop_NoDup G n source budget :
  forall s, tracks source s ->
            NoDup (source :: map snd (bfs_loop G n budget s)).
Proof.
  induction budget as [|b IH]; intros s Hs.
  - assert (bfs_loop G n 0 s = yielded s) as ->
        by (simpl; now destruct (next_level s)).
    destruct Hs as [Hseen Hnd]. now rewrite <- Hseen.
  - cbn [bfs_loop]. destruct (next_level s) as [|pc rest] eqn:Hnext.
    + destruct Hs as [Hseen Hnd]. now rewrite <- Hseen.
    + set (s0 := {| seen := seen s; next_level := []; yielded := yielded s |}).
      assert (tracks source s0) as Hs0 by exact Hs.
      pose proof (@tracks_scan_level G n source (pc :: rest) s0 Hs0) as H'.
      destruct (scan_level G n (pc :: rest) s0) as [s' returned].
      cbn [fst] in H'. destruct returned.
      * destruct H' as [Hseen Hnd]. now rewrite <- Hseen.
      * now apply IH.
Qed.

(** No node is reached twice, and the source is never reached again. *)
Lemma bfs_edges_NoDup G source depth :
  NoDup (source :: map snd (bfs_edges G source depth)).
Proof.
  unfold bfs_edges. apply bfs_loop_NoDup. split; simpl; [reflexivity|].
  constructor; [tauto | constructor].
Qed.

(** With no iteration allowed, nothing is yielded. *)
Lemma bfs_edges_nonpositive G source depth :
  depth <= 0 -> bfs_edges G source depth = [].
Proof.
  intros Hd. unfold bfs_edges.
  replace (Z.to_nat depth) with O by lia. reflexivity.
Qed.

(** A two-node cycle yields its one forward edge at every positive
    depth, whatever else the graph holds. *)
Lemma bfs_edges_two_cycle G A B depth :
  A <> B -> neighbors G A = [B] -> neighbors G B = [A] -> 1 <= depth ->
  bfs_edges G A depth = [(A, B)].
Proof.
  intros Hne HA HB Hd. unfold bfs_edges. rewrite HA.
  destruct (Z.to_nat depth) as [|b] eqn:Hb; [lia|].
  assert (Py.mem B [A] = false) as HmB.
  { apply PyFacts.mem_false. simpl. intuition congruence. }
  assert (Py.mem A [A; B] = true) as HmA.
  { apply PyFacts.mem_In. now left. }
  cbn [bfs_loop next_level seen yielded scan_level scan_children].
  rewrite HmB. cbn [seen next_level yielded app]. rewrite HB.
  destruct (Nat.eqb (List.length [A; B]) (number_of_nodes G)) eqn:En;
    [reflexivity|].
  destruct b as [|b']; [reflexivity|].
  cbn [bfs_loop next_level seen yielded scan_level scan_children].
  rewrite HmA. cbn [seen]. rewrite En.
  destruct b'; reflexivity.
Qed.

End BfsFacts.

(* ================================================================== *)
(** ** The reachability slicer                                         *)
(* ================================================================== *)

(** [n] is a node of the graph carrying the definition [d]: what
    [graph.add_node(n, data=d)] establishes. *)
Definition registered (self : DependencyGraph) (n : string) (d : FunctionDef.t) : Prop :=
  Py.get n (nx._node (graph self)) = Some (Some d).

Lemma registered_has_node self n d :
  registered self n d -> nx.has_node (graph self) n = true.
Proof. unfold registered, nx.has_node, Py.contains. now intros ->. Qed.

Lemma registered_node_data self n d :
  registered self n d -> nx.node_data (graph self) n = Some d.
Proof. unfold registered, nx.node_data. now intros ->. Qed.

Lemma reachable_set_spec G node_id depth :
  reachable_set G node_id depth = node_id :: map snd (nx.bfs_edges G node_id depth).
Proof.
  unfold reachable_set.
  pose proof (BfsFacts.bfs_edges_NoDup G node_id depth) as Hnd.
  remember (nx.bfs_edges G node_id depth) as es eqn:Hes. clear Hes.
  change (node_id :: map snd es) with ([node_id] ++ map snd es).
  change (node_id :: map snd es) with ([node_id] ++ map snd es) in Hnd.
  generalize dependent ([node_id]).
  induction es as [|e es IH]; intros acc Hnd; simpl.
  - now rewrite app_nil_r.
  - simpl in Hnd. unfold Py.set_add.
    assert (~ In (snd e) acc) as Hnot.
    { apply NoDup_remove_2 in Hnd. rewrite in_app_iff in Hnd. tauto. }
    apply PyFacts.mem_false in Hnot. rewrite Hnot.
    rewrite IH.
    + now rewrite <- app_assoc.
    + rewrite <- app_assoc. exact Hnd.
Qed.

Lemma reachable_set_NoDup G node_id depth :
  NoDup (reachable_set G node_id depth).
Proof. rewrite reachable_set_spec. apply BfsFacts.bfs_edges_NoDup. Qed.

(** C5. For a node [n] registered with the definition [d],
    [get_slice(n, 0)] is the one-element list [[d]]: no neighbour of [n]
    is included at depth 0. *)
Theorem get_slice_depth_zero
        (ord : Py.SetOrder) (self : DependencyGraph)
        (n : string) (d : FunctionDef.t) :
  registered self n d ->
  get_slice ord self n 0 = [d].
Proof.
  intros Hreg. unfold get_slice.
  rewrite (registered_has_node Hreg). simpl negb. cbv iota.
  rewrite reachable_set_spec, BfsFacts.bfs_edges_nonpositive by lia.
  simpl map.
  assert (Py.iter ord [n] = [n]) as ->.
  { apply Permutation_length_1_inv. apply Permutation_sym.
    apply Py.iter_perm. constructor; [tauto | constructor]. }
  simpl. now rewrite (registered_node_data Hreg).
Qed.

(** C6. [get_slice] is a total function of the graph, the start node and
    the depth (its loop is bounded by the depth counter, cyclic graph or
    not); the traversal reaches no node twice and never re-enters the
    start node, so that [reachable] is the start node followed by the
    distinct nodes reached; and on a graph in which [A] and [B] form the
    two-node cycle [A -> B], [B -> A], [get_slice(A, d)] for every
    [d >= 1] is made of exactly the definitions of [A] and [B]. *)
Theorem get_slice_cycle_safe (ord : Py.SetOrder) (self : DependencyGraph) :
  (forall (n : string) (depth : Z),
      NoDup (n :: map snd (nx.bfs_edges (graph self) n depth))
      /\ reachable_set (graph self) n depth
         = n :: map snd (nx.bfs_edges (graph self) n depth))
  /\ (forall (A B : string) (dA dB : FunctionDef.t) (depth : Z),
         A <> B ->
         registered self A dA ->
         registered self B dB ->
         nx.neighbors (graph self) A = [B] ->
         nx.neighbors (graph self) B = [A] ->
         1 <= depth ->
         Permutation (get_slice ord self A depth) [dA; dB]
         /\ List.length (get_slice ord self A depth) = 2%nat).
Proof.
  split.
  - intros n depth. split; [apply BfsFacts.bfs_edges_NoDup|].
    apply reachable_set_spec.
  - intros A B dA dB depth Hne HA HB HnA HnB Hd.
    assert (Permutation (get_slice ord self A depth) [dA; dB]) as Hperm.
    { unfold get_slice. rewrite (registered_has_node HA). simpl negb. cbv iota.
      pose proof (Py.iter_perm ord (reachable_set_NoDup (graph self) A depth)) as Hp.
      rewrite reachable_set_spec in Hp.
      rewrite reachable_set_spec.
      rewrite (BfsFacts.bfs_edges_two_cycle (graph self) Hne HnA HnB Hd) in *.
      simpl map in *.
      apply Permutation_sym, Permutation_length_2_inv in Hp.
      destruct Hp as [-> | ->]; simpl;
        rewrite (registered_node_data HA), (registered_node_data HB).
      - apply Permutation_refl.
      - apply perm_swap. }
    split; [assumption|].
    now rewrite (Permutation_length Hperm).
Qed.

(** C10. A call that leaves [depth] out runs the method with
    [depth = 5], for [get_slice] and for [get_route_context]; a call
    that gives [depth] runs it with that depth. *)
Theorem default_depth_is_five
        (fs : Path.FileSystem) (ord : Py.SetOrder) (self : DependencyGraph) :
  (forall n : string,
      get_slice_call ord self n None = get_slice ord self n 5)
  /\ (forall r : RouteInfo.t,
         get_route_context_call fs ord self r None
         = get_route_context fs ord self r 5)
  /\ (forall (n : string) (d : Z),
         get_slice_call ord self n (Some d) = get_slice ord self n d)
  /\ (forall (r : RouteInfo.t) (d : Z),
         get_route_context_call fs ord self r (Some d)
         = get_route_context fs ord self r d).
Proof. repeat split; intros; reflexivity. Qed.

(* ================================================================== *)
(** ** Facts about [DiGraph]                                           *)
(* ================================================================== *)

Module GraphFacts.
Import nx.

Lemma mem_set_add (x y : string) (l : list string) :
  Py.mem y (Py.set_add x l) = String.eqb y x || Py.mem y l.
Proof.
  unfold Py.set_add. destruct (Py.mem x l) eqn:E.
  - destruct (String.eqb_spec y x) as [->|]; [now rewrite E | reflexivity].
  - rewrite PyFacts.mem_app. simpl. rewrite orb_false_r. apply orb_comm.
Qed.

Lemma touch_present G n :
  Py.contains n (_succ G) = true -> touch G n = G.
Proof. unfold touch. now intros ->. Qed.

Lemma has_node_add_node G n d x :
  has_node (add_node G n d) x = String.eqb x n || has_node G x.
Proof.
  unfold has_node, add_node.
  destruct (Py.contains n (_succ G)); simpl; apply PyFacts.contains_set.
Qed.

Lemma node_add_node G n d x :
  Py.get x (_node (add_node G n d))
  = if String.eqb x n then Some (Some d) else Py.get x (_node G).
Proof.
  unfold add_node.
  destruct (Py.contains n (_succ G)); simpl; apply PyFacts.get_set.
Qed.

Lemma succ_contains_add_node G n d x :
  Py.contains x (_succ (add_node G n d))
  = String.eqb x n || Py.contains x (_succ G).
Proof.
  unfold add_node. destruct (Py.contains n (_succ G)) eqn:E; simpl.
  - destruct (String.eqb_spec x n) as [->|]; [now rewrite E | reflexivity].
  - apply PyFacts.contains_set.
Qed.

Lemma neighbors_add_node G n d x :
  neighbors (add_node G n d) x = neighbors G x.
Proof.
  unfold neighbors, add_node.
  destruct (Py.contains n (_succ G)) eqn:E; simpl; [reflexivity|].
  rewrite PyFacts.get_set.
  destruct (String.eqb_spec x n) as [->|]; [|reflexivity].
  apply PyFacts.get_None_contains in E. now rewrite E.
Qed.

Lemma has_edge_add_node G n d u v :
  has_edge (add_node G n d) u v = has_edge G u v.
Proof. unfold has_edge. now rewrite neighbors_add_node. Qed.

(** Between two nodes, [add_edge] only extends one successor list. *)
Lemma add_edge_present G u v :
  Py.contains u (_succ G) = true ->
  Py.contains v (_succ G) = true ->
  add_edge G u v
  = {| _node := _node G;
       _succ := Py.set u (Py.set_add v (neighbors G u)) (_succ G) |}.
Proof.
  intros Hu Hv. unfold add_edge.
  rewrite (@touch_present G u Hu), (@touch_present G v Hv). reflexivity.
Qed.

Lemma has_edge_add_edge G u v x y :
  Py.contains u (_succ G) = true ->
  Py.contains v (_succ G) = true ->
  has_edge (add_edge G u v) x y
  = (String.eqb x u && String.eqb y v) || has_edge G x y.
Proof.
  intros Hu Hv. rewrite (@add_edge_present G u v Hu Hv).
  unfold has_edge, neighbors at 1. simpl. rewrite PyFacts.get_set.
  destruct (String.eqb_spec x u) as [->|]; simpl; [|reflexivity].
  apply mem_set_add.
Qed.

Lemma succ_contains_add_edge G u v x :
  Py.contains u (_succ G) = true ->
  Py.contains v (_succ G) = true ->
  Py.contains x (_succ (add_edge G u v)) = Py.contains x (_succ G).
Proof.
  intros Hu Hv. rewrite (@add_edge_present G u v Hu Hv). simpl.
  rewrite PyFacts.contains_set.
  destruct (String.eqb_spec x u) as [->|]; [now rewrite Hu | reflexivity].
Qed.

(** The class invariant of [DiGraph] that the code relies on: the two
    dicts have the same keys and every successor is a node. *)
Definition closed (G : DiGraph) : Prop :=
  (forall k, Py.contains k (_succ G) = has_node G k)
  /\ (forall u v, has_edge G u v = true ->
                  has_node G u = true /\ has_node G v = true).

Lemma closed_empty : closed empty.
Proof. split; [reflexivity | discriminate]. Qed.

Lemma closed_add_node G n d : closed G -> closed (add_node G n d).
Proof.
  intros [Hk He]. split.
  - intros k. rewrite succ_contains_add_node, has_node_add_node. now rewrite Hk.
  - intros u v. rewrite has_edge_add_node, !has_node_add_node.
    intros H. destruct (He u v H) as [-> ->]. now rewrite !orb_true_r.
Qed.

Lemma closed_add_edge G u v :
  closed G -> has_node G u = true -> has_node G v = true ->
  closed (add_edge G u v).
Proof.
  intros [Hk He] Hu Hv.
  assert (Py.contains u (_succ G) = true) as Hu' by now rewrite Hk.
  assert (Py.contains v (_succ G) = true) as Hv' by now rewrite Hk.
  assert (forall k, has_node (add_edge G u v) k = has_node G k) as Hn.
  { intros k. now rewrite (@add_edge_present G u v Hu' Hv'). }
  split.
  - intros k. now rewrite succ_contains_add_edge, Hn.
  - intros x y. rewrite has_edge_add_edge, !Hn by assumption.
    intros H. apply orb_true_iff in H. destruct H as [H|H]; [|auto].
    apply andb_true_iff in H. destruct H as [Hx Hy].
    apply String.eqb_eq in Hx, Hy. now subst.
Qed.

End GraphFacts.

(* ================================================================== *)
(** ** Phase 1 of [build_graph]: registration                          *)
(* ================================================================== *)

Module Registration.
Import nx.

(** The graph is well formed and its nodes are the entries of the
    symbol table, each carrying its definition. *)
Definition consistent (self : DependencyGraph) : Prop :=
  GraphFacts.closed (graph self)
  /\ forall k, Py.get k (_node (graph self))
               = option_map Some (Py.get k (_symbol_table self)).

Lemma consistent_init : consistent __init__.
Proof. split; [apply GraphFacts.closed_empty | reflexivity]. Qed.

Lemma consistent_has_node self k :
  consistent self ->
  has_node (graph self) k = Py.contains k (_symbol_table self).
Proof.
  intros [_ H]. unfold has_node, Py.contains. rewrite H.
  now destruct (Py.get k (_symbol_table self)).
Qed.

Lemma consistent_registered self k d :
  consistent self ->
  Py.get k (_symbol_table self) = Some d -> registered self k d.
Proof. intros [_ H] Hk. unfold registered. now rewrite H, Hk. Qed.

Lemma consistent_register_def path self fdef :
  consistent self -> consistent (register_def path self fdef).
Proof.
  intros [Hc Hn]. split; simpl.
  - now apply GraphFacts.closed_add_node.
  - intros k. rewrite GraphFacts.node_add_node, PyFacts.get_set.
    destruct (String.eqb k _); [reflexivity | apply Hn].
Qed.

(** The names that a list of definitions of the file [path] declares. *)
Definition declares (path : string) (fdefs : list FunctionDef.t) (k : string) : bool :=
  existsb (fun d => String.eqb k (node_id_of path (FunctionDef.name d))) fdefs.

Definition declared (files : list SourceFile) (k : string) : bool :=
  existsb (fun f => declares (str_path f) (defs f) k) files.

Section Folds.
Variable path : string.

Lemma register_defs_consistent fdefs :
  forall self, consistent self ->
               consistent (fold_left (register_def path) fdefs self).
Proof.
  induction fdefs as [|d r IH]; intros self H; simpl; [assumption|].
  apply IH. now apply consistent_register_def.
Qed.

Lemma register_defs_fields fdefs :
  forall self,
    let self' := fold_left (register_def path) fdefs self in
    _file_functions self' = _file_functions self
    /\ _file_calls self' = _file_calls self
    /\ _file_imports self' = _file_imports self.
Proof.
  induction fdefs as [|d r IH]; intros self; simpl; [tauto|].
  destruct (IH (register_def path self d)) as (H1 & H2 & H3).
  simpl in *. now rewrite H1, H2, H3.
Qed.

Lemma register_defs_symbols fdefs k :
  forall self,
    Py.contains k (_symbol_table (fold_left (register_def path) fdefs self))
    = Py.contains k (_symbol_table self) || declares path fdefs k.
Proof.
  induction fdefs as [|d r IH]; intros self; simpl.
  - now rewrite orb_false_r.
  - rewrite IH. simpl. rewrite PyFacts.contains_set.
    destruct (String.eqb k _); simpl;
      [now rewrite !orb_true_r | reflexivity].
Qed.

Lemma register_defs_nodes fdefs k :
  forall self,
    has_node (graph (fold_left (register_def path) fdefs self)) k
    = has_node (graph self) k || declares path fdefs k.
Proof.
  induction fdefs as [|d r IH]; intros self; simpl.
  - now rewrite orb_false_r.
  - rewrite IH. simpl. rewrite GraphFacts.has_node_add_node.
    destruct (String.eqb k _); simpl;
      [now rewrite !orb_true_r | reflexivity].
Qed.

Lemma register_defs_edges fdefs u v :
  forall self,
    has_edge (graph (fold_left (register_def path) fdefs self)) u v
    = has_edge (graph self) u v.
Proof.
  induction fdefs as [|d r IH]; intros self; simpl; [reflexivity|].
  rewrite IH. simpl. apply GraphFacts.has_edge_add_node.
Qed.
End Folds.

Lemma consistent_register_file self f :
  consistent self -> consistent (register_file self f).
Proof. intros H. unfold register_file. now apply register_defs_consistent. Qed.

Lemma consistent_phase1 files :
  forall self, consistent self -> consistent (phase1 files self).
Proof.
  unfold phase1.
  induction files as [|f r IH]; intros self H; simpl; [assumption|].
  apply IH. now apply consistent_register_file.
Qed.

Lemma register_file_fields self f :
  _file_functions (register_file self f)
  = Py.set (str_path f) (defs f) (_file_functions self)
  /\ _file_calls (register_file self f)
     = Py.set (str_path f) (calls f) (_file_calls self)
  /\ _file_imports (register_file self f)
     = Py.set (str_path f) (imports f) (_file_imports self).
Proof. unfold register_file. apply register_defs_fields. Qed.

Lemma phase1_symbols files k :
  forall self,
    Py.contains k (_symbol_table (phase1 files self))
    = Py.contains k (_symbol_table self) || declared files k.
Proof.
  unfold phase1.
  induction files as [|f r IH]; intros self; simpl.
  - now rewrite orb_false_r.
  - rewrite IH. unfold register_file. rewrite register_defs_symbols. simpl.
    now rewrite orb_assoc.
Qed.

Lemma phase1_nodes files k :
  forall self,
    has_node (graph (phase1 files self)) k
    = has_node (graph self) k || declared files k.
Proof.
  unfold phase1.
  induction files as [|f r IH]; intros self; simpl.
  - now rewrite orb_false_r.
  - rewrite IH. unfold register_file. rewrite register_defs_nodes. simpl.
    now rewrite orb_assoc.
Qed.

Lemma phase1_edges files u v :
  forall self,
    has_edge (graph (phase1 files self)) u v = has_edge (graph self) u v.
Proof.
  unfold phase1.
  induction files as [|f r IH]; intros self; simpl; [reflexivity|].
  rewrite IH. unfold register_file. now rewrite register_defs_edges.
Qed.

(** A file that the build does not list keeps its stored facts. *)
Lemma phase1_other_file files p :
  ~ In p (map str_path files) ->
  forall self,
    Py.get p (_file_functions (phase1 files self)) = Py.get p (_file_functions self)
    /\ Py.get p (_file_calls (phase1 files self)) = Py.get p (_file_calls self)
    /\ Py.get p (_file_imports (phase1 files self)) = Py.get p (_file_imports self).
Proof.
  unfold phase1.
  induction files as [|f r IH]; intros Hp self; simpl; [tauto|].
  simpl in Hp.
  destruct (IH (fun H => Hp (or_intror H)) (register_file self f)) as (H1 & H2 & H3).
  destruct (register_file_fields self f) as (E1 & E2 & E3).
  rewrite H1, H2, H3, E1, E2, E3.
  rewrite !PyFacts.get_set_other by tauto. tauto.
Qed.

(** A file that the build lists (once) gets its facts stored. *)
Lemma phase1_listed_file files f :
  NoDup (map str_path files) -> In f files ->
  forall self,
    Py.get (str_path f) (_file_functions (phase1 files self)) = Some (defs f)
    /\ Py.get (str_path f) (_file_calls (phase1 files self)) = Some (calls f)
    /\ Py.get (str_path f) (_file_imports (phase1 files self)) = Some (imports f).
Proof.
  induction files as [|g r IH]; intros Hnd Hin self; [destruct Hin|].
  simpl in Hnd. inversion Hnd as [|? ? Hg Hnd']; subst.
  destruct Hin as [->|Hin].
  - change (phase1 (f :: r) self) with (phase1 r (register_file self f)).
    destruct (@phase1_other_file r (str_path f) Hg (register_file self f))
      as (H1 & H2 & H3).
    destruct (register_file_fields self f) as (E1 & E2 & E3).
    rewrite H1, H2, H3, E1, E2, E3, !PyFacts.get_set_same. tauto.
  - change (phase1 (g :: r) self) with (phase1 r (register_file self g)).
    now apply IH.
Qed.

End Registration.

(* ================================================================== *)
(** ** Phase 2 of [build_graph]: resolution                            *)
(* ================================================================== *)

Module Resolution.
Import nx Registration.

Lemma for_each_app {A B : Type} (f : B -> A -> Py.result B) (l1 l2 : list A) :
  forall b, for_each f (l1 ++ l2) b = (b' <- for_each f l1 b ;; for_each f l2 b').
Proof.
  induction l1 as [|a r IH]; intros b; simpl; [reflexivity|].
  destruct (f b a); simpl; auto.
Qed.

(** The call sites that phase 2 visits, in order, each with the path of
    its file. *)
Definition sites (items : Py.dict (list FunctionCall.t))
  : list (string * FunctionCall.t) :=
  flat_map (fun item => map (pair (fst item)) (snd item)) items.

Section WithFileSystem.
Variable fs : Path.FileSystem.

(** What one call site asks of the graph: nothing, or one edge. *)
Definition call_edge (self : DependencyGraph) (file_path : string)
           (call : FunctionCall.t) : Py.result (option (string * string)) :=
  match _find_enclosing_function self file_path (FunctionCall.line call) with
  | None => Py.Ok None
  | Some caller_name =>
      if negb (Py.truthy caller_name) then Py.Ok None
      else
        let caller_id := node_id_of file_path caller_name in
        if in_local_defs (FunctionCall.name call)
             (get_or_nil file_path (_file_functions self)) then
          let callee_id := node_id_of file_path (FunctionCall.name call) in
          if has_node (graph self) caller_id && has_node (graph self) callee_id
          then Py.Ok (Some (caller_id, callee_id))
          else Py.Ok None
        else
          resolved <- _resolve_call_via_imports fs self file_path
                        (FunctionCall.name call) ;;
          match resolved with
          | Some r =>
              if Py.truthy r && has_node (graph self) caller_id
              then Py.Ok (Some (caller_id, r))
              else Py.Ok None
          | None => Py.Ok None
          end
  end.

Definition apply_edge (self : DependencyGraph) (e : option (string * string))
  : DependencyGraph :=
  match e with
  | Some (u, v) => with_graph self (add_edge (graph self) u v)
  | None => self
  end.

Lemma resolve_call_edge file_path self call :
  resolve_call fs file_path self call
  = (e <- call_edge self file_path call ;; Py.Ok (apply_edge self e)).
Proof.
  unfold resolve_call, call_edge.
  destruct (_find_enclosing_function self file_path _) as [caller|];
    [|reflexivity].
  destruct (negb (Py.truthy caller)); [reflexivity|].
  destruct (in_local_defs _ _).
  - destruct (_ && _); reflexivity.
  - destruct (_resolve_call_via_imports fs self file_path _) as [[r|]|e];
      simpl; try reflexivity.
    destruct (_ && _); reflexivity.
Qed.

(** An import resolves to an entry of the symbol table only. *)
Lemma scan_imports_registered self file_path call_name imps r :
  scan_imports fs self file_path call_name imps = Py.Ok (Some r) ->
  Py.contains r (_symbol_table self) = true.
Proof.
  induction imps as [|imp rest IH]; simpl; [discriminate|].
  destruct (String.eqb _ call_name); [|exact IH].
  destruct (_resolve_import_path fs _ _) as [[rp|]|e]; simpl;
    try discriminate; try exact IH.
  destruct (Py.contains (node_id_of (Path.str rp) call_name)
                        (_symbol_table self)) eqn:E; [|exact IH].
  now intros [= <-].
Qed.

Lemma call_edge_nodes self file_path call u v :
  consistent self ->
  call_edge self file_path call = Py.Ok (Some (u, v)) ->
  has_node (graph self) u = true /\ has_node (graph self) v = true.
Proof.
  intros Hc. unfold call_edge.
  destruct (_find_enclosing_function self file_path _) as [caller|];
    [|discriminate].
  destruct (negb (Py.truthy caller)); [discriminate|].
  destruct (in_local_defs _ _).
  - destruct (has_node _ _ && has_node _ _) eqn:E; [|discriminate].
    intros [= <- <-]. now apply andb_true_iff in E.
  - destruct (_resolve_call_via_imports fs self file_path _) as [[r|]|e] eqn:Er;
      simpl; try discriminate.
    destruct (Py.truthy r && has_node _ _) eqn:E; [|discriminate].
    intros [= <- <-]. apply andb_true_iff in E. split; [tauto|].
    rewrite (consistent_has_node _ Hc).
    exact (scan_imports_registered _ _ _ _ Er).
Qed.

(** Two instances answer every lookup of the resolvers alike. *)
Definition same_lookups (a b : DependencyGraph) : Prop :=
  (forall p, get_or_nil p (_file_functions a) = get_or_nil p (_file_functions b))
  /\ (forall p, get_or_nil p (_file_imports a) = get_or_nil p (_file_imports b))
  /\ (forall k, Py.contains k (_symbol_table a) = Py.contains k (_symbol_table b))
  /\ (forall k, has_node (graph a) k = has_node (graph b) k).

Lemma same_lookups_refl a : same_lookups a a.
Proof. repeat split. Qed.

Lemma same_lookups_trans a b c :
  same_lookups a b -> same_lookups b c -> same_lookups a c.
Proof.
  intros (H1 & H2 & H3 & H4) (K1 & K2 & K3 & K4).
  repeat split; intros; congruence.
Qed.

Lemma scan_imports_lookups a b file_path call_name imps :
  (forall k, Py.contains k (_symbol_table a) = Py.contains k (_symbol_table b)) ->
  scan_imports fs a file_path call_name imps
  = scan_imports fs b file_path call_name imps.
Proof.
  intros H. induction imps as [|imp rest IH]; simpl; [reflexivity|].
  destruct (String.eqb _ call_name); [|exact IH].
  destruct (_resolve_import_path fs _ _) as [[rp|]|e]; simpl; auto.
  rewrite H. now rewrite IH.
Qed.

Lemma call_edge_lookups a b file_path call :
  same_lookups a b ->
  call_edge a file_path call = call_edge b file_path call.
Proof.
  intros (H1 & H2 & H3 & H4).
  unfold call_edge, _find_enclosing_function, _resolve_call_via_imports.
  rewrite H1, H2, (scan_imports_lookups a b _ _ _ H3).
  destruct (enclosing_scan _ _ None) as [best|]; [|reflexivity].
  destruct (negb (Py.truthy (FunctionDef.name best))); [reflexivity|].
  now rewrite !H4.
Qed.

Lemma apply_edge_spec self e :
  consistent self ->
  (forall u v, e = Some (u, v) ->
               has_node (graph self) u = true /\ has_node (graph self) v = true) ->
  consistent (apply_edge self e)
  /\ same_lookups self (apply_edge self e)
  /\ _file_calls (apply_edge self e) = _file_calls self
  /\ (forall x y,
         has_edge (graph (apply_edge self e)) x y
         = (match e with
            | Some (u, v) => String.eqb x u && String.eqb y v
            | None => false
            end) || has_edge (graph self) x y).
Proof.
  intros Hc He. destruct e as [[u v]|]; simpl.
  2:{ split; [exact Hc|]. split; [apply same_lookups_refl|].
      split; reflexivity. }
  destruct (He u v eq_refl) as [Hu Hv].
  destruct Hc as [Hcl Hn].
  assert (Py.contains u (_succ (graph self)) = true) as Hu'
      by now rewrite (proj1 Hcl).
  assert (Py.contains v (_succ (graph self)) = true) as Hv'
      by now rewrite (proj1 Hcl).
  assert (_node (add_edge (graph self) u v) = _node (graph self)) as Hnode
      by now rewrite (@GraphFacts.add_edge_present _ u v Hu' Hv').
  split; [split|split; [|split]]; unfold with_graph;
    cbn [graph _symbol_table _file_functions _file_imports _file_calls].
  - now apply GraphFacts.closed_add_edge.
  - intros k. now rewrite Hnode.
  - split; [reflexivity|]. split; [reflexivity|]. split; [reflexivity|].
    intros k. cbn [graph]. unfold has_node. now rewrite Hnode.
  - reflexivity.
  - intros x y. now apply GraphFacts.has_edge_add_edge.
Qed.

(** The loop over call sites, against the lookups of a reference
    instance [ref]: it raises exactly when a site raises, and
    otherwise adds the edges that the sites ask for. *)
Lemma resolve_sites_spec (ref : DependencyGraph)
      (todo : list (string * FunctionCall.t)) :
  forall self,
    consistent self -> same_lookups ref self ->
    match for_each (fun st pc => resolve_call fs (fst pc) st (snd pc)) todo self with
    | Py.Raise _ =>
        exists pc, In pc todo
                   /\ Py.raises (call_edge ref (fst pc) (snd pc)) = true
    | Py.Ok self' =>
        consistent self'
        /\ same_lookups ref self'
        /\ _file_calls self' = _file_calls self
        /\ (forall pc, In pc todo ->
                       Py.raises (call_edge ref (fst pc) (snd pc)) = false)
        /\ (forall x y,
               has_edge (graph self') x y = true <->
               has_edge (graph self) x y = true
               \/ exists pc, In pc todo
                             /\ call_edge ref (fst pc) (snd pc)
                                = Py.Ok (Some (x, y)))
    end.
Proof.
  induction todo as [|[p c] rest IH]; intros self Hc Hl; simpl.
  - split; [exact Hc|]. split; [exact Hl|]. split; [reflexivity|].
    split; [intros pc []|].
    intros x y. split; [now left | intros [H|[pc [[] _]]]; exact H].
  - rewrite resolve_call_edge.
    rewrite <- (call_edge_lookups p c Hl).
    destruct (call_edge ref p c) as [e|ex] eqn:Ee; simpl.
    2:{ exists (p, c). split; [now left | simpl; now rewrite Ee]. }
    assert (forall u v, e = Some (u, v) ->
                        has_node (graph self) u = true
                        /\ has_node (graph self) v = true) as Hnodes.
    { intros u v ->. apply (@call_edge_nodes self p c u v Hc).
      now rewrite <- (call_edge_lookups p c Hl). }
    destruct (apply_edge_spec Hc Hnodes) as (Hc' & Hl' & Hcalls & Hedge).
    specialize (IH (apply_edge self e) Hc' (same_lookups_trans Hl Hl')).
    destruct (for_each _ rest (apply_edge self e)) as [self'|ex].
    + destruct IH as (Hc2 & Hl2 & Hcalls2 & Hok & Hedges).
      split; [exact Hc2|]. split; [exact Hl2|].
      split; [congruence|].
      split; [intros pc [<-|Hin]; [simpl; now rewrite Ee | auto]|].
      intros x y. split.
      * intros H. apply Hedges in H. rewrite Hedge in H.
        destruct H as [H|[pc [Hin Hpc]]].
        -- apply orb_true_iff in H. destruct H as [H|H]; [|now left].
           right. exists (p, c). split; [now left|]. simpl. rewrite Ee.
           destruct e as [[u v]|]; [|discriminate].
           apply andb_true_iff in H. destruct H as [Hx Hy].
           apply String.eqb_eq in Hx, Hy. now subst.
        -- right. exists pc. split; [now right | assumption].
      * intros H. apply Hedges. rewrite Hedge.
        destruct H as [H|[pc [[<-|Hin] Hpc]]].
        -- left. rewrite H. apply orb_true_r.
        -- left. simpl in Hpc. rewrite Ee in Hpc. injection Hpc as ->.
           now rewrite !String.eqb_refl.
        -- right. now exists pc.
    + destruct IH as [pc [Hin Hpc]]. exists pc. split; [now right | assumption].
Qed.

Lemma phase2_sites self :
  phase2 fs self
  = for_each (fun st pc => resolve_call fs (fst pc) st (snd pc))
             (sites (_file_calls self)) self.
Proof.
  unfold phase2, sites.
  generalize (_file_calls self) as items. intros items. revert self.
  induction items as [|[p cs] rest IH]; intros self; simpl; [reflexivity|].
  rewrite for_each_app. unfold _resolve_calls at 1.
  assert (forall st, for_each (resolve_call fs p) cs st
                     = for_each (fun st pc => resolve_call fs (fst pc) st (snd pc))
                                (map (pair p) cs) st) as Hmap.
  { induction cs as [|c cs' IHc]; intros st; simpl; [reflexivity|].
    destruct (resolve_call fs p st c); simpl; auto. }
  rewrite Hmap.
  destruct (for_each _ (map (pair p) cs) self); simpl; auto.
Qed.

End WithFileSystem.

End Resolution.

(* ================================================================== *)
(** ** [build_graph] as a whole                                        *)
(* ================================================================== *)

Module Build.
Import nx Registration Resolution.

(** The answers of the three per-file stores. *)
Definition same_stores (a b : DependencyGraph) : Prop :=
  (forall p, Py.get p (_file_functions a) = Py.get p (_file_functions b))
  /\ (forall p, Py.get p (_file_calls a) = Py.get p (_file_calls b))
  /\ (forall p, Py.get p (_file_imports a) = Py.get p (_file_imports b)).

Lemma same_stores_register_file a b f :
  same_stores a b -> same_stores (register_file a f) (register_file b f).
Proof.
  intros (H1 & H2 & H3).
  destruct (register_file_fields a f) as (A1 & A2 & A3).
  destruct (register_file_fields b f) as (B1 & B2 & B3).
  repeat split; intros p;
    rewrite ?A1, ?A2, ?A3, ?B1, ?B2, ?B3, !PyFacts.get_set;
    destruct (String.eqb p (str_path f)); auto.
Qed.

Lemma same_stores_phase1 files :
  forall a b, same_stores a b -> same_stores (phase1 files a) (phase1 files b).
Proof.
  unfold phase1.
  induction files as [|f r IH]; intros a b H; simpl; [assumption|].
  apply IH. now apply same_stores_register_file.
Qed.

Lemma same_stores_swap a x y :
  str_path x <> str_path y ->
  same_stores (register_file (register_file a y) x)
              (register_file (register_file a x) y).
Proof.
  intros Hne.
  destruct (register_file_fields (register_file a y) x) as (A1 & A2 & A3).
  destruct (register_file_fields (register_file a x) y) as (B1 & B2 & B3).
  destruct (register_file_fields a x) as (C1 & C2 & C3).
  destruct (register_file_fields a y) as (D1 & D2 & D3).
  repeat split; intros p;
    rewrite ?A1, ?A2, ?A3, ?B1, ?B2, ?B3, ?C1, ?C2, ?C3, ?D1, ?D2, ?D3,
      !PyFacts.get_set;
    destruct (String.eqb_spec p (str_path x));
    destruct (String.eqb_spec p (str_path y)); congruence.
Qed.

(** Listing distinct files in another order fills the stores alike. *)
Lemma same_stores_perm files files' :
  Permutation files files' ->
  NoDup (map str_path files) ->
  forall a b, same_stores a b ->
              same_stores (phase1 files a) (phase1 files' b).
Proof.
  induction 1 as [|x l l' Hp IH|x y l|l l' l'' Hp1 IH1 Hp2 IH2];
    intros Hnd a b Hab.
  - assumption.
  - simpl in Hnd. inversion Hnd; subst. unfold phase1 in *. simpl.
    apply IH; [assumption | now apply same_stores_register_file].
  - simpl in Hnd. inversion Hnd as [|? ? Hy Hnd']; subst.
    unfold phase1. simpl. fold (phase1 l (register_file (register_file a y) x)).
    fold (phase1 l (register_file (register_file b x) y)).
    apply same_stores_phase1.
    assert (str_path x <> str_path y) as Hne by (simpl in Hy; intuition congruence).
    destruct (@same_stores_swap a x y Hne) as (S1 & S2 & S3).
    destruct (@same_stores_register_file _ _ y
                (@same_stores_register_file _ _ x Hab)) as (T1 & T2 & T3).
    repeat split; intros p; congruence.
  - assert (NoDup (map str_path l')) as Hnd'.
    { eapply Permutation_NoDup; [apply Permutation_map; eassumption | assumption]. }
    destruct (IH1 Hnd a a) as (S1 & S2 & S3); [repeat split|].
    destruct (IH2 Hnd' a b Hab) as (T1 & T2 & T3).
    repeat split; intros p; congruence.
Qed.

Lemma declared_perm files files' k :
  Permutation files files' -> declared files k = declared files' k.
Proof.
  intros Hp. unfold declared. apply eq_true_iff_eq.
  rewrite !existsb_exists. split; intros [f [Hin Hf]]; exists f; split; auto.
  - eapply Permutation_in; eassumption.
  - eapply Permutation_in; [apply Permutation_sym|]; eassumption.
Qed.

(** The stores keep one entry per file. *)
Lemma calls_keys_NoDup files :
  forall self, NoDup (Py.keys (_file_calls self)) ->
               NoDup (Py.keys (_file_calls (phase1 files self))).
Proof.
  unfold phase1.
  induction files as [|f r IH]; intros self H; simpl; [assumption|].
  apply IH. destruct (register_file_fields self f) as (_ & -> & _).
  rewrite PyFacts.keys_set.
  destruct (Py.contains (str_path f) (_file_calls self)) eqn:E; [assumption|].
  apply BfsFacts.NoDup_snoc; [assumption|].
  rewrite PyFacts.contains_keys in E. now apply PyFacts.mem_false.
Qed.

Lemma sites_members (d : Py.dict (list FunctionCall.t)) p c :
  NoDup (Py.keys d) ->
  (In (p, c) (sites d) <-> exists cs, Py.get p d = Some cs /\ In c cs).
Proof.
  intros Hnd. unfold sites. rewrite in_flat_map. split.
  - intros [[p' cs] [Hin Hc]]. simpl in Hc. apply in_map_iff in Hc.
    destruct Hc as [c' [[= <- <-] Hc]].
    exists cs. split; [now apply PyFacts.In_get | assumption].
  - intros [cs [Hget Hc]]. exists (p, cs). split.
    + now apply PyFacts.get_In.
    + simpl. now apply in_map.
Qed.

Lemma same_stores_lookups a b :
  same_stores a b ->
  (forall k, Py.contains k (_symbol_table a) = Py.contains k (_symbol_table b)) ->
  (forall k, has_node (graph a) k = has_node (graph b) k) ->
  same_lookups a b.
Proof.
  intros (H1 & H2 & H3) Hs Hn.
  split; [|split; [|split]]; intros; unfold get_or_nil;
    rewrite ?H1, ?H3; auto.
Qed.

Section WithFileSystem.
Variable fs : Path.FileSystem.

(** Resolution changes the graph only. *)
Lemma resolve_sites_facts (todo : list (string * FunctionCall.t)) :
  forall self self',
    for_each (fun st pc => resolve_call fs (fst pc) st (snd pc)) todo self
    = Py.Ok self' ->
    _file_functions self' = _file_functions self
    /\ _file_calls self' = _file_calls self
    /\ _file_imports self' = _file_imports self
    /\ _symbol_table self' = _symbol_table self.
Proof.
  induction todo as [|[p c] rest IH]; intros self self'; simpl.
  - intros [= <-]. tauto.
  - rewrite resolve_call_edge.
    destruct (call_edge fs self p c) as [e|ex]; simpl; [|discriminate].
    intros H. apply IH in H.
    destruct e as [[u v]|]; simpl in H; exact H.
Qed.

(** What a build does to an instance in a consistent state. *)
Lemma build_graph_spec files self :
  consistent self ->
  let s1 := phase1 files self in
  match build_graph fs files self with
  | Py.Raise _ =>
      exists pc, In pc (sites (_file_calls s1))
                 /\ Py.raises (call_edge fs s1 (fst pc) (snd pc)) = true
  | Py.Ok self' =>
      consistent self'
      /\ same_lookups s1 self'
      /\ (_file_functions self' = _file_functions s1
          /\ _file_calls self' = _file_calls s1
          /\ _file_imports self' = _file_imports s1
          /\ _symbol_table self' = _symbol_table s1)
      /\ (forall pc, In pc (sites (_file_calls s1)) ->
                     Py.raises (call_edge fs s1 (fst pc) (snd pc)) = false)
      /\ (forall x y,
             has_edge (graph self') x y = true <->
             has_edge (graph self) x y = true
             \/ exists pc, In pc (sites (_file_calls s1))
                           /\ call_edge fs s1 (fst pc) (snd pc)
                              = Py.Ok (Some (x, y)))
  end.
Proof.
  intros Hc s1. unfold build_graph. fold s1. rewrite phase2_sites.
  pose proof (@resolve_sites_spec fs s1 (sites (_file_calls s1)) s1
                (consistent_phase1 files Hc) (same_lookups_refl s1)) as H.
  pose proof (@resolve_sites_facts (sites (_file_calls s1)) s1) as Hf.
  destruct (for_each _ (sites (_file_calls s1)) s1) as [self'|ex];
    [|exact H].
  destruct H as (H1 & H2 & _ & H4 & H5).
  split; [exact H1|]. split; [exact H2|]. split; [now apply Hf|].
  split; [exact H4|].
  intros x y. rewrite H5. unfold s1 at 1. now rewrite phase1_edges.
Qed.

Lemma build_graph_consistent files self self' :
  consistent self -> build_graph fs files self = Py.Ok self' ->
  consistent self'.
Proof.
  intros Hc Hb. pose proof (build_graph_spec files Hc) as H.
  cbv zeta in H. rewrite Hb in H. tauto.
Qed.

End WithFileSystem.

End Build.

(* ================================================================== *)
(** ** Order of the files                                              *)
(* ================================================================== *)

(** C8. Building a fresh instance from the same facts with the files
    listed in another order has the same outcome: either both builds
    raise, or both return, and then the two graphs have the same nodes
    and the same edges.  (Each path is listed once, as the walk does.) *)
Theorem build_graph_order_independent
        (fs : Path.FileSystem) (files files' : list SourceFile) :
  Permutation files files' ->
  NoDup (map str_path files) ->
  match build_graph fs files __init__, build_graph fs files' __init__ with
  | Py.Ok g, Py.Ok g' =>
      (forall n, nx.has_node (graph g) n = nx.has_node (graph g') n)
      /\ (forall u v, nx.has_edge (graph g) u v = nx.has_edge (graph g') u v)
  | Py.Raise _, Py.Raise _ => True
  | _, _ => False
  end.
Proof.
  intros Hperm Hnd.
  set (s1 := phase1 files __init__). set (s1' := phase1 files' __init__).
  assert (Build.same_stores s1 s1') as Hst.
  { apply Build.same_stores_perm; [assumption | assumption | repeat split]. }
  assert (forall k, Py.contains k (_symbol_table s1)
                    = Py.contains k (_symbol_table s1')) as Hsym.
  { intros k. unfold s1, s1'. rewrite !Registration.phase1_symbols.
    now rewrite (Build.declared_perm k Hperm). }
  assert (forall k, nx.has_node (graph s1) k = nx.has_node (graph s1') k) as Hnode.
  { intros k. unfold s1, s1'. rewrite !Registration.phase1_nodes.
    now rewrite (Build.declared_perm k Hperm). }
  pose proof (Build.same_stores_lookups Hst Hsym Hnode) as Hl.
  assert (forall pc, In pc (Resolution.sites (_file_calls s1))
                     <-> In pc (Resolution.sites (_file_calls s1'))) as Hsites.
  { intros [p c].
    rewrite !Build.sites_members
      by (apply Build.calls_keys_NoDup; simpl; constructor).
    destruct Hst as (_ & Hcalls & _). now rewrite Hcalls. }
  pose proof (@Build.build_graph_spec fs files __init__
                Registration.consistent_init) as H.
  pose proof (@Build.build_graph_spec fs files' __init__
                Registration.consistent_init) as H'.
  cbv zeta in H, H'. fold s1 in H. fold s1' in H'.
  destruct (build_graph fs files __init__) as [g|ex];
    destruct (build_graph fs files' __init__) as [g'|ex'].
  - destruct H as (_ & Hlg & _ & _ & He).
    destruct H' as (_ & Hlg' & _ & _ & He').
    split.
    + intros n.
      destruct Hlg as (_ & _ & _ & Hn). destruct Hlg' as (_ & _ & _ & Hn').
      now rewrite <- Hn, <- Hn', Hnode.
    + intros u v. apply eq_true_iff_eq. rewrite He, He'.
      split; (intros [Hc|[pc [Hin Hpc]]]; [now left|]); right; exists pc.
      * split; [now apply Hsites|].
        now rewrite <- (Resolution.call_edge_lookups fs (fst pc) (snd pc) Hl).
      * split; [now apply Hsites|].
        now rewrite (Resolution.call_edge_lookups fs (fst pc) (snd pc) Hl).
  - destruct H as (_ & _ & _ & Hok & _). destruct H' as [pc [Hin Hpc]].
    apply Hsites in Hin. specialize (Hok pc Hin).
    rewrite (Resolution.call_edge_lookups fs (fst pc) (snd pc) Hl) in Hok.
    congruence.
  - destruct H' as (_ & _ & _ & Hok & _). destruct H as [pc [Hin Hpc]].
    apply Hsites in Hin. specialize (Hok pc Hin).
    rewrite (Resolution.call_edge_lookups fs (fst pc) (snd pc) Hl) in Hpc.
    congruence.
  - exact I.
Qed.


(* ================================================================== *)
(** ** Sample projects                                                 *)
(* ================================================================== *)

Definition returned {A : Type} (dflt : A) (m : Py.result A) : A :=
  match m with Py.Ok a => a | Py.Raise _ => dflt end.

Definition fdef_in (path nm : string) (first last : Z) : FunctionDef.t :=
  FunctionDef.mk nm path first last ("function " ++ nm ++ "() {}")%string.

Definition call_in (path nm : string) (line : Z) : FunctionCall.t :=
  FunctionCall.mk nm path line None.

(** [/p/cycle.js]: [ping] (lines 1-3) calls [pong], [pong] (lines 5-7)
    calls [ping]. *)
Definition cycle_file : SourceFile :=
  {| str_path := "/p/cycle.js";
     defs := [fdef_in "/p/cycle.js" "ping" 1 3; fdef_in "/p/cycle.js" "pong" 5 7];
     calls := [call_in "/p/cycle.js" "pong" 2; call_in "/p/cycle.js" "ping" 6];
     imports := [] |}.

Definition cycle_fs : Path.FileSystem := Path.plain_fs [] ["/p/cycle.js"].

Definition cycle_graph : DependencyGraph :=
  returned __init__ (build_graph cycle_fs [cycle_file] __init__).

(** [/p/main.js] defines [main] (lines 3-9), which calls [helper],
    imported from [./util]; [/p/util.js] defines [helper]. *)
Definition main_file : SourceFile :=
  {| str_path := "/p/main.js";
     defs := [fdef_in "/p/main.js" "main" 3 9];
     calls := [call_in "/p/main.js" "helper" 5];
     imports := [ImportInfo.mk "helper" "./util" "/p/main.js" 1] |}.

Definition util_file : SourceFile :=
  {| str_path := "/p/util.js";
     defs := [fdef_in "/p/util.js" "helper" 1 4];
     calls := [];
     imports := [] |}.

Definition main_fs : Path.FileSystem :=
  Path.plain_fs [] ["/p/main.js"; "/p/util.js"].

(** [/p/nest.js]: [outer] (lines 1-20) wraps [inner] (lines 5-9). *)
Definition nest_file : SourceFile :=
  {| str_path := "/p/nest.js";
     defs := [fdef_in "/p/nest.js" "outer" 1 20; fdef_in "/p/nest.js" "inner" 5 9];
     calls := [call_in "/p/nest.js" "outer" 7];
     imports := [] |}.

Definition nest_graph : DependencyGraph := phase1 [nest_file] __init__.

(** [/app/a.js]: [f] (lines 1-3) calls [root], bound by
    [const root = require('..')]; the import resolves to the directory
    [/], the root of the file system. *)
Definition root_import_file : SourceFile :=
  {| str_path := "/app/a.js";
     defs := [fdef_in "/app/a.js" "f" 1 3];
     calls := [call_in "/app/a.js" "root" 2];
     imports := [ImportInfo.mk "root" ".." "/app/a.js" 1] |}.

Definition app_fs : Path.FileSystem := Path.plain_fs [] ["/app/a.js"].

(* ------------------------------------------------------------------ *)

Lemma get_slice_depth_zero_witness :
  get_slice Py.insertion_order cycle_graph "/p/cycle.js:ping" 0
  = [fdef_in "/p/cycle.js" "ping" 1 3].
Proof. apply get_slice_depth_zero. reflexivity. Defined.

Lemma get_slice_cycle_safe_witness :
  Permutation (get_slice Py.reverse_order cycle_graph "/p/cycle.js:ping" 7)
              [fdef_in "/p/cycle.js" "ping" 1 3; fdef_in "/p/cycle.js" "pong" 5 7]
  /\ List.length (get_slice Py.reverse_order cycle_graph "/p/cycle.js:ping" 7) = 2%nat.
Proof.
  apply (proj2 (get_slice_cycle_safe Py.reverse_order cycle_graph)
               "/p/cycle.js:ping" "/p/cycle.js:pong").
  - discriminate.
  - reflexivity.
  - reflexivity.
  - reflexivity.
  - reflexivity.
  - lia.
Defined.

Lemma build_graph_order_independent_witness :
  Py.raises (build_graph main_fs [main_file; util_file] __init__) = false
  /\ nx.has_edge (graph (returned __init__
                           (build_graph main_fs [main_file; util_file] __init__)))
                 "/p/main.js:main" "/p/util.js:helper" = true
  /\ match build_graph main_fs [main_file; util_file] __init__,
           build_graph main_fs [util_file; main_file] __init__ with
     | Py.Ok g, Py.Ok g' =>
         (forall n, nx.has_node (graph g) n = nx.has_node (graph g') n)
         /\ (forall u v, nx.has_edge (graph g) u v = nx.has_edge (graph g') u v)
     | Py.Raise _, Py.Raise _ => True
     | _, _ => False
     end.
Proof.
  split; [reflexivity|]. split; [reflexivity|].
  apply build_graph_order_independent.
  - apply perm_swap.
  - constructor; [|constructor; [|constructor]]; simpl; intuition discriminate.
Defined.

Lemma find_enclosing_function_innermost_witness :
  _find_enclosing_function nest_graph "/p/nest.js" 7 = Some "inner"
  /\ exists d, In d (get_or_nil "/p/nest.js" (_file_functions nest_graph))
               /\ FunctionDef.name d = "inner"
               /\ FunctionDef.start_line d <= 7 <= FunctionDef.end_line d
               /\ forall d', In d' (get_or_nil "/p/nest.js" (_file_functions nest_graph)) ->
                             FunctionDef.start_line d' <= 7 <= FunctionDef.end_line d' ->
                             FunctionDef.end_line d - FunctionDef.start_line d
                             <= FunctionDef.end_line d' - FunctionDef.start_line d'.
Proof.
  split; [reflexivity|].
  exact (find_enclosing_function_innermost nest_graph "/p/nest.js" 7).
Defined.

(* ================================================================== *)
(** ** Building twice                                                  *)
(* ================================================================== *)






(* ================================================================== *)
(** ** Structural integrity of the graph                               *)
(* ================================================================== *)

(** When a build returns, on a fresh instance or on one that earlier
    builds left, both endpoints of every edge are entries of the symbol
    table, and the nodes are exactly those entries. *)
Lemma build_graph_edges_registered
      (fs : Path.FileSystem) (files : list SourceFile) (self g : DependencyGraph) :
  Registration.consistent self ->
  build_graph fs files self = Py.Ok g ->
  Registration.consistent g
  /\ (forall u v, nx.has_edge (graph g) u v = true ->
                  Py.contains u (_symbol_table g) = true
                  /\ Py.contains v (_symbol_table g) = true)
  /\ (forall n, nx.has_node (graph g) n = Py.contains n (_symbol_table g)).
Proof.
  intros Hs Hb.
  pose proof (@Build.build_graph_consistent fs files self g Hs Hb) as Hc.
  split; [exact Hc|]. split.
  - intros u v Huv.
    rewrite <- !(@Registration.consistent_has_node g) by assumption.
    destruct Hc as [[_ Hcl] _]. exact (Hcl u v Huv).
  - intros n. now apply Registration.consistent_has_node.
Qed.

(** A call site outside every function, and one whose callee is neither
    a definition of the file nor the target of an import, leave the
    instance as it is. *)
Lemma unresolved_call_adds_nothing
      (fs : Path.FileSystem) (self : DependencyGraph)
      (file_path : string) (call : FunctionCall.t) :
  (_find_enclosing_function self file_path (FunctionCall.line call) = None ->
   resolve_call fs file_path self call = Py.Ok self)
  /\ (in_local_defs (FunctionCall.name call)
                    (get_or_nil file_path (_file_functions self)) = false ->
      _resolve_call_via_imports fs self file_path (FunctionCall.name call)
      = Py.Ok None ->
      resolve_call fs file_path self call = Py.Ok self).
Proof.
  unfold resolve_call. split.
  - now intros ->.
  - intros -> ->. simpl.
    destruct (_find_enclosing_function self file_path _) as [c|]; [|reflexivity].
    now destruct (negb (Py.truthy c)).
Qed.

(** C7 (where the code departs from it). The call [root()] inside [f] in
    [/app/a.js], with [const root = require('..')], cannot be resolved to
    a definition; [build_graph] does not drop it but raises [ValueError],
    from [Path('/').with_suffix('.js')] in [_resolve_import_path]. *)
Theorem build_graph_raises_on_root_import :
  build_graph app_fs [root_import_file] __init__
  = Py.Raise (Py.ValueError "has an empty name").
Proof. reflexivity. Qed.

(* ================================================================== *)
(** ** The import resolver                                             *)
(* ================================================================== *)

(** [/p/app.js] binds [find] with [require('./user.service')];
    [/p/user.service.js] exists and defines [find]. *)
Definition service_app_file : SourceFile :=
  {| str_path := "/p/app.js";
     defs := [fdef_in "/p/app.js" "start" 3 8];
     calls := [call_in "/p/app.js" "find" 5];
     imports := [ImportInfo.mk "find" "./user.service" "/p/app.js" 1] |}.

Definition service_file : SourceFile :=
  {| str_path := "/p/user.service.js";
     defs := [fdef_in "/p/user.service.js" "find" 1 4];
     calls := [];
     imports := [] |}.

Definition service_fs : Path.FileSystem :=
  Path.plain_fs [] ["/p/app.js"; "/p/user.service.js"].

Definition service_graph : DependencyGraph :=
  returned __init__ (build_graph service_fs [service_app_file; service_file] __init__).

(** The paths probed for [specifier], imported from [file_path]. *)
Definition probed (fs : Path.FileSystem) (file_path specifier : string)
  : Py.result (list string) :=
  probes <- probes_of
              (Path.resolve fs
                 (Path.joinpath (Path.parent (Path.of_str file_path)) specifier)) ;;
  Py.Ok (map Path.str probes).

(** For a specifier whose last component has no suffix, the probes are
    the literal path, the path with [.js] and [.ts] appended, and the
    index files. *)
Lemma probed_plain_specifier :
  probed main_fs "/p/main.js" "./util"
  = Py.Ok ["/p/util"; "/p/util.js"; "/p/util.ts";
           "/p/util/index.js"; "/p/util/index.ts"].
Proof. reflexivity. Qed.

(** C3 (where the code departs from it). [with_suffix] replaces a suffix
    that the specifier already has instead of appending the extension:
    for [./user.service] the resolver probes [/p/user.js] and
    [/p/user.ts], never [/p/user.service.js], so the import of a file
    that exists, with a registered definition of the bound name, resolves
    to nothing and the call gets no edge.  And for a specifier that
    resolves to the root directory, building the probes raises. *)
Theorem import_extension_replaces_suffix :
  Path.is_file service_fs (Path.of_str "/p/user.service.js") = true
  /\ Py.contains "/p/user.service.js:find" (_symbol_table service_graph) = true
  /\ probed service_fs "/p/app.js" "./user.service"
     = Py.Ok ["/p/user.service"; "/p/user.js"; "/p/user.ts";
              "/p/user.service/index.js"; "/p/user.service/index.ts"]
  /\ _resolve_call_via_imports service_fs service_graph "/p/app.js" "find"
     = Py.Ok None
  /\ nx.has_edge (graph service_graph) "/p/app.js:start" "/p/user.service.js:find"
     = false
  /\ _resolve_import_path app_fs (Path.of_str "/app/a.js") ".."
     = Py.Raise (Py.ValueError "has an empty name").
Proof. repeat split; reflexivity. Qed.

(* ================================================================== *)
(** ** The context assembler                                           *)
(* ================================================================== *)

(** The node that a call site of the handler stands for: the same-file
    entry of the symbol table if there is one, the target of an import
    otherwise. *)
Definition candidate_node (fs : Path.FileSystem) (self : DependencyGraph)
           (file_path : string) (call : FunctionCall.t) : Py.result (option string) :=
  let candidate_id := node_id_of file_path (FunctionCall.name call) in
  if Py.contains candidate_id (_symbol_table self) then Py.Ok (Some candidate_id)
  else
    resolved <- _resolve_call_via_imports fs self file_path (FunctionCall.name call) ;;
    match resolved with
    | Some r => if Py.truthy r then Py.Ok (Some r) else Py.Ok None
    | None => Py.Ok None
    end.

Module Assembly.

Section WithInterpreter.
Variable fs : Path.FileSystem.
Variable ord : Py.SetOrder.

(** One iteration of the loop: a candidate that is not in
    [seen_node_ids] has its slice absorbed, any other call is passed. *)
Lemma collect_call_candidate self file_path depth acc call :
  collect_call fs ord self file_path depth acc call
  = (n <- candidate_node fs self file_path call ;;
     match n with
     | Some n => if Py.mem n (fst acc) then Py.Ok acc
                 else Py.Ok (absorb (get_slice ord self n depth) acc)
     | None => Py.Ok acc
     end).
Proof.
  unfold collect_call, candidate_node.
  destruct (Py.contains _ (_symbol_table self)); simpl.
  - now destruct (Py.mem _ (fst acc)).
  - destruct (_resolve_call_via_imports fs self file_path _) as [[r|]|e];
      simpl; try reflexivity.
    destruct (Py.truthy r); simpl; [|reflexivity].
    now destruct (Py.mem r (fst acc)).
Qed.

Lemma collect_data_In G nids d :
  In d (collect_data G nids) <->
  exists k, In k nids /\ nx.node_data G k = Some d.
Proof.
  induction nids as [|k r IH]; simpl.
  - split; [tauto | intros [k [[] _]]].
  - destruct (nx.node_data G k) as [dk|] eqn:E; simpl; rewrite IH; split.
    + intros [<-|[k' [Hk Hd]]]; [exists k | exists k']; auto.
    + intros [k' [[<-|Hk] Hd]]; [left; congruence | right; now exists k'].
    + intros [k' [Hk Hd]]. exists k'. auto.
    + intros [k' [[<-|Hk] Hd]]; [congruence | now exists k'].
Qed.

(** The members of a slice, whatever the iteration order. *)
Lemma get_slice_In self n depth d :
  In d (get_slice ord self n depth) <->
  nx.has_node (graph self) n = true
  /\ exists k, In k (reachable_set (graph self) n depth)
               /\ nx.node_data (graph self) k = Some d.
Proof.
  unfold get_slice. destruct (nx.has_node (graph self) n); simpl.
  - rewrite collect_data_In.
    pose proof (Py.iter_perm ord (reachable_set_NoDup (graph self) n depth)) as Hp.
    split.
    + intros [k [Hk Hd]]. split; [reflexivity|]. exists k. split; [|assumption].
      eapply Permutation_in; eassumption.
    + intros [_ [k [Hk Hd]]]. exists k. split; [|assumption].
      eapply Permutation_in; [apply Permutation_sym|]; eassumption.
  - split; [tauto | intros [H _]; discriminate].
Qed.

(** [seen_node_ids] lists the identifiers of [all_defs], once each. *)
Definition deduplicated (acc : collected) : Prop :=
  fst acc = map nid_of (snd acc) /\ NoDup (fst acc).

(** [all_defs] only grows at its end. *)
Definition extends (acc acc' : collected) : Prop :=
  (exists ids, fst acc' = fst acc ++ ids)
  /\ (exists more, snd acc' = snd acc ++ more).

Lemma extends_refl acc : extends acc acc.
Proof. split; exists []; now rewrite app_nil_r. Qed.

Lemma extends_trans a b c : extends a b -> extends b c -> extends a c.
Proof.
  intros [[i1 H1] [m1 K1]] [[i2 H2] [m2 K2]]. split.
  - exists (i1 ++ i2). now rewrite H2, H1, app_assoc.
  - exists (m1 ++ m2). now rewrite K2, K1, app_assoc.
Qed.

Lemma absorb_spec slice :
  forall acc,
    deduplicated acc ->
    deduplicated (absorb slice acc)
    /\ extends acc (absorb slice acc)
    /\ (forall d, In d slice -> In (nid_of d) (fst (absorb slice acc)))
    /\ (forall d, In d (snd (absorb slice acc)) -> In d (snd acc) \/ In d slice).
Proof.
  induction slice as [|fdef rest IH]; intros acc Hacc; simpl.
  - split; [assumption|]. split; [apply extends_refl|]. split; [tauto | auto].
  - destruct (Py.mem (nid_of fdef) (fst acc)) eqn:E.
    + destruct (IH acc Hacc) as (H1 & H2 & H3 & H4).
      split; [assumption|]. split; [assumption|]. split.
      * intros d [<-|Hd]; [|auto].
        apply PyFacts.mem_In in E. destruct H2 as [[ids ->] _].
        apply in_or_app. now left.
      * intros d Hd. destruct (H4 d Hd); auto.
    + set (acc1 := (fst acc ++ [nid_of fdef], snd acc ++ [fdef])).
      assert (deduplicated acc1) as Hacc1.
      { destruct Hacc as [Hf Hn]. split; simpl.
        - now rewrite map_app, Hf.
        - apply BfsFacts.NoDup_snoc; [assumption | now apply PyFacts.mem_false]. }
      destruct (IH acc1 Hacc1) as (H1 & H2 & H3 & H4).
      split; [assumption|]. split; [|split].
      * apply extends_trans with acc1; [|assumption].
        split; [exists [nid_of fdef] | exists [fdef]]; reflexivity.
      * intros d [<-|Hd]; [|auto].
        destruct H2 as [[ids ->] _]. simpl.
        apply in_or_app. left. apply in_or_app. right. now left.
      * intros d Hd. destruct (H4 d Hd) as [Hd'|Hd']; [|auto].
        simpl in Hd'. apply in_app_or in Hd'.
        destruct Hd' as [Hd'|[<-|[]]]; auto.
Qed.

Lemma collect_call_spec self file_path depth acc call acc' :
  deduplicated acc ->
  collect_call fs ord self file_path depth acc call = Py.Ok acc' ->
  deduplicated acc' /\ extends acc acc'.
Proof.
  intros Hacc. rewrite collect_call_candidate.
  destruct (candidate_node fs self file_path call) as [[n|]|e]; simpl;
    try discriminate.
  - destruct (Py.mem n (fst acc)).
    + intros [= <-]. split; [assumption | apply extends_refl].
    + intros [= <-]. destruct (absorb_spec (get_slice ord self n depth) Hacc)
        as (H1 & H2 & _). now split.
  - intros [= <-]. split; [assumption | apply extends_refl].
Qed.

Lemma collect_loop_spec self file_path depth todo :
  forall acc acc',
    deduplicated acc ->
    for_each (collect_call fs ord self file_path depth) todo acc = Py.Ok acc' ->
    deduplicated acc' /\ extends acc acc'.
Proof.
  induction todo as [|call rest IH]; intros acc acc' Hacc; simpl.
  - intros [= <-]. split; [assumption | apply extends_refl].
  - destruct (collect_call fs ord self file_path depth acc call) as [acc1|e] eqn:E;
      simpl; [|discriminate].
    intros Hrest.
    destruct (collect_call_spec _ _ _ _ Hacc E) as [H1 H2].
    destruct (IH acc1 acc' H1 Hrest) as [H3 H4].
    split; [assumption | now apply extends_trans with acc1].
Qed.

(** With no candidate among the calls, nothing is collected. *)
Lemma collect_loop_unresolved self file_path depth todo :
  (forall call, In call todo ->
                candidate_node fs self file_path call = Py.Ok None) ->
  forall acc,
    for_each (collect_call fs ord self file_path depth) todo acc = Py.Ok acc.
Proof.
  induction todo as [|call rest IH]; intros Hall acc; simpl; [reflexivity|].
  rewrite collect_call_candidate, (Hall call (or_introl eq_refl)). simpl.
  apply IH. intros c Hc. apply Hall. now right.
Qed.

(** Every collected definition is the data of some node. *)
Definition from_graph (self : DependencyGraph) (acc : collected) : Prop :=
  forall d, In d (snd acc) -> exists k, nx.node_data (graph self) k = Some d.

Lemma collect_call_from_graph self file_path depth acc call acc' :
  deduplicated acc -> from_graph self acc ->
  collect_call fs ord self file_path depth acc call = Py.Ok acc' ->
  from_graph self acc'.
Proof.
  intros Hacc Hfrom. rewrite collect_call_candidate.
  destruct (candidate_node fs self file_path call) as [[n|]|e]; simpl;
    try discriminate; [|now intros [= <-]].
  destruct (Py.mem n (fst acc)); [now intros [= <-]|].
  intros [= <-] d Hd.
  destruct (absorb_spec (get_slice ord self n depth) Hacc) as (_ & _ & _ & H4).
  destruct (H4 d Hd) as [Hold|Hnew]; [now apply Hfrom|].
  apply get_slice_In in Hnew. destruct Hnew as [_ [k [_ Hk]]]. now exists k.
Qed.

Lemma collect_loop_from_graph self file_path depth todo :
  forall acc acc',
    deduplicated acc -> from_graph self acc ->
    for_each (collect_call fs ord self file_path depth) todo acc = Py.Ok acc' ->
    from_graph self acc'.
Proof.
  induction todo as [|call rest IH]; intros acc acc' Hacc Hfrom; simpl.
  - now intros [= <-].
  - destruct (collect_call fs ord self file_path depth acc call) as [acc1|e] eqn:E;
      simpl; [|discriminate].
    apply IH.
    + exact (proj1 (@collect_call_spec self file_path depth acc call acc1 Hacc E)).
    + exact (@collect_call_from_graph self file_path depth acc call acc1 Hacc Hfrom E).
Qed.

(** The rendering of a non-empty [all_defs]. *)
Lemma get_route_context_renders self route depth d rest :
  collect_defs fs ord self route depth = Py.Ok (d :: rest) ->
  get_route_context fs ord self route depth
  = Py.Ok (Py.join (String "010" (String "010" "")) (map def_block (d :: rest))
             ++ String "010" "")%string.
Proof. unfold get_route_context. now intros ->. Qed.

Lemma append_assoc (a b c : string) :
  ((a ++ b) ++ c)%string = (a ++ (b ++ c))%string.
Proof. induction a as [|x a IH]; simpl; [reflexivity | now rewrite IH]. Qed.

Lemma append_newline_nonempty (s : string) : (s ++ String "010" "")%string <> "".
Proof. destruct s; discriminate. Qed.

(** Whenever [get_route_context] returns, the string is not empty. *)
Lemma get_route_context_nonempty self route depth s :
  get_route_context fs ord self route depth = Py.Ok s -> s <> "".
Proof.
  unfold get_route_context.
  destruct (collect_defs fs ord self route depth) as [[|d r]|e]; simpl;
    try discriminate.
  - intros [= <-]. unfold fallback_block, header. simpl. discriminate.
  - intros [= <-]. apply append_newline_nonempty.
Qed.

(** When no call site of the handler stands for a node, the result is
    the fallback block: header with the path and the line range of the
    handler, then its source. *)
Lemma get_route_context_fallback self route depth :
  (forall call, In call (calls_in_handler self route) ->
                candidate_node fs self (RouteInfo.file_path route) call = Py.Ok None) ->
  get_route_context fs ord self route depth
  = Py.Ok ("// File: " ++ RouteInfo.file_path route ++ ", Lines "
             ++ Py.str_of_int (RouteInfo.handler_start_line route) ++ "-"
             ++ Py.str_of_int (RouteInfo.handler_end_line route) ++ String "010" ""
             ++ RouteInfo.handler_source route ++ String "010" "")%string.
Proof.
  intros Hall. unfold get_route_context, collect_defs.
  rewrite (@collect_loop_unresolved self _ depth _ Hall).
  cbn [Py.bind snd]. unfold fallback_block, header.
  now rewrite !append_assoc.
Qed.

End WithInterpreter.

End Assembly.

(** The parser stamps every definition with the path of its file. *)
Definition parsed_facts (files : list SourceFile) : Prop :=
  forall f d, In f files -> In d (defs f) -> FunctionDef.file_path d = str_path f.

(** Every entry of the symbol table is filed under the identifier that
    [get_route_context] computes from the definition. *)
Definition ids_match (self : DependencyGraph) : Prop :=
  forall k d, Py.get k (_symbol_table self) = Some d -> nid_of d = k.

Lemma ids_match_register_defs path fdefs :
  (forall d, In d fdefs -> FunctionDef.file_path d = path) ->
  forall self, ids_match self ->
               ids_match (fold_left (register_def path) fdefs self).
Proof.
  induction fdefs as [|fdef rest IH]; intros Hwf self Hself; simpl; [assumption|].
  apply IH; [intros d Hd; apply Hwf; now right|].
  intros k d. simpl. rewrite PyFacts.get_set.
  destruct (String.eqb_spec k (node_id_of path (FunctionDef.name fdef))) as [->|Hne].
  - intros [= <-]. unfold nid_of. now rewrite (Hwf fdef (or_introl eq_refl)).
  - apply Hself.
Qed.

Lemma ids_match_phase1 files :
  parsed_facts files ->
  forall self, ids_match self -> ids_match (phase1 files self).
Proof.
  unfold phase1.
  induction files as [|f rest IH]; intros Hwf self Hself; simpl; [assumption|].
  apply IH; [intros f' d Hf'; apply Hwf; now right|].
  unfold register_file. apply ids_match_register_defs.
  - intros d Hd. apply (Hwf f d); [now left | assumption].
  - exact Hself.
Qed.

(** A build from parsed facts keeps the instance consistent, with
    matching identifiers. *)
Lemma build_graph_ids_match
      (fs : Path.FileSystem) (files : list SourceFile) (self g : DependencyGraph) :
  parsed_facts files ->
  Registration.consistent self -> ids_match self ->
  build_graph fs files self = Py.Ok g ->
  Registration.consistent g /\ ids_match g.
Proof.
  intros Hwf Hc Hids Hb.
  pose proof (@Build.build_graph_spec fs files self Hc) as H.
  cbv zeta in H. rewrite Hb in H.
  destruct H as (Hcg & _ & (_ & _ & _ & Esym) & _).
  split; [assumption|].
  intros k d. rewrite Esym. now apply ids_match_phase1.
Qed.

Lemma node_data_symbol self k :
  Registration.consistent self ->
  nx.node_data (graph self) k = Py.get k (_symbol_table self).
Proof.
  intros [_ H]. unfold nx.node_data. rewrite H.
  now destruct (Py.get k (_symbol_table self)).
Qed.

(** [/app/server.js] registers a route whose handler, on line 2, calls
    [root], bound by [const root = require('..')]; no named function is
    defined. *)
Definition server_file : SourceFile :=
  {| str_path := "/app/server.js";
     defs := [];
     calls := [call_in "/app/server.js" "root" 2];
     imports := [ImportInfo.mk "root" ".." "/app/server.js" 1] |}.

Definition server_fs : Path.FileSystem := Path.plain_fs [] ["/app/server.js"].

Definition server_graph : DependencyGraph :=
  returned __init__ (build_graph server_fs [server_file] __init__).

Definition server_route : RouteInfo.t :=
  RouteInfo.mk "/app/server.js" "GET" "/" 2 2 "(req, res) => { root(); }" [].

(** C4 (where the code departs from it). For the route of
    [/app/server.js], whose only call resolves to no registered node,
    [get_route_context] returns no string at all, at any depth and under
    any iteration order: the graph builds, and the import resolver then
    raises [ValueError] out of [get_route_context]. *)
Theorem get_route_context_raises_on_root_import
        (ord : Py.SetOrder) (depth : Z) :
  build_graph server_fs [server_file] __init__ = Py.Ok server_graph
  /\ get_route_context server_fs ord server_graph server_route depth
     = Py.Raise (Py.ValueError "has an empty name").
Proof. split; reflexivity. Qed.

(** [/p/chain.js]: [a] (lines 1-3) calls [b], [b] (lines 5-7) calls [c]
    (lines 9-11); a handler on lines 20-25 calls [a], then [b]. *)
Definition chain_file : SourceFile :=
  {| str_path := "/p/chain.js";
     defs := [fdef_in "/p/chain.js" "a" 1 3; fdef_in "/p/chain.js" "b" 5 7;
              fdef_in "/p/chain.js" "c" 9 11];
     calls := [call_in "/p/chain.js" "b" 2; call_in "/p/chain.js" "c" 6;
               call_in "/p/chain.js" "a" 21; call_in "/p/chain.js" "b" 22];
     imports := [] |}.

Definition chain_fs : Path.FileSystem := Path.plain_fs [] ["/p/chain.js"].

Definition chain_graph : DependencyGraph :=
  returned __init__ (build_graph chain_fs [chain_file] __init__).

Definition chain_route : RouteInfo.t :=
  RouteInfo.mk "/p/chain.js" "GET" "/chain" 20 25 "(req, res) => { a(); b(); }" [].

(** Every definition of the slice of every candidate of the handler is
    among the collected definitions. *)
Definition slices_accumulated (fs : Path.FileSystem) (ord : Py.SetOrder)
           (self : DependencyGraph) (route : RouteInfo.t) (depth : Z) : Prop :=
  forall all_defs call n d,
    collect_defs fs ord self route depth = Py.Ok all_defs ->
    In call (calls_in_handler self route) ->
    candidate_node fs self (RouteInfo.file_path route) call = Py.Ok (Some n) ->
    In d (get_slice ord self n depth) ->
    In d all_defs.

(** At depth 1 the slice of [a] is [a, b]; the call to [b] then finds [b]
    in [seen_node_ids] and is passed over, so [c], which the slice of [b]
    holds, is never collected: under no iteration order. *)
Lemma seen_candidate_slice_not_taken :
  ~ exists ord, slices_accumulated chain_fs ord chain_graph chain_route 1.
Proof.
  intros [ord H].
  set (na := "/p/chain.js:a"). set (nb := "/p/chain.js:b").
  set (dc := fdef_in "/p/chain.js" "c" 9 11).
  set (acc1 := absorb (get_slice ord chain_graph na 1) ([], [])).
  assert (Assembly.deduplicated ([], []) ) as Hnil by (split; [reflexivity | constructor]).
  destruct (Assembly.absorb_spec (get_slice ord chain_graph na 1) Hnil)
    as (_ & _ & Hcov & Hfrom). fold acc1 in Hcov, Hfrom.
  assert (In (fdef_in "/p/chain.js" "b" 5 7) (get_slice ord chain_graph na 1)) as Hb.
  { apply Assembly.get_slice_In. split; [reflexivity|].
    exists nb. split; [right; now left | reflexivity]. }
  assert (Py.mem nb (fst acc1) = true) as Hseen.
  { apply PyFacts.mem_In. exact (Hcov _ Hb). }
  assert (collect_defs chain_fs ord chain_graph chain_route 1 = Py.Ok (snd acc1))
    as Hdefs.
  { unfold collect_defs.
    change (calls_in_handler chain_graph chain_route)
      with [call_in "/p/chain.js" "a" 21; call_in "/p/chain.js" "b" 22].
    cbn [for_each]. rewrite Assembly.collect_call_candidate.
    change (candidate_node chain_fs chain_graph (RouteInfo.file_path chain_route)
              (call_in "/p/chain.js" "a" 21)) with (@Py.Ok (option string) (Some na)).
    cbn [Py.bind fst Py.mem existsb]. fold acc1.
    rewrite Assembly.collect_call_candidate.
    change (candidate_node chain_fs chain_graph (RouteInfo.file_path chain_route)
              (call_in "/p/chain.js" "b" 22)) with (@Py.Ok (option string) (Some nb)).
    cbn [Py.bind]. rewrite Hseen. reflexivity. }
  assert (In dc (get_slice ord chain_graph nb 1)) as Hc.
  { apply Assembly.get_slice_In. split; [reflexivity|].
    exists "/p/chain.js:c". split; [right; now left | reflexivity]. }
  assert (In dc (snd acc1)) as Hin.
  { apply (H (snd acc1) (call_in "/p/chain.js" "b" 22) nb dc Hdefs);
      [right; now left | reflexivity | exact Hc]. }
  destruct (Hfrom dc Hin) as [[]|Hslice].
  apply Assembly.get_slice_In in Hslice.
  destruct Hslice as [_ [k [Hk Hd]]].
  change (reachable_set (graph chain_graph) na 1) with [na; nb] in Hk.
  destruct Hk as [<-|[<-|[]]]; discriminate Hd.
Qed.

(** C2 (as the code has it). When the loop reaches a call site of the
    handler that stands for the node [n]: if [n] is not yet in
    [seen_node_ids], every definition of [get_slice(n, depth)] is
    represented in [all_defs] by a definition with the same node
    identifier; if [n] is already there (collected with an earlier
    slice), the call is passed over and its slice is not taken.
    [all_defs] holds one definition per node identifier and keeps, in
    order, what earlier calls collected. *)
Theorem collect_defs_unions_unseen_slices
        (fs : Path.FileSystem) (ord : Py.SetOrder) (self : DependencyGraph)
        (route : RouteInfo.t) (depth : Z)
        (pre : list FunctionCall.t) (call : FunctionCall.t)
        (post : list FunctionCall.t)
        (acc : collected) (all_defs : list FunctionDef.t) (n : string) :
  calls_in_handler self route = pre ++ call :: post ->
  for_each (collect_call fs ord self (RouteInfo.file_path route) depth) pre ([], [])
  = Py.Ok acc ->
  collect_defs fs ord self route depth = Py.Ok all_defs ->
  candidate_node fs self (RouteInfo.file_path route) call = Py.Ok (Some n) ->
  NoDup (map nid_of all_defs)
  /\ (exists more, all_defs = snd acc ++ more)
  /\ (Py.mem n (fst acc) = false ->
      forall d, In d (get_slice ord self n depth) ->
                (exists d', In d' all_defs /\ nid_of d' = nid_of d)
                /\ (Registration.consistent self -> ids_match self ->
                    In d all_defs))
  /\ (Py.mem n (fst acc) = true ->
      collect_call fs ord self (RouteInfo.file_path route) depth acc call = Py.Ok acc).
Proof.
  intros Hcalls Hpre Hdefs Hn.
  set (step := collect_call fs ord self (RouteInfo.file_path route) depth) in *.
  assert (Assembly.deduplicated ([], [])) as Hnil
      by (split; [reflexivity | constructor]).
  destruct (@Assembly.collect_loop_spec fs ord self _ depth pre _ _ Hnil Hpre)
    as [Hacc _].
  unfold collect_defs in Hdefs. fold step in Hdefs.
  rewrite Hcalls, Resolution.for_each_app, Hpre in Hdefs.
  cbn [Py.bind for_each] in Hdefs.
  destruct (step acc call) as [acc1|e] eqn:Hstep; [|discriminate Hdefs].
  cbn [Py.bind] in Hdefs.
  destruct (for_each step post acc1) as [accF|e] eqn:Hpost; [|discriminate Hdefs].
  cbn [Py.bind] in Hdefs. injection Hdefs as <-.
  destruct (@Assembly.collect_call_spec fs ord self _ depth _ _ _ Hacc Hstep)
    as [Hacc1 Hext1].
  destruct (@Assembly.collect_loop_spec fs ord self _ depth post _ _ Hacc1 Hpost)
    as [HaccF HextF].
  pose proof (Assembly.extends_trans Hext1 HextF) as Hext.
  split; [|split; [|split]].
  - destruct HaccF as [Hf Hnd]. now rewrite <- Hf.
  - apply Hext.
  - intros Hfresh d Hd.
    unfold step in Hstep. rewrite Assembly.collect_call_candidate, Hn in Hstep.
    cbn [Py.bind] in Hstep. rewrite Hfresh in Hstep. injection Hstep as <-.
    destruct (Assembly.absorb_spec (get_slice ord self n depth) Hacc)
      as (_ & _ & Hcov & _).
    specialize (Hcov d Hd).
    destruct HextF as [[ids Hids] _]. destruct HaccF as [Hf _].
    assert (In (nid_of d) (map nid_of (snd accF))) as Hin.
    { rewrite <- Hf, Hids. apply in_or_app. now left. }
    apply in_map_iff in Hin. destruct Hin as [d' [Heq Hd']].
    split; [now exists d'|].
    intros Hc Hm.
    assert (Assembly.from_graph self ([], [])) as Hfrom0 by (intros ? []).
    pose proof (@Assembly.collect_loop_from_graph fs ord self
                  (RouteInfo.file_path route) depth
                  (pre ++ call :: post) ([], []) accF Hnil Hfrom0) as HfromF.
    fold step in HfromF.
    rewrite Resolution.for_each_app, Hpre in HfromF.
    cbn [Py.bind for_each] in HfromF.
    unfold step in HfromF at 1.
    rewrite Assembly.collect_call_candidate, Hn in HfromF.
    cbn [Py.bind] in HfromF. rewrite Hfresh in HfromF.
    specialize (HfromF Hpost).
    destruct (HfromF d' Hd') as [k' Hk'].
    apply Assembly.get_slice_In in Hd. destruct Hd as [_ [k [_ Hk]]].
    rewrite (node_data_symbol k Hc) in Hk.
    rewrite (node_data_symbol k' Hc) in Hk'.
    pose proof (Hm k d Hk) as E1. pose proof (Hm k' d' Hk') as E2.
    assert (k' = k) as -> by congruence.
    assert (d' = d) as <- by congruence. exact Hd'.
  - intros Hseen. unfold step in Hstep.
    rewrite Assembly.collect_call_candidate, Hn in Hstep.
    cbn [Py.bind] in Hstep. rewrite Hseen in Hstep. now symmetry.
Qed.

Lemma collect_defs_unions_unseen_slices_witness :
  NoDup (map nid_of [fdef_in "/p/chain.js" "a" 1 3; fdef_in "/p/chain.js" "b" 5 7])
  /\ (exists more,
         [fdef_in "/p/chain.js" "a" 1 3; fdef_in "/p/chain.js" "b" 5 7]
         = snd (([], []) : collected) ++ more)
  /\ (Py.mem "/p/chain.js:a" (fst (([], []) : collected)) = false ->
      forall d, In d (get_slice Py.insertion_order chain_graph "/p/chain.js:a" 1) ->
                (exists d', In d' [fdef_in "/p/chain.js" "a" 1 3;
                                   fdef_in "/p/chain.js" "b" 5 7]
                            /\ nid_of d' = nid_of d)
                /\ (Registration.consistent chain_graph -> ids_match chain_graph ->
                    In d [fdef_in "/p/chain.js" "a" 1 3;
                          fdef_in "/p/chain.js" "b" 5 7]))
  /\ (Py.mem "/p/chain.js:a" (fst (([], []) : collected)) = true ->
      collect_call chain_fs Py.insertion_order chain_graph
                   (RouteInfo.file_path chain_route) 1 ([], [])
                   (call_in "/p/chain.js" "a" 21)
      = Py.Ok ([], [])).
Proof.
  apply (@collect_defs_unions_unseen_slices
           chain_fs Py.insertion_order chain_graph chain_route 1
           [] (call_in "/p/chain.js" "a" 21) [call_in "/p/chain.js" "b" 22]
           ([], []) _ "/p/chain.js:a"); reflexivity.
Defined.

(** The instance built from [/p/chain.js] meets both side conditions. *)
Lemma chain_graph_well_built :
  Registration.consistent chain_graph /\ ids_match chain_graph.
Proof.
  apply (@build_graph_ids_match chain_fs [chain_file] __init__ chain_graph).
  - intros f d [<-|[]] Hd. simpl in Hd.
    destruct Hd as [<-|[<-|[<-|[]]]]; reflexivity.
  - apply Registration.consistent_init.
  - intros k d H. discriminate H.
  - reflexivity.
Qed.

(* ================================================================== *)
(** ** Which nodes a traversal reaches                                 *)
(* ================================================================== *)

Module Reach.
Import nx.

(** [v] is at most [k] edges away from [source]. *)
Inductive within (G : DiGraph) (source : string) : nat -> string -> Prop :=
| within_source : forall k, within G source k source
| within_hop : forall k v w,
    within G source k v -> In w (neighbors G v) -> within G source (S k) w.

Lemma within_S G source k v : within G source k v -> within G source (S k) v.
Proof.
  induction 1 as [k|k v w _ IH Hw]; [apply within_source|].
  now apply within_hop with v.
Qed.

Lemma within_le G source k k' v :
  (k <= k')%nat -> within G source k v -> within G source k' v.
Proof.
  induction 1 as [|k' _ IH]; intros H; [assumption|].
  apply within_S. auto.
Qed.

Lemma within_zero G source v : within G source 0 v -> v = source.
Proof. now inversion 1. Qed.

Section Traversal.
Variable G : DiGraph.
Variable source : string.

(** The state of the traversal after [i] levels: everything seen is at
    most [i] edges away, everything at most [i] edges away is seen, and
    every seen node either waits in the next level or has all its
    successors seen. *)
Record level_inv (i : nat) (s : bfs_state) : Prop := mkLevelInv {
  li_tracks : BfsFacts.tracks source s;
  li_sound : forall x, In x (seen s) -> within G source i x;
  li_next : forall p ch, In (p, ch) (next_level s) ->
                         ch = neighbors G p /\ In p (seen s);
  li_pending : forall v, In v (seen s) ->
                         In (v, neighbors G v) (next_level s)
                         \/ (forall w, In w (neighbors G v) -> In w (seen s));
  li_complete : forall x, within G source i x -> In x (seen s)
}.

Lemma level_inv_start :
  level_inv 0 {| seen := [source];
                 next_level := [(source, neighbors G source)];
                 yielded := [] |}.
Proof.
  constructor; simpl.
  - split; [reflexivity | constructor; [tauto | constructor]].
  - intros x [<-|[]]. apply within_source.
  - intros p ch [[= <- <-]|[]]. split; [reflexivity | now left].
  - intros v [<-|[]]. left. now left.
  - intros x H. left. symmetry. exact (within_zero H).
Qed.

(** The inner loop, for the children of [parent]. *)
Lemma scan_children_spec parent children :
  forall s,
    let s' := scan_children G parent children s in
    (forall x, In x (seen s) -> In x (seen s'))
    /\ (forall w, In w children -> In w (seen s'))
    /\ (forall x, In x (seen s') ->
                  In x (seen s)
                  \/ (In x children /\ In (x, neighbors G x) (next_level s')))
    /\ (forall e, In e (next_level s) -> In e (next_level s'))
    /\ (forall e, In e (next_level s') ->
                  In e (next_level s)
                  \/ exists w, In w children /\ e = (w, neighbors G w)
                               /\ In w (seen s')).
Proof.
  induction children as [|child rest IH]; intros s; simpl.
  - repeat split; auto. intros w [].
  - destruct (Py.mem child (seen s)) eqn:E.
    + destruct (IH s) as (H1 & H2 & H3 & H4 & H5).
      split; [exact H1|]. split; [|split; [|split]].
      * intros w [<-|Hw]; [|auto].
        apply H1. now apply PyFacts.mem_In.
      * intros x Hx. destruct (H3 x Hx) as [|[? ?]]; auto.
      * exact H4.
      * intros e He. destruct (H5 e He) as [|[w (Hw & -> & Hs)]]; auto.
        right. exists w. auto.
    + set (s1 := {| seen := seen s ++ [child];
                    next_level := next_level s ++ [(child, neighbors G child)];
                    yielded := yielded s ++ [(parent, child)] |}).
      destruct (IH s1) as (H1 & H2 & H3 & H4 & H5).
      split; [|split; [|split; [|split]]].
      * intros x Hx. apply H1. simpl. apply in_or_app. now left.
      * intros w [<-|Hw]; [|auto].
        apply H1. simpl. apply in_or_app. right. now left.
      * intros x Hx. destruct (H3 x Hx) as [Hx'|[Hx' Hn]].
        -- simpl in Hx'. apply in_app_or in Hx'.
           destruct Hx' as [Hx'|[<-|[]]]; [now left|].
           right. split; [now left|].
           apply H4. simpl. apply in_or_app. right. now left.
        -- right. split; [now right | assumption].
      * intros e He. apply H4. simpl. apply in_or_app. now left.
      * intros e He. destruct (H5 e He) as [He'|[w (Hw & -> & Hs)]].
        -- simpl in He'. apply in_app_or in He'.
           destruct He' as [He'|[<-|[]]]; [now left|].
           right. exists child. split; [now left|]. split; [reflexivity|].
           apply H1. simpl. apply in_or_app. right. now left.
        -- right. exists w. auto.
Qed.

(** The state in the middle of a level: [old] is what was seen when the
    level began, [todo] what remains of the level. *)
Record mid_inv (i : nat) (old : list string)
       (todo : list (string * list string)) (s : bfs_state) : Prop := mkMidInv {
  mi_tracks : BfsFacts.tracks source s;
  mi_sound : forall x, In x (seen s) -> within G source (S i) x;
  mi_next : forall p ch, In (p, ch) (next_level s) ->
                         ch = neighbors G p /\ In p (seen s);
  mi_old : forall v, In v old ->
                     In (v, neighbors G v) todo
                     \/ (forall w, In w (neighbors G v) -> In w (seen s));
  mi_new : forall v, In v (seen s) ->
                     In v old \/ In (v, neighbors G v) (next_level s);
  mi_mono : forall x, In x old -> In x (seen s);
  mi_todo : forall p ch, In (p, ch) todo ->
                         ch = neighbors G p /\ within G source i p
}.

Lemma mid_inv_parent i old parent children rest s :
  mid_inv i old ((parent, children) :: rest) s ->
  mid_inv i old rest (scan_children G parent children s).
Proof.
  intros [Ht Hs Hn Ho Hnew Hm Htodo].
  destruct (Htodo parent children (or_introl eq_refl)) as [-> Hp].
  destruct (scan_children_spec parent (neighbors G parent) s)
    as (H1 & H2 & H3 & H4 & H5).
  constructor.
  - now apply BfsFacts.tracks_scan_children.
  - intros x Hx. destruct (H3 x Hx) as [Hx'|[Hx' _]]; [auto|].
    now apply within_hop with parent.
  - intros p ch Hin. destruct (H5 _ Hin) as [Hin'|[w (Hw & [= -> ->] & Hsw)]].
    + destruct (Hn p ch Hin') as [-> Hp']. auto.
    + auto.
  - intros v Hv. destruct (Ho v Hv) as [[[= <- _]|Hr]|He].
    + right. exact H2.
    + now left.
    + right. intros w Hw. auto.
  - intros v Hv. destruct (H3 v Hv) as [Hv'|[_ Hn']]; [|now right].
    destruct (Hnew v Hv') as [|Hn']; [now left | right; auto].
  - intros x Hx. auto.
  - intros p ch Hin. apply Htodo. now right.
Qed.

(** A whole level: either it runs to its end, or it stops because every
    node of the graph has been counted. *)
Lemma scan_level_spec i n old this :
  forall s,
    mid_inv i old this s ->
    let '(s', returned) := scan_level G n this s in
    BfsFacts.tracks source s'
    /\ (forall x, In x (seen s') -> within G source (S i) x)
    /\ (forall x, In x old -> In x (seen s'))
    /\ (if returned then List.length (seen s') = n
        else mid_inv i old [] s').
Proof.
  induction this as [|[parent children] rest IH]; intros s Hs; simpl.
  - split; [apply (mi_tracks Hs)|]. split; [apply (mi_sound Hs)|].
    split; [apply (mi_mono Hs) | exact Hs].
  - pose proof (mid_inv_parent Hs) as Hs'.
    destruct (Nat.eqb (List.length (seen (scan_children G parent children s))) n)
      eqn:En.
    + split; [apply (mi_tracks Hs')|]. split; [apply (mi_sound Hs')|].
      split; [apply (mi_mono Hs') | now apply Nat.eqb_eq].
    + exact (IH _ Hs').
Qed.

Lemma level_inv_mid i s :
  level_inv i s ->
  mid_inv i (seen s) (next_level s)
          {| seen := seen s; next_level := []; yielded := yielded s |}.
Proof.
  intros [Ht Hs Hn Hp Hc]. constructor; simpl.
  - exact Ht.
  - intros x Hx. apply within_S. auto.
  - intros p ch [].
  - exact Hp.
  - intros v Hv. now left.
  - auto.
  - intros p ch Hin. destruct (Hn p ch Hin) as [-> Hin']. auto.
Qed.

Lemma mid_inv_level i old s :
  (forall x, within G source i x -> In x old) ->
  mid_inv i old [] s -> level_inv (S i) s.
Proof.
  intros Hc [Ht Hs Hn Ho Hnew Hm Htodo]. constructor.
  - exact Ht.
  - exact Hs.
  - exact Hn.
  - intros v Hv. destruct (Hnew v Hv) as [Hv'|]; [|now left].
    destruct (Ho v Hv') as [[]|]. now right.
  - intros x Hx. inversion Hx as [k|k v w Hv Hw]; subst.
    + apply Hm, Hc. apply within_source.
    + destruct (Ho v (Hc v Hv)) as [[]|He]. auto.
Qed.

(** Once no node waits, what is seen is closed under successors. *)
Lemma seen_closed i s :
  level_inv i s -> next_level s = [] ->
  forall k x, within G source k x -> In x (seen s).
Proof.
  intros Hs Hnil k x H. induction H as [k|k v w _ IH Hw].
  - apply (li_complete Hs). apply within_source.
  - destruct (li_pending Hs v IH) as [Hp|He]; [|auto].
    rewrite Hnil in Hp. destruct Hp.
Qed.

Hypothesis G_closed : GraphFacts.closed G.
Hypothesis G_keys : NoDup (Py.keys (_node G)).
Hypothesis source_node : has_node G source = true.

Lemma within_node k x : within G source k x -> has_node G x = true.
Proof.
  induction 1 as [k|k v w _ IH Hw]; [assumption|].
  destruct G_closed as [_ He]. apply (He v w). now apply PyFacts.mem_In.
Qed.

(** When the count of seen nodes reaches the number of nodes, every node
    has been seen. *)
Lemma seen_all i s :
  BfsFacts.tracks source s ->
  (forall x, In x (seen s) -> within G source i x) ->
  List.length (seen s) = number_of_nodes G ->
  forall k x, within G source k x -> In x (seen s).
Proof.
  intros [_ Hnd] Hs Hlen k x Hx.
  assert (incl (seen s) (Py.keys (_node G))) as Hincl.
  { intros y Hy. apply PyFacts.mem_In. rewrite <- PyFacts.contains_keys.
    exact (within_node (Hs y Hy)). }
  assert (incl (Py.keys (_node G)) (seen s)) as Hall.
  { apply NoDup_length_incl; [assumption | | assumption].
    unfold number_of_nodes in Hlen. unfold Py.keys. rewrite length_map. lia. }
  apply Hall. apply PyFacts.mem_In. rewrite <- PyFacts.contains_keys.
  exact (within_node Hx).
Qed.

Lemma bfs_loop_exact budget :
  forall i s,
    level_inv i s ->
    forall x, In x (source :: map snd (bfs_loop G (number_of_nodes G) budget s))
              <-> within G source (i + budget) x.
Proof.
  induction budget as [|b IH]; intros i s Hs x.
  - assert (bfs_loop G (number_of_nodes G) 0 s = yielded s) as ->
        by (simpl; now destruct (next_level s)).
    rewrite <- (proj1 (li_tracks Hs)), Nat.add_0_r.
    split; [apply (li_sound Hs) | apply (li_complete Hs)].
  - cbn [bfs_loop]. destruct (next_level s) as [|pc rest] eqn:Hnext.
    + rewrite <- (proj1 (li_tracks Hs)). split.
      * intros Hx. apply within_le with i; [lia|]. now apply (li_sound Hs).
      * now apply (seen_closed Hs Hnext).
    + pose proof (level_inv_mid Hs) as Hmid. rewrite Hnext in Hmid.
      pose proof (@scan_level_spec i (number_of_nodes G) (seen s) (pc :: rest) _ Hmid)
        as Hlevel.
      destruct (scan_level G (number_of_nodes G) (pc :: rest) _) as [s' returned].
      destruct Hlevel as (Ht & Hsound & Hmono & Hend).
      destruct returned.
      * rewrite <- (proj1 Ht). split.
        -- intros Hx. apply within_le with (S i); [lia | auto].
        -- now apply (seen_all Ht Hsound Hend).
      * replace (i + S b)%nat with (S i + b)%nat by lia.
        apply IH. apply mid_inv_level with (seen s); [|assumption].
        apply (li_complete Hs).
Qed.

(** [reachable] holds exactly the nodes at most [depth] edges away. *)
Lemma reachable_set_exact depth x :
  In x (reachable_set G source depth) <-> within G source (Z.to_nat depth) x.
Proof.
  rewrite reachable_set_spec. unfold bfs_edges.
  apply (bfs_loop_exact (Z.to_nat depth) level_inv_start).
Qed.

End Traversal.

End Reach.

(* ================================================================== *)
(** ** Instances left by builds                                        *)
(* ================================================================== *)

(** The instances a caller can hold: a fresh one, or one on which
    [build_graph] returned, any number of times. *)
Inductive built (fs : Path.FileSystem) : DependencyGraph -> Prop :=
| built_fresh : built fs __init__
| built_again : forall files self self',
    built fs self -> build_graph fs files self = Py.Ok self' -> built fs self'.

Module Built.
Import nx Registration Resolution.

(** The graph lists its nodes in the order of the symbol table. *)
Definition aligned (self : DependencyGraph) : Prop :=
  Py.keys (_node (graph self)) = Py.keys (_symbol_table self)
  /\ NoDup (Py.keys (_symbol_table self)).

Lemma keys_set_NoDup (V : Type) (k : string) (v : V) (d : Py.dict V) :
  NoDup (Py.keys d) -> NoDup (Py.keys (Py.set k v d)).
Proof.
  intros H. rewrite PyFacts.keys_set.
  destruct (Py.contains k d) eqn:E; [assumption|].
  apply BfsFacts.NoDup_snoc; [assumption|].
  rewrite PyFacts.contains_keys in E. now apply PyFacts.mem_false.
Qed.

Lemma node_keys_add_node G n d :
  _node (add_node G n d) = Py.set n (Some d) (_node G).
Proof. unfold add_node. now destruct (Py.contains n (_succ G)). Qed.

Lemma aligned_register_def path self fdef :
  aligned self -> aligned (register_def path self fdef).
Proof.
  intros [Hk Hnd]. split; simpl.
  - rewrite node_keys_add_node, !PyFacts.keys_set, !PyFacts.contains_keys.
    now rewrite Hk.
  - now apply keys_set_NoDup.
Qed.

Lemma aligned_register_defs path fdefs :
  forall self, aligned self ->
               aligned (fold_left (register_def path) fdefs self).
Proof.
  induction fdefs as [|d ds IH]; intros self H; simpl; [assumption|].
  apply IH. now apply aligned_register_def.
Qed.

Lemma aligned_phase1 files :
  forall self, aligned self -> aligned (phase1 files self).
Proof.
  unfold phase1.
  induction files as [|f r IH]; intros self H; simpl; [assumption|].
  apply IH. unfold register_file. apply aligned_register_defs. exact H.
Qed.

Section WithFileSystem.
Variable fs : Path.FileSystem.

(** Resolution leaves the node dict as it is. *)
Lemma resolve_sites_nodes (todo : list (string * FunctionCall.t)) :
  forall self self',
    consistent self ->
    for_each (fun st pc => resolve_call fs (fst pc) st (snd pc)) todo self
    = Py.Ok self' ->
    _node (graph self') = _node (graph self).
Proof.
  induction todo as [|[p c] rest IH]; intros self self' Hc; simpl.
  - now intros [= <-].
  - rewrite resolve_call_edge.
    destruct (call_edge fs self p c) as [e|ex] eqn:Ee; simpl; [|discriminate].
    assert (forall u v, e = Some (u, v) ->
                        has_node (graph self) u = true
                        /\ has_node (graph self) v = true) as Hnodes.
    { intros u v ->. exact (@call_edge_nodes fs self p c u v Hc Ee). }
    destruct (apply_edge_spec Hc Hnodes) as (Hc' & _).
    intros H. rewrite (IH _ _ Hc' H). unfold apply_edge.
    destruct e as [[u v]|]; [|reflexivity]. cbn [with_graph graph].
    destruct (Hnodes u v eq_refl) as [Hu Hv].
    destruct Hc as [[Hk _] _].
    rewrite (@GraphFacts.add_edge_present (graph self) u v); [reflexivity| |];
      now rewrite Hk.
Qed.

Lemma build_graph_aligned files self self' :
  consistent self -> aligned self ->
  build_graph fs files self = Py.Ok self' ->
  aligned self'.
Proof.
  intros Hc Ha Hb.
  pose proof (@Build.build_graph_spec fs files self Hc) as H.
  cbv zeta in H. rewrite Hb in H.
  destruct H as (_ & _ & (_ & _ & _ & Esym) & _).
  unfold build_graph in Hb. rewrite phase2_sites in Hb.
  pose proof (@resolve_sites_nodes _ _ _ (consistent_phase1 files Hc) Hb) as Hn.
  destruct (aligned_phase1 files Ha) as [Hk Hnd].
  split; [now rewrite Hn, Esym | now rewrite Esym].
Qed.

Lemma built_invariants self :
  built fs self -> consistent self /\ aligned self.
Proof.
  induction 1 as [|files self self' _ [Hc Ha] Hb].
  - split; [apply consistent_init | split; [reflexivity | constructor]].
  - split.
    + exact (@Build.build_graph_consistent fs files self self' Hc Hb).
    + exact (@build_graph_aligned files self self' Hc Ha Hb).
Qed.

Lemma built_node_keys self :
  built fs self -> NoDup (Py.keys (_node (graph self))).
Proof.
  intros H. destruct (built_invariants H) as [_ [Hk Hnd]]. now rewrite Hk.
Qed.

(** On such an instance, [reachable] holds the nodes within [depth]
    edges of a start node. *)
Lemma reachable_exact self n depth x :
  built fs self -> has_node (graph self) n = true ->
  (In x (reachable_set (graph self) n depth)
   <-> Reach.within (graph self) n (Z.to_nat depth) x).
Proof.
  intros Hb Hn. destruct (built_invariants Hb) as [Hc _].
  apply Reach.reachable_set_exact;
    solve [assumption | apply Hc | now apply built_node_keys].
Qed.

End WithFileSystem.

End Built.

(* ================================================================== *)
(** ** What a slice holds                                              *)
(* ================================================================== *)

(** X1. On an instance left by builds, [get_slice(n, depth)] holds
    exactly the definitions of the nodes that some path of at most
    [depth] edges joins to [n] (none if [n] is not a node; a negative
    depth counts as 0), whatever the iteration order of the set. *)
Theorem get_slice_within_depth
        (fs : Path.FileSystem) (ord : Py.SetOrder) (self : DependencyGraph)
        (n : string) (depth : Z) (d : FunctionDef.t) :
  built fs self ->
  (In d (get_slice ord self n depth) <->
   nx.has_node (graph self) n = true
   /\ exists k, Reach.within (graph self) n (Z.to_nat depth) k
                /\ Py.get k (_symbol_table self) = Some d).
Proof.
  intros Hb. destruct (Built.built_invariants Hb) as [Hc _].
  rewrite Assembly.get_slice_In. split.
  - intros [Hn [k [Hk Hd]]]. split; [assumption|]. exists k. split.
    + now apply (@Built.reachable_exact fs self n depth k Hb Hn).
    + now rewrite <- (node_data_symbol k Hc).
  - intros [Hn [k [Hk Hd]]]. split; [assumption|]. exists k. split.
    + now apply (@Built.reachable_exact fs self n depth k Hb Hn).
    + now rewrite (node_data_symbol k Hc).
Qed.

(** X2. On an instance left by builds, [get_slice] returns the empty
    list exactly for the identifiers that are not in the symbol table;
    for the others the slice holds their own definition, at every
    depth. *)
Theorem get_slice_empty_iff_unknown
        (fs : Path.FileSystem) (ord : Py.SetOrder) (self : DependencyGraph)
        (n : string) (depth : Z) :
  built fs self ->
  (get_slice ord self n depth = [] <-> Py.get n (_symbol_table self) = None)
  /\ (forall d, Py.get n (_symbol_table self) = Some d ->
                In d (get_slice ord self n depth)).
Proof.
  intros Hb. destruct (Built.built_invariants Hb) as [Hc _].
  assert (forall d, Py.get n (_symbol_table self) = Some d ->
                    In d (get_slice ord self n depth)) as Hown.
  { intros d Hd. apply Assembly.get_slice_In.
    assert (nx.has_node (graph self) n = true) as Hn.
    { rewrite (Registration.consistent_has_node n Hc).
      exact (PyFacts.get_Some_contains _ _ Hd). }
    split; [assumption|]. exists n. split.
    - apply (@Built.reachable_exact fs self n depth n Hb Hn). apply Reach.within_source.
    - now rewrite (node_data_symbol n Hc). }
  split; [|exact Hown]. split.
  - intros Hnil. destruct (Py.get n (_symbol_table self)) as [d|] eqn:E;
      [|reflexivity].
    specialize (Hown d eq_refl). rewrite Hnil in Hown. destruct Hown.
  - intros Hnone. unfold get_slice.
    rewrite (Registration.consistent_has_node n Hc).
    apply PyFacts.get_None_contains in Hnone. now rewrite Hnone.
Qed.

(** X3. On an instance left by builds, a deeper slice holds everything a
    shallower one does, and every depth below 1 gives the slice of depth
    0, which is the start node's own definition. *)
Theorem get_slice_grows_with_depth
        (fs : Path.FileSystem) (ord : Py.SetOrder) (self : DependencyGraph)
        (n : string) (depth depth' : Z) :
  built fs self ->
  depth <= depth' ->
  (forall d, In d (get_slice ord self n depth) ->
             In d (get_slice ord self n depth'))
  /\ (depth' <= 0 ->
      forall d, In d (get_slice ord self n depth) ->
                Py.get n (_symbol_table self) = Some d).
Proof.
  intros Hb Hle. destruct (Built.built_invariants Hb) as [Hc _]. split.
  - intros d Hd. apply Assembly.get_slice_In in Hd.
    destruct Hd as [Hn [k [Hk Hd]]].
    apply Assembly.get_slice_In. split; [assumption|]. exists k.
    split; [|assumption].
    apply (@Built.reachable_exact fs self n depth' k Hb Hn).
    apply Reach.within_le with (Z.to_nat depth); [lia|].
    now apply (@Built.reachable_exact fs self n depth k Hb Hn).
  - intros Hneg d Hd. apply Assembly.get_slice_In in Hd.
    destruct Hd as [Hn [k [Hk Hd]]].
    apply (@Built.reachable_exact fs self n depth k Hb Hn) in Hk.
    replace (Z.to_nat depth) with O in Hk by lia.
    apply Reach.within_zero in Hk. subst k.
    now rewrite <- (node_data_symbol n Hc).
Qed.

(** X4. On an instance left by builds, the graph and the symbol table
    agree: a node carries the definition that the symbol table files
    under its identifier, the nodes are listed in the order of the
    symbol table (so [node_count] is the size of the symbol table), and
    both endpoints of every edge are in the symbol table. *)
Theorem built_graph_matches_symbol_table
        (fs : Path.FileSystem) (self : DependencyGraph) :
  built fs self ->
  (forall n d, registered self n d <-> Py.get n (_symbol_table self) = Some d)
  /\ Py.keys (nx._node (graph self)) = Py.keys (_symbol_table self)
  /\ node_count self = List.length (_symbol_table self)
  /\ (forall u v, nx.has_edge (graph self) u v = true ->
                  Py.contains u (_symbol_table self) = true
                  /\ Py.contains v (_symbol_table self) = true).
Proof.
  intros Hb. destruct (Built.built_invariants Hb) as [Hc [Hk Hnd]].
  split; [|split; [|split]].
  - intros n d. unfold registered. rewrite (proj2 Hc n).
    destruct (Py.get n (_symbol_table self)); simpl; split; congruence.
  - exact Hk.
  - unfold node_count, nx.number_of_nodes.
    apply (f_equal (@List.length string)) in Hk.
    unfold Py.keys in Hk. now rewrite !length_map in Hk.
  - intros u v Huv.
    rewrite <- !(@Registration.consistent_has_node self) by assumption.
    destruct Hc as [[_ Hcl] _]. exact (Hcl u v Huv).
Qed.

(* ================================================================== *)
(** ** The symbol table of a fresh build                               *)
(* ================================================================== *)

(** The definitions of the files in registration order, each under its
    node identifier. *)
Definition declarations (files : list SourceFile) : list (string * FunctionDef.t) :=
  flat_map (fun f => map (fun d => (node_id_of (str_path f) (FunctionDef.name d), d))
                         (defs f))
           files.

Module Symbols.

Section SetAll.
Variable V : Type.

(** [for k, v in l: d[k] = v]. *)
Definition set_all (l : list (string * V)) (d : Py.dict V) : Py.dict V :=
  fold_left (fun t kv => Py.set (fst kv) (snd kv) t) l d.

Lemma get_app (k : string) (d1 d2 : Py.dict V) :
  Py.get k (d1 ++ d2)
  = match Py.get k d1 with Some v => Some v | None => Py.get k d2 end.
Proof.
  induction d1 as [|[k' v'] r IH]; simpl; [reflexivity|].
  now destruct (String.eqb k k').
Qed.

(** The last assignment to a key is the one that stays. *)
Lemma get_set_all (k : string) (l : list (string * V)) :
  forall d, Py.get k (set_all l d)
            = match Py.get k (rev l) with
              | Some v => Some v
              | None => Py.get k d
              end.
Proof.
  unfold set_all. induction l as [|[k0 v0] r IH]; intros d; simpl; [reflexivity|].
  rewrite IH, get_app. destruct (Py.get k (rev r)); [reflexivity|].
  simpl. rewrite PyFacts.get_set. now destruct (String.eqb k k0).
Qed.

Lemma get_rev_last (k : string) (v : V) (pre post : list (string * V)) :
  ~ In k (map fst post) ->
  Py.get k (rev (pre ++ (k, v) :: post)) = Some v.
Proof.
  intros Hpost. rewrite rev_app_distr. simpl. rewrite <- app_assoc, get_app.
  assert (Py.get k (rev post) = None) as ->.
  { apply PyFacts.get_None_contains. rewrite PyFacts.contains_keys.
    apply PyFacts.mem_false. unfold Py.keys. rewrite map_rev, <- in_rev.
    exact Hpost. }
  simpl. now rewrite String.eqb_refl.
Qed.

Lemma get_rev_absent (k : string) (l : list (string * V)) :
  ~ In k (map fst l) -> Py.get k (rev l) = None.
Proof.
  intros H. apply PyFacts.get_None_contains. rewrite PyFacts.contains_keys.
  apply PyFacts.mem_false. unfold Py.keys. now rewrite map_rev, <- in_rev.
Qed.

Lemma keys_set_all_In (k : string) (l : list (string * V)) :
  forall d, In k (Py.keys (set_all l d)) <-> In k (Py.keys d) \/ In k (map fst l).
Proof.
  unfold set_all. induction l as [|[k0 v0] r IH]; intros d; simpl; [tauto|].
  rewrite IH, PyFacts.keys_set.
  destruct (Py.contains k0 d) eqn:E.
  - rewrite PyFacts.contains_keys in E. apply PyFacts.mem_In in E.
    split; [tauto | intros [H|[<-|H]]; tauto].
  - rewrite in_app_iff. simpl. tauto.
Qed.

Lemma keys_set_all_NoDup (l : list (string * V)) :
  forall d, NoDup (Py.keys d) -> NoDup (Py.keys (set_all l d)).
Proof.
  unfold set_all. induction l as [|[k0 v0] r IH]; intros d H; simpl; [assumption|].
  apply IH. now apply Built.keys_set_NoDup.
Qed.

(** Assigning a list of pairs to an empty dict leaves one entry per
    distinct key. *)
Lemma length_set_all (l : list (string * V)) :
  List.length (set_all l []) = List.length (nodup string_dec (map fst l)).
Proof.
  rewrite <- (length_map fst (set_all l [])).
  change (map fst (set_all l [])) with (Py.keys (set_all l [])).
  apply Permutation_length. apply NoDup_Permutation.
  - apply keys_set_all_NoDup. constructor.
  - apply NoDup_nodup.
  - intros k. rewrite nodup_In.
    rewrite keys_set_all_In. simpl. tauto.
Qed.

End SetAll.

Lemma symbols_register_defs path fdefs :
  forall self,
    _symbol_table (fold_left (register_def path) fdefs self)
    = set_all (map (fun d => (node_id_of path (FunctionDef.name d), d)) fdefs)
              (_symbol_table self).
Proof.
  unfold set_all. induction fdefs as [|d r IH]; intros self; simpl; [reflexivity|].
  now rewrite IH.
Qed.

Lemma symbols_phase1 files :
  forall self,
    _symbol_table (phase1 files self)
    = set_all (declarations files) (_symbol_table self).
Proof.
  unfold phase1, declarations, set_all.
  induction files as [|f r IH]; intros self; simpl; [reflexivity|].
  rewrite IH, fold_left_app. unfold register_file.
  now rewrite symbols_register_defs.
Qed.

End Symbols.

(** X5. After [build_graph] on a fresh instance, the symbol table files
    under each node identifier the last definition registered under it
    (two definitions of one name in one file collide, the later one
    stays) and nothing under an identifier that no definition has; the
    node carries the same definition, and [node_count] is the number of
    distinct identifiers. *)
Theorem symbol_table_last_definition_wins
        (fs : Path.FileSystem) (files : list SourceFile) (g : DependencyGraph) :
  build_graph fs files __init__ = Py.Ok g ->
  (forall pre k d post,
      declarations files = pre ++ (k, d) :: post ->
      ~ In k (map fst post) ->
      Py.get k (_symbol_table g) = Some d /\ registered g k d)
  /\ (forall k, ~ In k (map fst (declarations files)) ->
                Py.get k (_symbol_table g) = None
                /\ nx.has_node (graph g) k = false)
  /\ node_count g
     = List.length (nodup string_dec (map fst (declarations files))).
Proof.
  intros Hb.
  assert (built fs g) as Hbuilt by (eapply built_again; [apply built_fresh | exact Hb]).
  destruct (Built.built_invariants Hbuilt) as [Hc [Hk _]].
  pose proof (@Build.build_graph_spec fs files __init__
                Registration.consistent_init) as H.
  cbv zeta in H. rewrite Hb in H.
  destruct H as (_ & _ & (_ & _ & _ & Esym) & _).
  rewrite Symbols.symbols_phase1 in Esym. simpl in Esym.
  split; [|split].
  - intros pre k d post Hdecl Hpost.
    assert (Py.get k (_symbol_table g) = Some d) as Hget.
    { rewrite Esym, Symbols.get_set_all, Hdecl.
      now rewrite (@Symbols.get_rev_last _ k d pre post Hpost). }
    split; [assumption | now apply Registration.consistent_registered].
  - intros k Hk'.
    assert (Py.get k (_symbol_table g) = None) as Hget.
    { rewrite Esym, Symbols.get_set_all.
      now rewrite (@Symbols.get_rev_absent _ k _ Hk'). }
    split; [assumption|].
    rewrite (Registration.consistent_has_node k Hc).
    now apply PyFacts.get_None_contains.
  - unfold node_count, nx.number_of_nodes.
    rewrite <- (length_map fst (nx._node (graph g))).
    change (map fst (nx._node (graph g))) with (Py.keys (nx._node (graph g))).
    rewrite Hk. unfold Py.keys. rewrite length_map, Esym.
    apply Symbols.length_set_all.
Qed.

(* ================================================================== *)
(** ** Imports                                                         *)
(* ================================================================== *)

(** X7. A name that the file binds only through bare (package)
    specifiers, ones that do not start with a dot, or does not bind at
    all, resolves to nothing, and the file system is never asked. *)
Theorem bare_import_never_resolves
        (fs : Path.FileSystem) (self : DependencyGraph)
        (file_path call_name : string) :
  (forall imp, In imp (get_or_nil file_path (_file_imports self)) ->
               ImportInfo.name imp = call_name ->
               String.prefix "." (ImportInfo.path imp) = false) ->
  _resolve_call_via_imports fs self file_path call_name = Py.Ok None.
Proof.
  unfold _resolve_call_via_imports.
  induction (get_or_nil file_path (_file_imports self)) as [|imp rest IH];
    intros Hbare; simpl; [reflexivity|].
  assert (scan_imports fs self file_path call_name rest = Py.Ok None) as Hrest.
  { apply IH. intros i Hi. apply Hbare. now right. }
  destruct (String.eqb_spec (ImportInfo.name imp) call_name) as [Heq|Hne];
    [|exact Hrest].
  unfold _resolve_import_path.
  rewrite (Hbare imp (or_introl eq_refl) Heq). simpl. exact Hrest.
Qed.

(* ================================================================== *)
(** ** Edges                                                           *)
(* ================================================================== *)

Module Edges.
Import nx Registration Resolution.

Lemma set_add_present (v : string) (l : list string) :
  Py.mem v l = true -> Py.set_add v l = l.
Proof. unfold Py.set_add. now intros ->. Qed.

Lemma set_same (V : Type) (k : string) (v : V) (d : Py.dict V) :
  Py.get k d = Some v -> Py.set k v d = d.
Proof.
  induction d as [|[k' v'] r IH]; simpl; [discriminate|].
  destruct (String.eqb_spec k k') as [->|Hne].
  - now intros [= ->].
  - intros H. now rewrite IH.
Qed.

(** Adding an edge that is there changes nothing. *)
Lemma add_edge_existing G u v :
  Py.contains u (_succ G) = true ->
  Py.contains v (_succ G) = true ->
  has_edge G u v = true ->
  add_edge G u v = G.
Proof.
  intros Hu Hv He. rewrite (@GraphFacts.add_edge_present G u v Hu Hv).
  unfold has_edge in He. rewrite (@set_add_present v _ He).
  unfold neighbors in *. unfold Py.contains in Hu.
  destruct (Py.get u (_succ G)) as [l|] eqn:El; [|discriminate].
  cbv iota beta. rewrite (@set_same Py.pyset u l (_succ G) El). now destruct G.
Qed.

Lemma sum_set (k : string) (l l' : list string) (d : Py.dict (list string)) :
  Py.get k d = Some l ->
  (list_sum (map (fun kv => List.length (snd kv)) (Py.set k l' d)) + List.length l
   = list_sum (map (fun kv => List.length (snd kv)) d) + List.length l')%nat.
Proof.
  induction d as [|[k' v'] r IH]; simpl; [discriminate|].
  destruct (String.eqb_spec k k') as [->|Hne]; simpl.
  - intros [= ->]. lia.
  - intros H. specialize (IH H). lia.
Qed.

(** Adding an edge that is not there counts one more. *)
Lemma add_edge_fresh G u v :
  Py.contains u (_succ G) = true ->
  Py.contains v (_succ G) = true ->
  has_edge G u v = false ->
  number_of_edges (add_edge G u v) = S (number_of_edges G).
Proof.
  intros Hu Hv He. rewrite (@GraphFacts.add_edge_present G u v Hu Hv).
  unfold number_of_edges. simpl.
  unfold has_edge in He. unfold Py.set_add. rewrite He.
  unfold neighbors in *. unfold Py.contains in Hu.
  destruct (Py.get u (_succ G)) as [l|] eqn:El; [|discriminate].
  cbv iota beta in *. pose proof (@sum_set u l (l ++ [v]) (_succ G) El) as H.
  rewrite length_app in H. simpl in H. unfold Py.pyset in *. lia.
Qed.

Lemma with_graph_same self : with_graph self (graph self) = self.
Proof. now destruct self. Qed.

(** The files that the stored call sites came from. *)
Lemma phase1_calls_source files p cs :
  forall self,
    Py.get p (_file_calls (phase1 files self)) = Some cs ->
    Py.get p (_file_calls self) = Some cs
    \/ exists f, In f files /\ str_path f = p /\ calls f = cs.
Proof.
  unfold phase1.
  induction files as [|f r IH]; intros self H; simpl in *; [now left|].
  destruct (IH _ H) as [H'|[g (Hg & Hp & Hc)]].
  - destruct (register_file_fields self f) as (_ & E & _).
    rewrite E, PyFacts.get_set in H'.
    destruct (String.eqb_spec p (str_path f)) as [->|Hne].
    + right. exists f. injection H' as <-. auto.
    + now left.
  - right. exists g. auto.
Qed.

End Edges.

(** X6. On an instance left by builds, resolving one call site adds at
    most one edge and no node, and resolving the same call site again
    changes nothing: repeated calls to one callee leave one edge. *)
Theorem resolve_call_adds_at_most_one_edge
        (fs : Path.FileSystem) (self s1 : DependencyGraph)
        (file_path : string) (call : FunctionCall.t) :
  built fs self ->
  resolve_call fs file_path self call = Py.Ok s1 ->
  resolve_call fs file_path s1 call = Py.Ok s1
  /\ (edge_count s1 = edge_count self \/ edge_count s1 = S (edge_count self))
  /\ node_count s1 = node_count self.
Proof.
  intros Hb. destruct (Built.built_invariants Hb) as [Hc _].
  rewrite !Resolution.resolve_call_edge.
  destruct (Resolution.call_edge fs self file_path call) as [e|ex] eqn:Ee;
    cbn [Py.bind]; [|discriminate].
  intros [= <-].
  assert (forall u v, e = Some (u, v) ->
                      nx.has_node (graph self) u = true
                      /\ nx.has_node (graph self) v = true) as Hnodes.
  { intros u v ->. exact (@Resolution.call_edge_nodes fs self file_path call u v Hc Ee). }
  destruct (Resolution.apply_edge_spec Hc Hnodes) as (Hc' & Hl & _ & _).
  rewrite <- (Resolution.call_edge_lookups fs file_path call Hl), Ee.
  cbn [Py.bind].
  destruct e as [[u v]|]; [|auto].
  destruct (Hnodes u v eq_refl) as [Hu Hv].
  assert (Py.contains u (nx._succ (graph self)) = true) as Hu'
      by now rewrite (proj1 (proj1 Hc)).
  assert (Py.contains v (nx._succ (graph self)) = true) as Hv'
      by now rewrite (proj1 (proj1 Hc)).
  unfold Resolution.apply_edge, with_graph. cbn [graph _file_functions _file_calls
    _file_imports _symbol_table].
  split; [|split].
  - rewrite Edges.add_edge_existing; [reflexivity | | |].
    + now rewrite GraphFacts.succ_contains_add_edge.
    + now rewrite GraphFacts.succ_contains_add_edge.
    + rewrite GraphFacts.has_edge_add_edge by assumption.
      now rewrite !String.eqb_refl.
  - unfold edge_count. cbn [graph].
    destruct (nx.has_edge (graph self) u v) eqn:He.
    + left. now rewrite Edges.add_edge_existing.
    + right. now apply Edges.add_edge_fresh.
  - unfold node_count, nx.number_of_nodes. cbn [graph].
    now rewrite (@GraphFacts.add_edge_present (graph self) u v Hu' Hv').
Qed.

(** X11. After [build_graph] on a fresh instance, from files listed once
    each, the edges are exactly those that the call sites of the files
    ask for: [u -> v] is an edge if and only if some call site of some
    file resolves, against the built instance, to the pair [(u, v)]. *)
Theorem build_graph_edges_from_call_sites
        (fs : Path.FileSystem) (files : list SourceFile) (g : DependencyGraph)
        (u v : string) :
  NoDup (map str_path files) ->
  build_graph fs files __init__ = Py.Ok g ->
  (nx.has_edge (graph g) u v = true <->
   exists f call, In f files /\ In call (calls f)
                  /\ Resolution.call_edge fs g (str_path f) call
                     = Py.Ok (Some (u, v))).
Proof.
  intros Hnd Hb.
  pose proof (@Build.build_graph_spec fs files __init__
                Registration.consistent_init) as H.
  cbv zeta in H. rewrite Hb in H.
  destruct H as (_ & Hl & _ & _ & He).
  rewrite He. clear He.
  assert (NoDup (Py.keys (_file_calls (phase1 files __init__)))) as Hkeys
      by (apply Build.calls_keys_NoDup; constructor).
  split.
  - intros [Hinit|[[p c] [Hin Hedge]]]; [discriminate Hinit|].
    apply (Build.sites_members _ p c Hkeys) in Hin.
    destruct Hin as [cs [Hget Hc]].
    destruct (Edges.phase1_calls_source _ _ _ Hget) as [H0|[f (Hf & Hp & Hcs)]];
      [discriminate H0|].
    exists f, c. subst p cs. simpl in Hedge.
    rewrite <- (Resolution.call_edge_lookups fs (str_path f) c Hl).
    auto.
  - intros [f [c (Hf & Hc & Hedge)]]. right. exists (str_path f, c). split.
    + apply (Build.sites_members _ (str_path f) c Hkeys). exists (calls f).
      split; [|assumption].
      exact (proj1 (proj2 (@Registration.phase1_listed_file files f Hnd Hf __init__))).
    + simpl. now rewrite (Resolution.call_edge_lookups fs (str_path f) c Hl).
Qed.

(* ================================================================== *)
(** ** The text of a context                                           *)
(* ================================================================== *)

Module ContextText.

Lemma prefix_append (p z : string) : String.prefix p (p ++ z) = true.
Proof.
  induction p as [|a p IH]; simpl; [now destruct z|].
  destruct (ascii_dec a a); [assumption | contradiction].
Qed.

Lemma prefix_append_r (p s z : string) :
  String.prefix p s = true -> String.prefix p (s ++ z) = true.
Proof.
  revert s. induction p as [|a p IH]; intros s; [intros _; now destruct (s ++ z)%string|].
  destruct s as [|b s]; simpl; [discriminate|].
  destruct (ascii_dec a b); [apply IH | discriminate].
Qed.

Lemma header_prefix (file_path : string) (first last : Z) :
  String.prefix "// File: " (header file_path first last) = true.
Proof. unfold header. apply prefix_append. Qed.

Lemma join_head (sep b : string) (rest : list string) :
  exists tail, Py.join sep (b :: rest) = (b ++ tail)%string.
Proof.
  unfold Py.join. destruct rest as [|c rest]; simpl.
  - exists "". clear. induction b as [|a b IH]; simpl; [reflexivity|].
    now rewrite <- IH.
  - eauto.
Qed.

(** No import of the file binds the name. *)
Lemma scan_imports_unbound fs self file_path call_name imps :
  (forall imp, In imp imps -> ImportInfo.name imp <> call_name) ->
  scan_imports fs self file_path call_name imps = Py.Ok None.
Proof.
  induction imps as [|imp rest IH]; intros H; simpl; [reflexivity|].
  destruct (String.eqb_spec (ImportInfo.name imp) call_name) as [Heq|_].
  - exfalso. exact (H imp (or_introl eq_refl) Heq).
  - apply IH. intros i Hi. apply H. now right.
Qed.

End ContextText.

(** X9. Whenever [get_route_context] returns, the string begins with a
    header line ["// File: ..."] and ends with a newline; in particular
    it is never empty. *)
Theorem get_route_context_shape
        (fs : Path.FileSystem) (ord : Py.SetOrder) (self : DependencyGraph)
        (route : RouteInfo.t) (depth : Z) (s : string) :
  get_route_context fs ord self route depth = Py.Ok s ->
  String.prefix "// File: " s = true
  /\ (exists body, s = (body ++ String "010" "")%string)
  /\ s <> "".
Proof.
  unfold get_route_context.
  destruct (collect_defs fs ord self route depth) as [[|d rest]|e];
    cbn [Py.bind]; [| |discriminate].
  - intros [= <-]. unfold fallback_block. split; [|split].
    + apply ContextText.prefix_append_r, ContextText.header_prefix.
    + exists (header (RouteInfo.file_path route)
                     (RouteInfo.handler_start_line route)
                     (RouteInfo.handler_end_line route)
                ++ RouteInfo.handler_source route)%string.
      now rewrite Assembly.append_assoc.
    + unfold header. simpl. discriminate.
  - match goal with
    | |- Py.Ok ?t = Py.Ok s -> _ => intros Hs; assert (t = s) as <- by congruence
    end.
    clear Hs. split; [|split].
    + apply ContextText.prefix_append_r.
      destruct (ContextText.join_head (String "010" (String "010" ""))
                  (def_block d) (map def_block rest)) as [tail Htail].
      change (map def_block (d :: rest)) with (def_block d :: map def_block rest).
      rewrite Htail. apply ContextText.prefix_append_r.
      unfold def_block. apply ContextText.prefix_append_r.
      apply ContextText.header_prefix.
    + eauto.
    + apply Assembly.append_newline_nonempty.
Qed.

(** X10. When every call site inside the handler's lines has a name that
    is neither a definition of the route's file in the symbol table nor
    bound by an import of that file, [get_route_context] returns the
    fallback block: a header with the route's file path and handler line
    range, the handler's source, and a newline.  An empty handler range
    is the special case with no call site at all. *)
Theorem get_route_context_falls_back
        (fs : Path.FileSystem) (ord : Py.SetOrder) (self : DependencyGraph)
        (route : RouteInfo.t) (depth : Z) :
  (forall call,
      In call (get_or_nil (RouteInfo.file_path route) (_file_calls self)) ->
      RouteInfo.handler_start_line route <= FunctionCall.line call
                                         <= RouteInfo.handler_end_line route ->
      Py.get (node_id_of (RouteInfo.file_path route) (FunctionCall.name call))
             (_symbol_table self) = None
      /\ forall imp,
          In imp (get_or_nil (RouteInfo.file_path route) (_file_imports self)) ->
          ImportInfo.name imp <> FunctionCall.name call) ->
  get_route_context fs ord self route depth
  = Py.Ok ("// File: " ++ RouteInfo.file_path route ++ ", Lines "
             ++ Py.str_of_int (RouteInfo.handler_start_line route) ++ "-"
             ++ Py.str_of_int (RouteInfo.handler_end_line route) ++ String "010" ""
             ++ RouteInfo.handler_source route ++ String "010" "")%string.
Proof.
  intros H. apply Assembly.get_route_context_fallback.
  intros call Hcall. unfold calls_in_handler in Hcall.
  apply filter_In in Hcall. destruct Hcall as [Hin Hrange].
  unfold in_handler in Hrange. apply andb_true_iff in Hrange.
  rewrite !Z.leb_le in Hrange.
  destruct (H call Hin Hrange) as [Hsym Himp].
  unfold candidate_node.
  apply PyFacts.get_None_contains in Hsym. rewrite Hsym.
  unfold _resolve_call_via_imports.
  now rewrite (ContextText.scan_imports_unbound fs self _ _ Himp).
Qed.

(* ------------------------------------------------------------------ *)
(** Sample instances for the properties above. *)

Lemma chain_graph_built : built chain_fs chain_graph.
Proof. apply built_again with [chain_file] __init__; [apply built_fresh | reflexivity]. Qed.

(** [/p/web.js]: a handler on lines 1-3 calls [res.sendFile] on line 2;
    [express] is bound by a bare specifier. *)
Definition web_file : SourceFile :=
  {| str_path := "/p/web.js";
     defs := [];
     calls := [FunctionCall.mk "sendFile" "/p/web.js" 2 (Some "res");
               FunctionCall.mk "express" "/p/web.js" 5 None];
     imports := [ImportInfo.mk "express" "express" "/p/web.js" 1] |}.

Definition web_fs : Path.FileSystem := Path.plain_fs [] ["/p/web.js"].

Definition web_graph : DependencyGraph :=
  returned __init__ (build_graph web_fs [web_file] __init__).

Definition web_route : RouteInfo.t :=
  RouteInfo.mk "/p/web.js" "GET" "/" 1 3 "(req, res) => { res.sendFile('x'); }" [].

Lemma get_slice_within_depth_witness :
  In (fdef_in "/p/chain.js" "c" 9 11)
     (get_slice Py.reverse_order chain_graph "/p/chain.js:a" 2)
  <-> nx.has_node (graph chain_graph) "/p/chain.js:a" = true
      /\ exists k, Reach.within (graph chain_graph) "/p/chain.js:a" (Z.to_nat 2) k
                   /\ Py.get k (_symbol_table chain_graph)
                      = Some (fdef_in "/p/chain.js" "c" 9 11).
Proof. apply (@get_slice_within_depth chain_fs). exact chain_graph_built. Defined.

Lemma get_slice_empty_iff_unknown_witness :
  (get_slice Py.insertion_order chain_graph "/p/chain.js:zz" 4 = []
   <-> Py.get "/p/chain.js:zz" (_symbol_table chain_graph) = None)
  /\ (forall d, Py.get "/p/chain.js:zz" (_symbol_table chain_graph) = Some d ->
                In d (get_slice Py.insertion_order chain_graph "/p/chain.js:zz" 4)).
Proof. apply (@get_slice_empty_iff_unknown chain_fs). exact chain_graph_built. Defined.

Lemma get_slice_grows_with_depth_witness :
  (forall d, In d (get_slice Py.insertion_order chain_graph "/p/chain.js:a" 1) ->
             In d (get_slice Py.insertion_order chain_graph "/p/chain.js:a" 2))
  /\ (2 <= 0 ->
      forall d, In d (get_slice Py.insertion_order chain_graph "/p/chain.js:a" 1) ->
                Py.get "/p/chain.js:a" (_symbol_table chain_graph) = Some d).
Proof.
  apply (@get_slice_grows_with_depth chain_fs); [exact chain_graph_built | lia].
Defined.

Lemma built_graph_matches_symbol_table_witness :
  (forall n d, registered chain_graph n d
               <-> Py.get n (_symbol_table chain_graph) = Some d)
  /\ Py.keys (nx._node (graph chain_graph)) = Py.keys (_symbol_table chain_graph)
  /\ node_count chain_graph = List.length (_symbol_table chain_graph)
  /\ (forall u v, nx.has_edge (graph chain_graph) u v = true ->
                  Py.contains u (_symbol_table chain_graph) = true
                  /\ Py.contains v (_symbol_table chain_graph) = true).
Proof.
  apply (@built_graph_matches_symbol_table chain_fs). exact chain_graph_built.
Defined.

(** [/p/twice.js] defines [run] twice. *)
Definition twice_file : SourceFile :=
  {| str_path := "/p/twice.js";
     defs := [fdef_in "/p/twice.js" "run" 1 3; fdef_in "/p/twice.js" "run" 5 9];
     calls := [];
     imports := [] |}.

Lemma symbol_table_last_definition_wins_witness :
  Py.get "/p/twice.js:run"
         (_symbol_table (returned __init__
                           (build_graph chain_fs [twice_file] __init__)))
  = Some (fdef_in "/p/twice.js" "run" 5 9)
  /\ node_count (returned __init__ (build_graph chain_fs [twice_file] __init__))
     = 1%nat.
Proof.
  destruct (@symbol_table_last_definition_wins
              chain_fs [twice_file]
              (returned __init__ (build_graph chain_fs [twice_file] __init__))
              eq_refl) as (Hlast & _ & Hcount).
  split.
  - apply (Hlast [("/p/twice.js:run", fdef_in "/p/twice.js" "run" 1 3)]
                 "/p/twice.js:run" (fdef_in "/p/twice.js" "run" 5 9) []);
      [reflexivity | simpl; tauto].
  - rewrite Hcount. reflexivity.
Defined.

Lemma resolve_call_adds_at_most_one_edge_witness :
  resolve_call chain_fs "/p/chain.js" chain_graph (call_in "/p/chain.js" "b" 2)
  = Py.Ok chain_graph
  /\ (edge_count chain_graph = edge_count chain_graph
      \/ edge_count chain_graph = S (edge_count chain_graph))
  /\ node_count chain_graph = node_count chain_graph.
Proof.
  apply (@resolve_call_adds_at_most_one_edge chain_fs chain_graph chain_graph);
    [exact chain_graph_built | reflexivity].
Defined.

Lemma bare_import_never_resolves_witness :
  _resolve_call_via_imports web_fs web_graph "/p/web.js" "express" = Py.Ok None.
Proof.
  apply bare_import_never_resolves.
  intros imp [<-|[]] _. reflexivity.
Defined.

Lemma get_route_context_shape_witness :
  String.prefix "// File: "
    (returned "" (get_route_context chain_fs Py.insertion_order chain_graph chain_route 1))
  = true
  /\ (exists body,
         returned "" (get_route_context chain_fs Py.insertion_order chain_graph
                        chain_route 1)
         = (body ++ String "010" "")%string)
  /\ returned "" (get_route_context chain_fs Py.insertion_order chain_graph
                    chain_route 1) <> "".
Proof.
  apply (@get_route_context_shape chain_fs Py.insertion_order chain_graph
           chain_route 1).
  reflexivity.
Defined.

Lemma get_route_context_falls_back_witness :
  get_route_context web_fs Py.insertion_order web_graph web_route 5
  = Py.Ok ("// File: " ++ RouteInfo.file_path web_route ++ ", Lines "
             ++ Py.str_of_int (RouteInfo.handler_start_line web_route) ++ "-"
             ++ Py.str_of_int (RouteInfo.handler_end_line web_route) ++ String "010" ""
             ++ RouteInfo.handler_source web_route ++ String "010" "")%string.
Proof.
  apply get_route_context_falls_back.
  intros call [<-|[<-|[]]] Hrange.
  - split; [reflexivity|]. intros imp [<-|[]]. discriminate.
  - simpl in Hrange. lia.
Defined.

Lemma build_graph_edges_from_call_sites_witness :
  nx.has_edge
    (graph (returned __init__
              (build_graph main_fs [main_file; util_file] __init__)))
    "/p/main.js:main" "/p/util.js:helper" = true
  <-> exists f call,
      In f [main_file; util_file] /\ In call (calls f)
      /\ Resolution.call_edge main_fs
           (returned __init__ (build_graph main_fs [main_file; util_file] __init__))
           (str_path f) call
         = Py.Ok (Some ("/p/main.js:main", "/p/util.js:helper")).
Proof.
  apply build_graph_edges_from_call_sites.
  - constructor; [|constructor; [|constructor]]; simpl; intuition discriminate.
  - reflexivity.
Defined.

(* ================================================================== *)
(** * Around the graph: parser, walk, scanner, analyzer and reporter

    The code that feeds [DependencyGraph] (the tree-sitter finders of
    [logicgate/parser.py] and the directory walk of [build_graph]) and
    the code that consumes its output ([logicgate/cli.py],
    [logicgate/analyzer.py], [logicgate/remediator.py] and
    [logicgate/reporter.py]), embedded on top of the definitions
    above.  Tree-sitter, the file system and the language model are
    parameters: a [ts.Source] gives the query matches of a path, a
    [Path.FileSystem] and a listing function give the directory tree,
    and the replies of the model are arguments of the functions that
    read them. *)
(* ================================================================== *)

(* ================================================================== *)
(** ** [logicgate/parser.py]: what the parser makes of query matches   *)
(* ================================================================== *)

Module ts.

(** A tree-sitter node, as far as the parser looks at it: [node.type],
    the outcome of [node.text.decode()] (which raises
    [UnicodeDecodeError], a [ValueError], on bytes that are not UTF-8),
    the rows [node.start_point[0]] and [node.end_point[0]], and
    [node.named_children]. *)
#[warnings="-register-all"] Inductive Node : Type := mkNode {
  type : string;
  text_decode : Py.result string;
  start_row : Z;
  end_row : Z;
  named_children : list Node
}.

(** One element of [cursor.matches(...)]: the pattern index and the
    captures, a dict from capture name to nodes. *)
Definition Match : Type := (nat * Py.dict (list Node))%type.

(** What the tree-sitter side supplies for a path: whether [parse_file]
    returns (it raises when the file cannot be read), and the matches
    that [_run_query] returns for a query name (none when the query was
    not compiled). *)
Record Source : Type := mkTS {
  parses : Path.t -> bool;
  run_query : string -> Path.t -> list Match
}.

End ts.

Module TreeSitterParser.
Import ts.

Definition _HTTP_METHODS : list string :=
  ["get"; "post"; "put"; "patch"; "delete"; "use"; "all"].

(** [s.upper()], on the ASCII letters; the parser applies it to members
    of [_HTTP_METHODS] only. *)
Definition upper_char (c : ascii) : ascii :=
  let n := nat_of_ascii c in
  if (97 <=? n)%nat && (n <=? 122)%nat then ascii_of_nat (n - 32) else c.

Fixpoint upper (s : string) : string :=
  match s with
  | EmptyString => EmptyString
  | String c r => String (upper_char c) (upper r)
  end.

(** Whether [raw[0]] is one of the three quote characters: apostrophe,
    quotation mark (code 34) or backtick. *)
Definition opens_with_quote (raw : string) : bool :=
  match raw with
  | String c _ =>
      Ascii.eqb c "'" || Ascii.eqb c "034" || Ascii.eqb c "`"
  | EmptyString => false
  end.

(** [_extract_string]: the text of a string node without its first and
    last character, when it starts with a quote. *)
Definition _extract_string (string_node : Node) : Py.result string :=
  raw <- text_decode string_node ;;
  if (2 <=? String.length raw)%nat && opens_with_quote raw
  then Py.Ok (substring 1 (String.length raw - 2) raw)
  else Py.Ok raw.

(** [for ... in matches: ...] where the body appends at most one result,
    or raises. *)
Fixpoint collect {A : Type} (body : Match -> Py.result (option A))
         (matches : list Match) : Py.result (list A) :=
  match matches with
  | [] => Py.Ok []
  | m :: rest =>
      r <- body m ;;
      results <- collect body rest ;;
      Py.Ok (match r with Some a => a :: results | None => results end)
  end.

(** [nodes[0]], when the list is not empty. *)
Definition first_node (nodes : list Node) : option Node := hd_error nodes.

(** *** [find_function_defs] *)

Definition function_def_of (path : Path.t) (m : Match)
  : Py.result (option FunctionDef.t) :=
  let captures := snd m in
  let name_nodes := get_or_nil "name" captures in
  let func_nodes := get_or_nil "func" captures in
  let decl_nodes := get_or_nil "decl" captures in
  match name_nodes with
  | [] => Py.Ok None
  | name_node :: _ =>
      fn_name <- text_decode name_node ;;
      match match func_nodes with
            | span_node :: _ => Some span_node
            | [] => first_node decl_nodes
            end with
      | None => Py.Ok None
      | Some span_node =>
          source <- text_decode span_node ;;
          Py.Ok (Some (FunctionDef.mk fn_name (Path.str path)
                                      (start_row span_node + 1)
                                      (end_row span_node + 1)
                                      source))
      end
  end.

Definition find_function_defs (src : Source) (path : Path.t)
  : Py.result (list FunctionDef.t) :=
  if negb (parses src path) then Py.Ok []
  else collect (function_def_of path) (run_query src "function_defs" path).

(** *** [find_function_calls] *)

Definition function_call_of (path : Path.t) (m : Match)
  : Py.result (option FunctionCall.t) :=
  let captures := snd m in
  let fn_name_nodes := get_or_nil "fn_name" captures in
  let obj_nodes := get_or_nil "obj" captures in
  let method_name_nodes := get_or_nil "method_name" captures in
  match fn_name_nodes with
  | node :: _ =>
      nm <- text_decode node ;;
      Py.Ok (Some (FunctionCall.mk nm (Path.str path) (start_row node + 1) None))
  | [] =>
      match method_name_nodes, obj_nodes with
      | method_node :: _, obj_node :: _ =>
          obj_text <- text_decode obj_node ;;
          nm <- text_decode method_node ;;
          Py.Ok (Some (FunctionCall.mk nm (Path.str path)
                                       (start_row method_node + 1)
                                       (Some obj_text)))
      | _, _ => Py.Ok None
      end
  end.

Definition find_function_calls (src : Source) (path : Path.t)
  : Py.result (list FunctionCall.t) :=
  if negb (parses src path) then Py.Ok []
  else collect (function_call_of path) (run_query src "function_calls" path).

(** *** [find_imports] *)

Definition import_of (path : Path.t) (m : Match)
  : Py.result (option ImportInfo.t) :=
  let captures := snd m in
  let name_nodes := get_or_nil "name" captures in
  let req_fn_nodes := get_or_nil "req_fn" captures in
  let source_nodes := get_or_nil "source" captures in
  let decl_nodes := get_or_nil "decl" captures in
  match name_nodes, req_fn_nodes, source_nodes with
  | name_node :: _, req_fn_node :: _, source_node :: _ =>
      req_fn <- text_decode req_fn_node ;;
      if negb (String.eqb req_fn "require") then Py.Ok None
      else
        var_name <- text_decode name_node ;;
        import_path <- _extract_string source_node ;;
        let line := match decl_nodes with
                    | decl_node :: _ => start_row decl_node + 1
                    | [] => start_row name_node + 1
                    end in
        Py.Ok (Some (ImportInfo.mk var_name import_path (Path.str path) line))
  | _, _, _ => Py.Ok None
  end.

Definition find_imports (src : Source) (path : Path.t)
  : Py.result (list ImportInfo.t) :=
  if negb (parses src path) then Py.Ok []
  else collect (import_of path) (run_query src "require_imports" path).

(** *** [find_routes] *)

(** [for mid in remaining[:-1]: ...] *)
Fixpoint middleware_of (mids : list Node) : Py.result (list string) :=
  match mids with
  | [] => Py.Ok []
  | mid :: rest =>
      if String.eqb (type mid) "identifier"
         || String.eqb (type mid) "member_expression"
      then
        nm <- text_decode mid ;;
        names <- middleware_of rest ;;
        Py.Ok (nm :: names)
      else middleware_of rest
  end.

Definition function_like (node_type : string) : bool :=
  Py.mem node_type ["arrow_function"; "function_expression"; "function"].

Definition route_of (path : Path.t) (m : Match) : Py.result (option RouteInfo.t) :=
  let captures := snd m in
  let method_nodes := get_or_nil "method" captures in
  let obj_nodes := get_or_nil "obj" captures in
  let args_nodes := get_or_nil "args" captures in
  match method_nodes, obj_nodes, args_nodes with
  | method_node :: _, _ :: _, args_node :: _ =>
      method_text <- text_decode method_node ;;
      if negb (Py.mem method_text _HTTP_METHODS) then Py.Ok None
      else
        match named_children args_node with
        | [] => Py.Ok None
        | first_arg :: others =>
            pattern_remaining <-
              (if String.eqb (type first_arg) "string"
               then p <- _extract_string first_arg ;; Py.Ok (p, others)
               else Py.Ok ("*", first_arg :: others)) ;;
            let route_pattern := fst pattern_remaining in
            let remaining := snd pattern_remaining in
            match remaining with
            | [] => Py.Ok None
            | _ :: _ =>
                let handler_node := last remaining first_arg in
                middleware <- middleware_of (removelast remaining) ;;
                handler_source <- text_decode handler_node ;;
                if String.eqb method_text "use"
                   && negb (function_like (type handler_node))
                then Py.Ok None
                else
                  Py.Ok (Some (RouteInfo.mk
                                 (Path.str path)
                                 (upper method_text)
                                 (if Py.truthy route_pattern
                                  then route_pattern else "*")
                                 (start_row handler_node + 1)
                                 (end_row handler_node + 1)
                                 handler_source
                                 middleware))
            end
        end
  | _, _, _ => Py.Ok None
  end.

Definition find_routes (src : Source) (path : Path.t)
  : Py.result (list RouteInfo.t) :=
  if negb (parses src path) then Py.Ok []
  else collect (route_of path) (run_query src "express_routes" path).

End TreeSitterParser.

(* ================================================================== *)
(** ** [_walk_sources] and [build_graph] on a directory                *)
(* ================================================================== *)

Module Walk.

Definition _SKIP_DIRS : list string :=
  ["node_modules"; ".git"; "dist"; "build"; ".next"; "__pycache__"].

Definition _JS_EXTENSIONS : list string := [".js"; ".ts"; ".jsx"; ".tsx"].

(** [p.parts]: the root, if any, then the components. *)
Definition parts_of (p : Path.t) : list string :=
  if String.eqb (Path.root p) "" then Path.parts p
  else Path.root p :: Path.parts p.

(** [a < b] on lists of strings, as Python compares lists. *)
Fixpoint parts_lt (a b : list string) : bool :=
  match a, b with
  | _, [] => false
  | [], _ :: _ => true
  | x :: a', y :: b' =>
      match String.compare x y with
      | Lt => true
      | Gt => false
      | Eq => parts_lt a' b'
      end
  end.

(** [p < q] on paths: the comparison of their parts. *)
Definition path_lt (p q : Path.t) : bool := parts_lt (parts_of p) (parts_of q).

(** [sorted(l)]: a stable sort that only asks [<]. *)
Fixpoint insert_sorted (x : Path.t) (l : list Path.t) : list Path.t :=
  match l with
  | [] => [x]
  | y :: r => if path_lt x y then x :: y :: r else y :: insert_sorted x r
  end.

Definition sorted (l : list Path.t) : list Path.t :=
  fold_left (fun acc x => insert_sorted x acc) l [].

(** [any(part in _SKIP_DIRS for part in child.parts)]. *)
Definition under_skipped_dir (child : Path.t) : bool :=
  existsb (fun part => Py.mem part _SKIP_DIRS) (parts_of child).

(** The test that [_walk_sources] applies to each child, on a file
    system whose calls return; [Fallible.is_source] below is the test
    with the failures of [is_file]. *)
Definition is_source (fs : Path.FileSystem) (child : Path.t) : bool :=
  Path.is_file fs child
  && Py.mem (Path.suffix child) _JS_EXTENSIONS
  && negb (under_skipped_dir child).

(** [_walk_sources(directory)]; [rglob directory] is what
    [directory.rglob("*")] lists. *)
Definition _walk_sources (fs : Path.FileSystem) (rglob : Path.t -> list Path.t)
           (directory : Path.t) : list Path.t :=
  filter (is_source fs) (sorted (rglob directory)).

End Walk.

(** The first loop of [build_graph] for one path: the three parser
    calls, then the registration of what they return. *)
Definition parse_and_register (src : ts.Source) (self : DependencyGraph)
           (source_path : Path.t) : Py.result DependencyGraph :=
  defs <- TreeSitterParser.find_function_defs src source_path ;;
  calls <- TreeSitterParser.find_function_calls src source_path ;;
  imports <- TreeSitterParser.find_imports src source_path ;;
  Py.Ok (register_file self
           {| str_path := Path.str source_path;
              defs := defs; calls := calls; imports := imports |}).

(** [build_graph(directory)]: walk, parse and register every source
    file, then resolve the stored call sites. *)
Definition build_graph_directory (fs : Path.FileSystem)
           (rglob : Path.t -> list Path.t) (src : ts.Source)
           (directory : Path.t) (self : DependencyGraph)
  : Py.result DependencyGraph :=
  registered_all <- for_each (parse_and_register src)
                             (Walk._walk_sources fs rglob directory) self ;;
  phase2 fs registered_all.

(** What the parser returns for one path, as a [SourceFile]. *)
Definition parsed_source (src : ts.Source) (source_path : Path.t)
  : Py.result SourceFile :=
  defs <- TreeSitterParser.find_function_defs src source_path ;;
  calls <- TreeSitterParser.find_function_calls src source_path ;;
  imports <- TreeSitterParser.find_imports src source_path ;;
  Py.Ok {| str_path := Path.str source_path;
           defs := defs; calls := calls; imports := imports |}.

Fixpoint parsed_sources (src : ts.Source) (paths : list Path.t)
  : Py.result (list SourceFile) :=
  match paths with
  | [] => Py.Ok []
  | p :: rest =>
      f <- parsed_source src p ;;
      fs' <- parsed_sources src rest ;;
      Py.Ok (f :: fs')
  end.

(* ================================================================== *)
(** ** [logicgate/models.py]: findings, audit results, remediations    *)
(* ================================================================== *)

Module Severity.

Inductive t : Type := CRITICAL | HIGH | MEDIUM | LOW | INFO.

(** [s.value]. *)
Definition value (s : t) : string :=
  match s with
  | CRITICAL => "critical"
  | HIGH => "high"
  | MEDIUM => "medium"
  | LOW => "low"
  | INFO => "info"
  end.

(** [for s in Severity]: the members in definition order. *)
Definition members : list t := [CRITICAL; HIGH; MEDIUM; LOW; INFO].

End Severity.

Module VulnType.

Inductive t : Type :=
| IDOR | BFLA | STATE_MANIPULATION | MULTI_TENANT_LEAK | IMPLICIT_PERMISSION.

Definition eqb (a b : t) : bool :=
  match a, b with
  | IDOR, IDOR | BFLA, BFLA | STATE_MANIPULATION, STATE_MANIPULATION
  | MULTI_TENANT_LEAK, MULTI_TENANT_LEAK
  | IMPLICIT_PERMISSION, IMPLICIT_PERMISSION => true
  | _, _ => false
  end.

End VulnType.

(** The records carry a [confidence: float], which the code only
    copies; the carrier of floats is left open. *)
Module Finding.
Record t (float : Type) : Type := mk {
  vuln_type : VulnType.t;
  severity : Severity.t;
  title : string;
  description : string;
  affected_route : string;
  file_path : string;
  start_line : Z;
  end_line : Z;
  recommendation : string;
  confidence : float;
  evidence : string
}.
End Finding.

Module AuditResult.
Record t (float : Type) : Type := mk {
  route : string;
  findings : list (Finding.t float);
  reasoning : string
}.
End AuditResult.

Module Remediation.
Record t (float : Type) : Type := mk {
  finding_title : string;
  file_path : string;
  diff : string;
  explanation : string;
  confidence : float
}.
End Remediation.

(* ================================================================== *)
(** ** [logicgate/reporter.py]: the SARIF document                     *)
(* ================================================================== *)

(** The values that [generate] builds: [str], [int], [float], [list]
    and [dict] with [str] keys, in insertion order. *)
Module json.

#[warnings="-register-all"] Inductive value (float : Type) : Type :=
| Str (s : string)
| Int (n : Z)
| Float (x : float)
| List (l : list (value float))
| Dict (d : list (string * value float)).

Arguments Str {float} s.
Arguments Int {float} n.
Arguments Float {float} x.
Arguments List {float} l.
Arguments Dict {float} d.

(** [v[k]] on a dict. *)
Definition field {float : Type} (k : string) (v : value float)
  : option (value float) :=
  match v with
  | Dict d => Py.get k d
  | _ => None
  end.

(** [v[n]] on a list. *)
Definition item {float : Type} (n : nat) (v : value float)
  : option (value float) :=
  match v with
  | List l => nth_error l n
  | _ => None
  end.

(** A position inside a value: keys and list indices from the outside
    in. *)
Inductive step : Type :=
| Key (k : string)
| Idx (n : nat).

Fixpoint lookup {float : Type} (path : list step) (v : value float)
  : option (value float) :=
  match path with
  | [] => Some v
  | Key k :: rest =>
      match field k v with
      | Some w => lookup rest w
      | None => None
      end
  | Idx n :: rest =>
      match item n v with
      | Some w => lookup rest w
      | None => None
      end
  end.

End json.

(** [p.relative_to(other)]: [p] without the components of [other],
    which must be what [p] starts with; [ValueError] otherwise (the
    message is shortened). *)
Fixpoint strip_parts (other_parts p_parts : list string) : option (list string) :=
  match other_parts, p_parts with
  | [], _ => Some p_parts
  | _ :: _, [] => None
  | x :: other_rest, y :: p_rest =>
      if String.eqb x y then strip_parts other_rest p_rest else None
  end.

Definition relative_to (p other : Path.t) : Py.result Path.t :=
  if String.eqb (Path.root p) (Path.root other) then
    match strip_parts (Path.parts other) (Path.parts p) with
    | Some rest => Py.Ok {| Path.root := ""; Path.parts := rest |}
    | None => Py.Raise (Py.ValueError "is not in the subpath")
    end
  else Py.Raise (Py.ValueError "is not in the subpath").

(** [l[i]] for an [int] index: negative indices count from the end. *)
Definition subscript {A : Type} (l : list A) (i : Z) : option A :=
  let j := if i <? 0 then Z.of_nat (List.length l) + i else i in
  if j <? 0 then None else nth_error l (Z.to_nat j).

Module SARIFReporter.
Import json.

Definition _SARIF_SCHEMA : string :=
  "https://raw.githubusercontent.com/oasis-tcs/sarif-spec/main/sarif-2.1/schema/sarif-schema-2.1.0.json".

Definition _OWASP_API_SECURITY : string := "https://owasp.org/API-Security/".

Record _RuleDef : Type := mkRule {
  id : string;
  vuln_type : VulnType.t;
  short_name : string;
  full_name : string;
  description : string;
  default_level : string;
  help_uri : string
}.

Definition _RULES : list _RuleDef :=
  [ mkRule "LG001" VulnType.IDOR "IDOR" "Insecure Direct Object Reference"
      "A route accesses a resource by a user-supplied identifier without verifying that the authenticated user owns or is authorized to access that resource."
      "error" (_OWASP_API_SECURITY ++ "top10/")%string;
    mkRule "LG002" VulnType.BFLA "BFLA" "Broken Function-Level Authorization"
      "An API endpoint exposes a sensitive action (e.g. admin, delete, modify) without adequate function-level authorization checks."
      "error" (_OWASP_API_SECURITY ++ "top10/")%string;
    mkRule "LG003" VulnType.STATE_MANIPULATION "StateMachineManipulation"
      "State Machine Manipulation"
      "A business-logic state transition can be forced into an invalid or skipped state because the server does not enforce the expected state machine."
      "warning" (_OWASP_API_SECURITY ++ "top10/")%string;
    mkRule "LG004" VulnType.MULTI_TENANT_LEAK "MultiTenantDataLeakage"
      "Multi-Tenant Data Leakage"
      "A multi-tenant application leaks data belonging to one tenant to another because queries or access controls do not scope results to the requesting tenant."
      "error" (_OWASP_API_SECURITY ++ "top10/")%string;
    mkRule "LG005" VulnType.IMPLICIT_PERMISSION "ImplicitPermissionBypass"
      "Implicit Permission Bypass"
      "Authorization relies on implicit assumptions (e.g. hidden routes, client-side checks) rather than explicit server-side permission verification."
      "warning" (_OWASP_API_SECURITY ++ "top10/")%string ].

(** A dict keyed by [VulnType]. *)
Fixpoint vuln_get (k : VulnType.t) (d : list (VulnType.t * Z)) : option Z :=
  match d with
  | [] => None
  | (k', v) :: r => if VulnType.eqb k k' then Some v else vuln_get k r
  end.

Fixpoint vuln_set (k : VulnType.t) (v : Z) (d : list (VulnType.t * Z))
  : list (VulnType.t * Z) :=
  match d with
  | [] => [(k, v)]
  | (k', v') :: r =>
      if VulnType.eqb k k' then (k', v) :: r else (k', v') :: vuln_set k v r
  end.

(** [enumerate(l)]. *)
Definition enumerate {A : Type} (l : list A) : list (Z * A) :=
  combine (map Z.of_nat (seq 0 (List.length l))) l.

(** [{r.vuln_type: i for i, r in enumerate(_RULES)}]. *)
Definition _VULN_TO_RULE_INDEX : list (VulnType.t * Z) :=
  fold_left (fun d ir => vuln_set (vuln_type (snd ir)) (fst ir) d)
            (enumerate _RULES) [].

Definition _severity_to_level (severity : Severity.t) : string :=
  match severity with
  | Severity.CRITICAL | Severity.HIGH => "error"
  | Severity.MEDIUM => "warning"
  | _ => "note"
  end.

(** [_relative_uri]: the path relative to [target], or the path as it
    is when it does not lie under [target]. *)
Definition _relative_uri (file_path : string) (target : Path.t) : string :=
  match relative_to (Path.of_str file_path) target with
  | Py.Ok rel => Path.str rel
  | Py.Raise _ => Path.str (Path.of_str file_path)
  end.

Section Reporter.
Variable float : Type.

Definition _build_rules_array : list (value float) :=
  map (fun rule =>
         Dict [("id", Str (id rule));
               ("shortDescription", Dict [("text", Str (full_name rule))]);
               ("fullDescription", Dict [("text", Str (description rule))]);
               ("defaultConfiguration", Dict [("level", Str (default_level rule))]);
               ("helpUri", Str (help_uri rule));
               ("properties", Dict [("tags", List [Str (short_name rule)])])])
      _RULES.

(** [_finding_to_result]; [None] stands for the [KeyError] or
    [IndexError] of one of the three subscripts. *)
Definition _finding_to_result (finding : Finding.t float) (target : Path.t)
           (artifact_uris : Py.dict Z)
           (remediation : option (Remediation.t float))
  : option (value float) :=
  match vuln_get (Finding.vuln_type finding) _VULN_TO_RULE_INDEX with
  | None => None
  | Some rule_index =>
      match subscript _RULES rule_index with
      | None => None
      | Some rule =>
          let rel_uri := _relative_uri (Finding.file_path finding) target in
          match Py.get rel_uri artifact_uris with
          | None => None
          | Some index =>
              let result_obj : Py.dict (value float) :=
                [("ruleId", Str (id rule));
                 ("ruleIndex", Int rule_index);
                 ("level", Str (_severity_to_level (Finding.severity finding)));
                 ("message",
                  Dict [("text", Str (Finding.title finding ++ ": "
                                        ++ Finding.description finding)%string)]);
                 ("locations",
                  List [Dict
                    [("physicalLocation",
                      Dict [("artifactLocation",
                             Dict [("uri", Str rel_uri);
                                   ("uriBaseId", Str "%SRCROOT%");
                                   ("index", Int index)]);
                            ("region",
                             Dict [("startLine", Int (Finding.start_line finding));
                                   ("endLine", Int (Finding.end_line finding))])])]]);
                 ("properties",
                  Dict [("confidence", Float (Finding.confidence finding));
                        ("recommendation", Str (Finding.recommendation finding))])]
              in
              match remediation with
              | None => Some (Dict result_obj)
              | Some rem =>
                  Some (Dict (Py.set "fixes"
                    (List [Dict
                      [("description",
                        Dict [("text", Str (Remediation.explanation rem))]);
                       ("artifactChanges",
                        List [Dict
                          [("artifactLocation",
                            Dict [("uri", Str rel_uri);
                                  ("uriBaseId", Str "%SRCROOT%")]);
                           ("replacements",
                            List [Dict
                              [("deletedRegion",
                                Dict [("startLine", Int (Finding.start_line finding));
                                      ("endLine", Int (Finding.end_line finding))]);
                               ("insertedContent",
                                Dict [("text", Str (Remediation.diff rem))])]])]])]])
                    result_obj))
              end
          end
      end
  end.

(** A dict keyed by the tuples [(file_path, finding_title)]. *)
Definition key_eqb (a b : string * string) : bool :=
  String.eqb (fst a) (fst b) && String.eqb (snd a) (snd b).

Fixpoint rem_get (k : string * string)
         (d : list ((string * string) * Remediation.t float))
  : option (Remediation.t float) :=
  match d with
  | [] => None
  | (k', v) :: r => if key_eqb k k' then Some v else rem_get k r
  end.

Fixpoint rem_set (k : string * string) (v : Remediation.t float)
         (d : list ((string * string) * Remediation.t float))
  : list ((string * string) * Remediation.t float) :=
  match d with
  | [] => [(k, v)]
  | (k', v') :: r =>
      if key_eqb k k' then (k', v) :: r else (k', v') :: rem_set k v r
  end.

(** [rem_map]: filled only from a list that is given and not empty. *)
Definition rem_map_of (remediations : option (list (Remediation.t float)))
  : list ((string * string) * Remediation.t float) :=
  match remediations with
  | Some rems =>
      fold_left (fun m rem =>
                   rem_set (Remediation.file_path rem, Remediation.finding_title rem)
                           rem m)
                rems []
  | None => []
  end.

(** [all_findings]: the findings of every result, in order. *)
Definition all_findings_of (results : list (AuditResult.t float))
  : list (Finding.t float) :=
  flat_map (@AuditResult.findings float) results.

(** [artifact_uris]: each relative URI with the index of its first
    appearance. *)
Definition artifact_uris_of (all_findings : list (Finding.t float))
           (target : Path.t) : Py.dict Z :=
  fold_left (fun uris f =>
               let rel := _relative_uri (Finding.file_path f) target in
               if Py.contains rel uris then uris
               else Py.set rel (Z.of_nat (List.length uris)) uris)
            all_findings [].

(** [for finding in all_findings: sarif_results.append(...)]. *)
Fixpoint results_of (findings : list (Finding.t float))
         (convert : Finding.t float -> option (value float))
  : option (list (value float)) :=
  match findings with
  | [] => Some []
  | finding :: rest =>
      match convert finding with
      | None => None
      | Some r =>
          match results_of rest convert with
          | None => None
          | Some rs => Some (r :: rs)
          end
      end
  end.

Definition generate (results : list (AuditResult.t float)) (target_dir : string)
           (remediations : option (list (Remediation.t float)))
  : option (value float) :=
  let target := Path.of_str target_dir in
  let rem_map := rem_map_of remediations in
  let all_findings := all_findings_of results in
  let artifact_uris := artifact_uris_of all_findings target in
  match results_of all_findings
          (fun finding =>
             _finding_to_result finding target artifact_uris
               (rem_get (Finding.file_path finding, Finding.title finding) rem_map))
  with
  | None => None
  | Some sarif_results =>
      let rules := _build_rules_array in
      let run :=
        Dict [("tool",
               Dict [("driver",
                      Dict [("name", Str "LogicGate");
                            ("version", Str "0.1.0");
                            ("informationUri", Str "https://github.com/logicgate");
                            ("rules", List rules)])]);
              ("artifacts",
               List (map (fun uri =>
                            Dict [("location",
                                   Dict [("uri", Str uri);
                                         ("uriBaseId", Str "%SRCROOT%")])])
                         (Py.keys artifact_uris)));
              ("results", List sarif_results)] in
      Some (Dict [("$schema", Str _SARIF_SCHEMA);
                  ("version", Str "2.1.0");
                  ("runs", List [run])])
  end.

End Reporter.

End SARIFReporter.

(* ================================================================== *)
(** ** [logicgate/cli.py]: discovery, fix selection, tally, exit code  *)
(* ================================================================== *)

Module cli.

Definition _SCAN_EXTENSIONS : list string := [".js"; ".ts"; ".jsx"; ".tsx"].

Definition _SKIP_DIRS : list string :=
  ["node_modules"; ".git"; "dist"; "build"; ".next"; "coverage"; "__pycache__"].

(** [s.lower()], on the ASCII letters; no other character lowers to a
    letter of the four suffixes. *)
Definition lower_char (c : ascii) : ascii :=
  let n := nat_of_ascii c in
  if (65 <=? n)%nat && (n <=? 90)%nat then ascii_of_nat (n + 32) else c.

Fixpoint lower (s : string) : string :=
  match s with
  | EmptyString => EmptyString
  | String c r => String (lower_char c) (lower r)
  end.

Definition scan_suffix (p : Path.t) : bool :=
  Py.mem (lower (Path.suffix p)) _SCAN_EXTENSIONS.

Definition in_skipped_dir (child : Path.t) : bool :=
  existsb (fun part => Py.mem part _SKIP_DIRS) (Walk.parts_of child).

(** [_discover_files(target)]; [rglob target] is what
    [target.rglob("*")] lists. *)
Definition _discover_files (fs : Path.FileSystem) (rglob : Path.t -> list Path.t)
           (target : Path.t) : list Path.t :=
  if Path.is_file fs target then
    if scan_suffix target then [target] else []
  else
    filter (fun child =>
              negb (in_skipped_dir child)
              && (Path.is_file fs child && scan_suffix child))
           (Walk.sorted (rglob target)).

(** [f"{r.http_method} {r.route_pattern}"]. *)
Definition route_label (r : RouteInfo.t) : string :=
  (RouteInfo.http_method r ++ " " ++ RouteInfo.route_pattern r)%string.

(** [s.replace(a, b)] for one-character strings. *)
Fixpoint replace_char (a b : ascii) (s : string) : string :=
  match s with
  | EmptyString => EmptyString
  | String c r =>
      String (if Ascii.eqb c a then b else c) (replace_char a b r)
  end.

(** [title.replace(" ", "_").replace("/", "_").replace(":", "_")[:60]]. *)
Definition safe_name (title : string) : string :=
  substring 0 60
    (replace_char ":" "_" (replace_char "/" "_" (replace_char " " "_" title))).

(** [fixes_dir = Path("logicgate-fixes")]. *)
Definition fixes_dir : Path.t := Path.of_str "logicgate-fixes".

Section Scan.
Variable float : Type.

(** The route chosen for a finding: the first one of the finding's
    file with the finding's label, else the first one of that file. *)
Definition matching_route (all_routes : list RouteInfo.t)
           (finding : Finding.t float) : option RouteInfo.t :=
  match find (fun r =>
                String.eqb (RouteInfo.file_path r) (Finding.file_path finding)
                && String.eqb (route_label r) (Finding.affected_route finding))
             all_routes with
  | Some r => Some r
  | None =>
      find (fun r => String.eqb (RouteInfo.file_path r) (Finding.file_path finding))
           all_routes
  end.

(** [all_findings_for_fix]. *)
Definition all_findings_for_fix (all_routes : list RouteInfo.t)
           (results : list (AuditResult.t float))
  : list (Finding.t float * RouteInfo.t) :=
  flat_map (fun result =>
              flat_map (fun finding =>
                          match matching_route all_routes finding with
                          | Some r => [(finding, r)]
                          | None => []
                          end)
                       (AuditResult.findings result))
           results.

(** The name of the patch file of a finding:
    [f"{safe_name}_{finding.start_line}.patch"]. *)
Definition patch_name (finding : Finding.t float) : string :=
  (safe_name (Finding.title finding) ++ "_"
     ++ Py.str_of_int (Finding.start_line finding) ++ ".patch")%string.

(** [patch_path = fixes_dir / ...], where the patch is written, with
    POSIX paths as everywhere in this development: the slash is the
    only separator. *)
Definition patch_path (finding : Finding.t float) : Path.t :=
  Path.joinpath fixes_dir (patch_name finding).

(** [{s.value: 0 for s in Severity}]. *)
Definition initial_counts : Py.dict Z :=
  fold_left (fun d s => Py.set (Severity.value s) 0 d) Severity.members [].

(** [severity_counts[finding.severity.value] += 1]; [None] stands for
    the [KeyError] of a key that is absent. *)
Definition count_finding (counts : option (Py.dict Z)) (finding : Finding.t float)
  : option (Py.dict Z) :=
  match counts with
  | None => None
  | Some d =>
      let key := Severity.value (Finding.severity finding) in
      match Py.get key d with
      | Some n => Some (Py.set key (n + 1) d)
      | None => None
      end
  end.

Definition severity_counts (results : list (AuditResult.t float))
  : option (Py.dict Z) :=
  fold_left (fun counts result =>
               fold_left count_finding (AuditResult.findings result) counts)
            results (Some initial_counts).

(** [sum(severity_counts.values())]. *)
Definition total_findings (counts : Py.dict Z) : Z :=
  fold_left Z.add (map snd counts) 0.

(** [d.get(k, 0)]. *)
Definition get_or_zero (k : string) (d : Py.dict Z) : Z :=
  match Py.get k d with Some n => n | None => 0 end.

(** The code with which [scan] exits after the report is written. *)
Definition exit_code (results : list (AuditResult.t float)) : option Z :=
  match severity_counts results with
  | None => None
  | Some counts =>
      let critical_high := get_or_zero "critical" counts + get_or_zero "high" counts in
      if critical_high >? 0 then Some 1 else Some 0
  end.

End Scan.

End cli.

(* ================================================================== *)
(** ** [logicgate/analyzer.py], [logicgate/remediator.py]              *)
(* ================================================================== *)

(** The [str] methods used on the reply of the language model.  A
    character is a code point below 256. *)
Module Text.

(** [c.isspace()]. *)
Definition isspace (c : ascii) : bool :=
  let n := nat_of_ascii c in
  ((9 <=? n)%nat && (n <=? 13)%nat) || ((28 <=? n)%nat && (n <=? 32)%nat)
  || (n =? 133)%nat || (n =? 160)%nat.

Fixpoint lstrip (s : string) : string :=
  match s with
  | EmptyString => EmptyString
  | String c r => if isspace c then lstrip r else s
  end.

Fixpoint rstrip (s : string) : string :=
  match s with
  | EmptyString => EmptyString
  | String c r =>
      match rstrip r with
      | EmptyString => if isspace c then EmptyString else String c EmptyString
      | kept => String c kept
      end
  end.

(** [s.strip()]. *)
Definition strip (s : string) : string := rstrip (lstrip s).

(** [s.index(c)] for a character: [None] stands for the [ValueError]. *)
Fixpoint index (c : ascii) (s : string) : option nat :=
  match s with
  | EmptyString => None
  | String a r =>
      if Ascii.eqb a c then Some O
      else match index c r with
           | Some i => Some (S i)
           | None => None
           end
  end.

(** [s[n:]]. *)
Definition from (n : nat) (s : string) : string :=
  substring n (String.length s - n) s.

(** [s[:-n]] for a positive [n]. *)
Definition drop_last (n : nat) (s : string) : string :=
  substring 0 (String.length s - n) s.

(** [s.endswith(sfx)]. *)
Definition endswith (sfx s : string) : bool :=
  (String.length sfx <=? String.length s)%nat
  && String.eqb (from (String.length s - String.length sfx) s) sfx.

End Text.

Module llm.

(** The exceptions that matter to the two callers of the model: the
    three classes they handle, the plain [ValueError] of [str.index],
    and any other one, by the name of its class. *)
Inductive raised : Type :=
| APIError (msg : string)
| JSONDecodeError (msg : string)
| ValidationError (msg : string)
| ValueError (msg : string)
| Exception (kind msg : string).

Inductive outcome (A : Type) : Type :=
| Return (a : A)
| Throw (e : raised).
Arguments Return {A} a.
Arguments Throw {A} e.

Definition and_then {A B : Type} (m : outcome A) (k : A -> outcome B) : outcome B :=
  match m with
  | Return a => k a
  | Throw e => Throw e
  end.

(** A content block of a reply: [block.type] and [block.text]. *)
Record block : Type := mkBlock {
  type : string;
  text : string
}.

(** The text of the first block of type ["text"], [""] without one. *)
Definition first_text (content : list block) : string :=
  match find (fun b => String.eqb (type b) "text") content with
  | Some b => text b
  | None => ""
  end.

Definition fence : string := "```".

(** A line break. *)
Definition nl : string := String "010" "".

(** The step that removes a Markdown fence around the reply:
<<
  stripped = raw_text.strip()
  if stripped.startswith(fence):
      first_newline = stripped.index(newline)
      stripped = stripped[first_newline + 1:]
      if stripped.endswith(fence):
          stripped = stripped[:-3].strip()
      raw_text = stripped
>> *)
Definition strip_fences (raw_text : string) : outcome string :=
  let stripped := Text.strip raw_text in
  if String.prefix fence stripped then
    match Text.index "010" stripped with
    | None => Throw (ValueError "substring not found")
    | Some first_newline =>
        let stripped := Text.from (first_newline + 1) stripped in
        if Text.endswith fence stripped
        then Return (Text.strip (Text.drop_last 3 stripped))
        else Return stripped
    end
  else Return raw_text.

(** What the handlers of both callers do with an outcome: the three
    handled classes are turned into a value, anything else goes on. *)
Definition handle {A : Type} (m : outcome A)
           (on_api on_json on_validation : string -> A) : outcome A :=
  match m with
  | Throw (APIError exc) => Return (on_api exc)
  | Throw (JSONDecodeError exc) => Return (on_json exc)
  | Throw (ValidationError exc) => Return (on_validation exc)
  | other => other
  end.

End llm.

Module Analyzer.
Import llm.

Section Audit.
Variable float : Type.

(** [client.messages.create(...)] with the analyzer's model, token
    limit and system prompt, as a function of the user prompt: the
    content of the reply, or what the call raises. *)
Variable ask : string -> outcome (list block).

(** [json.loads(raw_text)] passed to the constructor of [AuditResult]. *)
Variable parse : string -> outcome (AuditResult.t float).

Definition _build_user_prompt (route : RouteInfo.t) (context : string) : string :=
  let middleware_str :=
    match RouteInfo.middleware route with
    | [] => "(none)"
    | mw => Py.join ", " mw
    end in
  ("## Route Under Audit" ++ nl
   ++ "- **Method:** " ++ RouteInfo.http_method route ++ nl
   ++ "- **Path:** " ++ RouteInfo.route_pattern route ++ nl
   ++ "- **File:** " ++ RouteInfo.file_path route ++ nl
   ++ "- **Lines:** " ++ Py.str_of_int (RouteInfo.handler_start_line route)
   ++ "-" ++ Py.str_of_int (RouteInfo.handler_end_line route) ++ nl
   ++ "- **Middleware:** " ++ middleware_str ++ nl
   ++ nl
   ++ "### Handler Source Code" ++ nl
   ++ "```js" ++ nl
   ++ RouteInfo.handler_source route ++ nl
   ++ "```" ++ nl
   ++ nl
   ++ "### Dependency Context (Call Chain)" ++ nl
   ++ "```js" ++ nl
   ++ context ++ nl
   ++ "```" ++ nl
   ++ nl
   ++ "Analyze the handler AND its full call chain for the five "
   ++ "vulnerability categories. Return your findings as the specified "
   ++ "JSON object.")%string.

Definition audit_route (route : RouteInfo.t) (context : string)
  : outcome (AuditResult.t float) :=
  let route_label :=
    (RouteInfo.http_method route ++ " " ++ RouteInfo.route_pattern route)%string in
  let user_prompt := _build_user_prompt route context in
  handle
    (and_then (ask user_prompt) (fun content =>
     and_then (strip_fences (first_text content)) (fun raw_text =>
     parse raw_text)))
    (fun exc => AuditResult.mk route_label [] ("API error: " ++ exc)%string)
    (fun exc => AuditResult.mk route_label []
                  ("Failed to parse LLM response as JSON: " ++ exc)%string)
    (fun exc => AuditResult.mk route_label []
                  ("LLM response did not match expected schema: " ++ exc)%string).

Fixpoint audit_all_routes (routes : list RouteInfo.t) (contexts : Py.dict string)
  : outcome (list (AuditResult.t float)) :=
  match routes with
  | [] => Return []
  | route :: rest =>
      let key :=
        (RouteInfo.http_method route ++ " " ++ RouteInfo.route_pattern route)%string in
      let context := match Py.get key contexts with Some c => c | None => "" end in
      and_then (audit_route route context) (fun result =>
      and_then (audit_all_routes rest contexts) (fun results =>
      Return (result :: results)))
  end.

End Audit.

End Analyzer.

Module Remediator.
Import llm.

(** [_RemediationResponse]. *)
Record _RemediationResponse (float : Type) : Type := mkResponse {
  diff : string;
  explanation : string;
  confidence : float
}.

(** [v.value] of a [VulnType]. *)
Definition vuln_value (v : VulnType.t) : string :=
  match v with
  | VulnType.IDOR => "IDOR"
  | VulnType.BFLA => "BFLA"
  | VulnType.STATE_MANIPULATION => "STATE_MANIPULATION"
  | VulnType.MULTI_TENANT_LEAK => "MULTI_TENANT_LEAK"
  | VulnType.IMPLICIT_PERMISSION => "IMPLICIT_PERMISSION"
  end.

Section Remediate.
Variable float : Type.

(** [client.messages.create(...)] with the remediator's model, token
    limit and system prompt, as a function of the user prompt. *)
Variable ask : string -> outcome (list block).

(** [json.loads(raw_text)] passed to the constructor of
    [_RemediationResponse]. *)
Variable parse : string -> outcome (_RemediationResponse float).

(** [0.0 <= x <= 1.0], the bounds that [Remediation] puts on its
    [confidence] and [_RemediationResponse] does not. *)
Variable in_bounds : float -> bool.

Definition _build_user_prompt (file_content : string) (finding : Finding.t float)
           (route_context : string) : string :=
  ("## Vulnerability to Fix" ++ nl
   ++ "- **Type:** " ++ vuln_value (Finding.vuln_type finding) ++ nl
   ++ "- **Severity:** " ++ Severity.value (Finding.severity finding) ++ nl
   ++ "- **Title:** " ++ Finding.title finding ++ nl
   ++ "- **File:** " ++ Finding.file_path finding ++ nl
   ++ "- **Lines:** " ++ Py.str_of_int (Finding.start_line finding)
   ++ "-" ++ Py.str_of_int (Finding.end_line finding) ++ nl
   ++ "- **Description:** " ++ Finding.description finding ++ nl
   ++ "- **Evidence:** " ++ Finding.evidence finding ++ nl
   ++ "- **Recommendation:** " ++ Finding.recommendation finding ++ nl
   ++ nl
   ++ "## Full File Content" ++ nl
   ++ "```javascript" ++ nl
   ++ file_content ++ nl
   ++ "```" ++ nl
   ++ nl
   ++ "## Route Context (Call Chain)" ++ nl
   ++ "```javascript" ++ nl
   ++ route_context ++ nl
   ++ "```" ++ nl
   ++ nl
   ++ "Generate a unified diff patch to fix this vulnerability. "
   ++ "Return ONLY the JSON object.")%string.

(** [remediate]; the route is not used.  The constructor of
    [Remediation] raises a [ValidationError] (its message is left out)
    on a confidence out of bounds. *)
Definition remediate (finding : Finding.t float) (route : RouteInfo.t)
           (file_content route_context : string)
  : outcome (option (Remediation.t float)) :=
  let user_prompt := _build_user_prompt file_content finding route_context in
  handle
    (and_then (ask user_prompt) (fun content =>
     and_then (strip_fences (first_text content)) (fun raw_text =>
     and_then (parse raw_text) (fun parsed =>
     if in_bounds (confidence parsed) then
       Return (Some (Remediation.mk (Finding.title finding)
                                    (Finding.file_path finding)
                                    (diff parsed)
                                    (explanation parsed)
                                    (confidence parsed)))
     else Throw (ValidationError "confidence")))))
    (fun _ => None) (fun _ => None) (fun _ => None).

End Remediate.

End Remediator.

(* ================================================================== *)
(** ** The file system with its failures                               *)
(* ================================================================== *)

(** [Path.FileSystem] above is a file system whose calls return.  On a
    real one, [p.resolve()] and [p.is_file()] can raise: [is_file]
    lets every [OSError] through that does not say that the path is
    missing ([PermissionError] on a directory that cannot be searched,
    a name that is too long, ...), and [resolve] raises on a symbolic
    link loop or an embedded null character. *)
Module os.

Inductive raised : Type :=
| ValueError (msg : string)
| OSError (kind msg : string)
| RuntimeError (msg : string).

Inductive outcome (A : Type) : Type :=
| Return (a : A)
| Throw (e : raised).
Arguments Return {A} a.
Arguments Throw {A} e.

Definition and_then {A B : Type} (m : outcome A) (k : A -> outcome B) : outcome B :=
  match m with
  | Return a => k a
  | Throw e => Throw e
  end.

Record FileSystem : Type := mkFS {
  resolve : Path.t -> outcome Path.t;
  is_file : Path.t -> outcome bool
}.

(** The outcome of a computation that touches no file. *)
Definition of_py {A : Type} (m : Py.result A) : outcome A :=
  match m with
  | Py.Ok a => Return a
  | Py.Raise (Py.ValueError msg) => Throw (ValueError msg)
  end.

(** A file system whose calls all return. *)
Definition returning (fs : Path.FileSystem) : FileSystem :=
  {| resolve := fun p => Return (Path.resolve fs p);
     is_file := fun p => Return (Path.is_file fs p) |}.

(** [for x in l: acc = f(acc, x)] where [f] may raise. *)
Fixpoint for_each {A B : Type} (f : B -> A -> outcome B) (l : list A) (b : B)
  : outcome B :=
  match l with
  | [] => Return b
  | a :: r => and_then (f b a) (fun b' => for_each f r b')
  end.

End os.

(** The methods of [DependencyGraph] that touch the file system, on a
    file system that can fail.  On [os.returning fs] they are the
    definitions of the first part (see [Refinement]). *)
Module Fallible.
Import os.

Section OnFileSystem.
Variable fs : FileSystem.

(** [for probe in probes: if probe.is_file(): return probe]. *)
Fixpoint first_file (probes : list Path.t) : outcome (option Path.t) :=
  match probes with
  | [] => Return None
  | probe :: rest =>
      and_then (is_file fs probe) (fun found =>
      if found then Return (Some probe) else first_file rest)
  end.

Definition _resolve_import_path (current_file : Path.t) (import_path : string)
  : outcome (option Path.t) :=
  if negb (String.prefix "." import_path) then Return None
  else
    let base_dir := Path.parent current_file in
    and_then (resolve fs (Path.joinpath base_dir import_path)) (fun candidate =>
    and_then (of_py (probes_of candidate)) (fun probes =>
    first_file probes)).

Fixpoint scan_imports (self : DependencyGraph) (file_path call_name : string)
         (imps : list ImportInfo.t) : outcome (option string) :=
  match imps with
  | [] => Return None
  | imp :: rest =>
      if String.eqb (ImportInfo.name imp) call_name then
        and_then (_resolve_import_path (Path.of_str file_path)
                                       (ImportInfo.path imp))
                 (fun resolved_path =>
        match resolved_path with
        | Some rp =>
            let candidate_id := node_id_of (Path.str rp) call_name in
            if Py.contains candidate_id (_symbol_table self)
            then Return (Some candidate_id)
            else scan_imports self file_path call_name rest
        | None => scan_imports self file_path call_name rest
        end)
      else scan_imports self file_path call_name rest
  end.

Definition _resolve_call_via_imports (self : DependencyGraph)
           (file_path call_name : string) : outcome (option string) :=
  scan_imports self file_path call_name
    (get_or_nil file_path (_file_imports self)).

(** The body of the loop of [_resolve_calls] for one call site. *)
Definition resolve_call (file_path : string) (self : DependencyGraph)
           (call : FunctionCall.t) : outcome DependencyGraph :=
  let local_defs := get_or_nil file_path (_file_functions self) in
  match _find_enclosing_function self file_path (FunctionCall.line call) with
  | None => Return self
  | Some caller_name =>
      if negb (Py.truthy caller_name) then Return self
      else
        let caller_id := node_id_of file_path caller_name in
        if in_local_defs (FunctionCall.name call) local_defs then
          let callee_id := node_id_of file_path (FunctionCall.name call) in
          if nx.has_node (graph self) caller_id
             && nx.has_node (graph self) callee_id
          then Return (with_graph self (nx.add_edge (graph self) caller_id callee_id))
          else Return self
        else
          and_then (_resolve_call_via_imports self file_path
                                              (FunctionCall.name call))
                   (fun resolved =>
          match resolved with
          | Some r =>
              if Py.truthy r && nx.has_node (graph self) caller_id
              then Return (with_graph self (nx.add_edge (graph self) caller_id r))
              else Return self
          | None => Return self
          end)
  end.

Definition _resolve_calls (self : DependencyGraph) (file_path : string)
           (calls : list FunctionCall.t) : outcome DependencyGraph :=
  for_each (resolve_call file_path) calls self.

(** The second loop of [build_graph]. *)
Definition phase2 (self : DependencyGraph) : outcome DependencyGraph :=
  for_each (fun st item => _resolve_calls st (fst item) (snd item))
           (_file_calls self) self.

(** The test of [_walk_sources] on one child: [is_file] is called
    first, on every child that is listed. *)
Definition is_source (child : Path.t) : outcome bool :=
  and_then (is_file fs child) (fun file =>
  Return (file && Py.mem (Path.suffix child) Walk._JS_EXTENSIONS
          && negb (Walk.under_skipped_dir child))).

(** [for source_path in self._walk_sources(directory): body]: the
    generator tests the next child only when the loop asks for the
    next path, so tests and bodies alternate. *)
Fixpoint walk_loop {B : Type} (body : B -> Path.t -> outcome B)
         (children : list Path.t) (b : B) : outcome B :=
  match children with
  | [] => Return b
  | child :: rest =>
      and_then (is_source child) (fun yielded =>
      if yielded then and_then (body b child) (fun b' => walk_loop body rest b')
      else walk_loop body rest b)
  end.

(** [list(self._walk_sources(directory))]. *)
Definition _walk_sources (rglob : Path.t -> list Path.t) (directory : Path.t)
  : outcome (list Path.t) :=
  walk_loop (fun yielded child => Return (yielded ++ [child]))
            (Walk.sorted (rglob directory)) [].

(** [build_graph(directory)]. *)
Definition build_graph (rglob : Path.t -> list Path.t) (src : ts.Source)
           (directory : Path.t) (self : DependencyGraph)
  : outcome DependencyGraph :=
  and_then (walk_loop (fun st source_path =>
                         of_py (parse_and_register src st source_path))
                      (Walk.sorted (rglob directory)) self)
           phase2.

End OnFileSystem.

End Fallible.

Module ParserFacts.
Import ts TreeSitterParser.

(** Every collected result was made from one of the matches. *)
Lemma collect_In {A : Type} (body : Match -> Py.result (option A)) matches :
  forall results,
    collect body matches = Py.Ok results ->
    (forall a, In a results -> exists m, In m matches /\ body m = Py.Ok (Some a))
    /\ (List.length results <= List.length matches)%nat.
Proof.
  induction matches as [|m rest IH]; intros results; simpl.
  - intros [= <-]. split; [intros a [] | simpl; lia].
  - destruct (body m) as [r|e] eqn:Em; cbn [Py.bind]; [|discriminate].
    destruct (collect body rest) as [rs|e]; cbn [Py.bind]; [|discriminate].
    destruct (IH rs eq_refl) as [Hin Hlen].
    intros [= <-]. split.
    + intros a Ha. destruct r as [a0|].
      * destruct Ha as [<-|Ha]; [exists m; auto|].
        destruct (Hin a Ha) as [m' [Hm' Hb]]. exists m'. auto.
      * destruct (Hin a Ha) as [m' [Hm' Hb]]. exists m'. auto.
    + destruct r; simpl; lia.
Qed.

Lemma function_def_stamped path m d :
  function_def_of path m = Py.Ok (Some d) ->
  FunctionDef.file_path d = Path.str path.
Proof.
  unfold function_def_of.
  destruct (get_or_nil "name" (snd m)) as [|name_node ?]; [discriminate|].
  destruct (text_decode name_node); cbn [Py.bind]; [|discriminate].
  destruct (match get_or_nil "func" (snd m) with
            | span_node :: _ => Some span_node
            | [] => first_node (get_or_nil "decl" (snd m))
            end) as [span|]; [|discriminate].
  destruct (text_decode span); cbn [Py.bind]; [|discriminate].
  now intros [= <-].
Qed.

Lemma find_function_defs_stamped src path fdefs :
  find_function_defs src path = Py.Ok fdefs ->
  forall d, In d fdefs -> FunctionDef.file_path d = Path.str path.
Proof.
  unfold find_function_defs. destruct (parses src path); simpl.
  - intros H d Hd. destruct (collect_In _ _ H) as [Hin _].
    destruct (Hin d Hd) as [m [_ Hm]]. exact (function_def_stamped _ _ Hm).
  - intros [= <-] d [].
Qed.

End ParserFacts.

Module WalkFacts.
Import Walk.

Lemma insert_sorted_perm x l : Permutation (Walk.insert_sorted x l) (x :: l).
Proof.
  induction l as [|y r IH]; simpl; [apply Permutation_refl|].
  destruct (Walk.path_lt x y); [apply Permutation_refl|].
  eapply Permutation_trans; [apply perm_skip, IH | apply perm_swap].
Qed.

Lemma sorted_perm l : Permutation (Walk.sorted l) l.
Proof.
  unfold Walk.sorted.
  assert (forall acc, Permutation (fold_left (fun a x => Walk.insert_sorted x a) l acc)
                                  (acc ++ l)) as H.
  { induction l as [|x r IH]; intros acc; simpl.
    - rewrite app_nil_r. apply Permutation_refl.
    - eapply Permutation_trans; [apply IH|].
      eapply Permutation_trans;
        [apply Permutation_app_tail, insert_sorted_perm|].
      simpl. apply Permutation_middle. }
  exact (H []).
Qed.


Lemma walk_In fs rglob directory child :
  In child (_walk_sources fs rglob directory)
  <-> In child (rglob directory) /\ is_source fs child = true.
Proof.
  unfold _walk_sources. rewrite filter_In. split; intros [H1 H2]; split; auto.
  - eapply Permutation_in; [apply sorted_perm | exact H1].
  - eapply Permutation_in; [apply Permutation_sym, sorted_perm | exact H1].
Qed.

(** The loop of [build_graph] registers what the parser returns for the
    walked paths, in order, and raises when a parser call does. *)
Lemma register_loop src paths :
  forall self,
    for_each (parse_and_register src) paths self
    = (files <- parsed_sources src paths ;; Py.Ok (phase1 files self)).
Proof.
  induction paths as [|p rest IH]; intros self; simpl; [reflexivity|].
  unfold parse_and_register at 1. unfold parsed_source.
  destruct (TreeSitterParser.find_function_defs src p); cbn [Py.bind]; [|reflexivity].
  destruct (TreeSitterParser.find_function_calls src p); cbn [Py.bind]; [|reflexivity].
  destruct (TreeSitterParser.find_imports src p); cbn [Py.bind]; [|reflexivity].
  rewrite IH. now destruct (parsed_sources src rest).
Qed.

Lemma parsed_sources_In src paths :
  forall files,
    parsed_sources src paths = Py.Ok files ->
    forall f, In f files ->
              exists p, In p paths /\ parsed_source src p = Py.Ok f.
Proof.
  induction paths as [|p rest IH]; intros files; simpl.
  - intros [= <-] f [].
  - destruct (parsed_source src p) as [f0|e] eqn:Ep; cbn [Py.bind]; [|discriminate].
    destruct (parsed_sources src rest) as [fs'|e]; cbn [Py.bind]; [|discriminate].
    intros [= <-] f [<-|Hf].
    + exists p. auto.
    + destruct (IH fs' eq_refl f Hf) as [q [Hq Hpq]]. exists q. auto.
Qed.

Lemma parsed_source_fields src p f :
  parsed_source src p = Py.Ok f ->
  str_path f = Path.str p
  /\ TreeSitterParser.find_function_defs src p = Py.Ok (defs f)
  /\ TreeSitterParser.find_function_calls src p = Py.Ok (calls f)
  /\ TreeSitterParser.find_imports src p = Py.Ok (imports f).
Proof.
  unfold parsed_source.
  destruct (TreeSitterParser.find_function_defs src p); cbn [Py.bind]; [|discriminate].
  destruct (TreeSitterParser.find_function_calls src p); cbn [Py.bind]; [|discriminate].
  destruct (TreeSitterParser.find_imports src p); cbn [Py.bind]; [|discriminate].
  intros [= <-]. simpl. auto.
Qed.

Lemma declared_In files k :
  Registration.declared files k = true ->
  exists f d, In f files /\ In d (defs f)
              /\ k = node_id_of (str_path f) (FunctionDef.name d).
Proof.
  unfold Registration.declared, Registration.declares.
  rewrite existsb_exists. intros [f [Hf Hd]].
  apply existsb_exists in Hd. destruct Hd as [d [Hd Hk]].
  apply String.eqb_eq in Hk. exists f, d. auto.
Qed.

End WalkFacts.

(** X12. When [build_graph(directory)] returns on a fresh instance, the
    result is that of [build_graph] on the facts the parser returned for
    the walked paths, in walk order; every node stems from a walked
    source file: its identifier is [str(child):name] for a listed child
    that is a regular file, has one of the four source suffixes and no
    component in [_SKIP_DIRS], and its definition is stamped with that
    path, so that identifiers computed from definitions match the
    symbol table. *)
Theorem build_graph_directory_nodes
        (fs : Path.FileSystem) (rglob : Path.t -> list Path.t) (src : ts.Source)
        (directory : Path.t) (g : DependencyGraph) :
  build_graph_directory fs rglob src directory __init__ = Py.Ok g ->
  (exists files,
      parsed_sources src (Walk._walk_sources fs rglob directory) = Py.Ok files
      /\ build_graph fs files __init__ = Py.Ok g)
  /\ (forall k d,
         registered g k d ->
         exists child,
           In child (rglob directory)
           /\ Path.is_file fs child = true
           /\ In (Path.suffix child) Walk._JS_EXTENSIONS
           /\ (forall part, In part (Walk.parts_of child) ->
                            ~ In part Walk._SKIP_DIRS)
           /\ k = node_id_of (Path.str child) (FunctionDef.name d)
           /\ FunctionDef.file_path d = Path.str child)
  /\ ids_match g.
Proof.
  unfold build_graph_directory. rewrite WalkFacts.register_loop.
  destruct (parsed_sources src (Walk._walk_sources fs rglob directory))
    as [files|e] eqn:Efiles; cbn [Py.bind]; [|discriminate].
  intros Hb. change (build_graph fs files __init__ = Py.Ok g) in Hb.
  assert (parsed_facts files) as Hwf.
  { intros f d Hf Hd.
    destruct (WalkFacts.parsed_sources_In _ _ Efiles f Hf) as [p [_ Hp]].
    destruct (WalkFacts.parsed_source_fields _ _ Hp) as (-> & Hdefs & _).
    exact (ParserFacts.find_function_defs_stamped _ _ Hdefs d Hd). }
  destruct (@build_graph_ids_match fs files __init__ g Hwf
              Registration.consistent_init) as [Hc Hids];
    [intros k d H; discriminate H | exact Hb |].
  split; [exists files; auto|]. split; [|exact Hids].
  intros k d Hreg.
  assert (Py.get k (_symbol_table g) = Some d) as Hsym.
  { unfold registered in Hreg. rewrite (proj2 Hc k) in Hreg.
    destruct (Py.get k (_symbol_table g)); simpl in Hreg; congruence. }
  pose proof (@Build.build_graph_spec fs files __init__
                Registration.consistent_init) as H.
  cbv zeta in H. rewrite Hb in H.
  destruct H as (_ & _ & (_ & _ & _ & Esym) & _).
  rewrite Esym, Symbols.symbols_phase1, Symbols.get_set_all in Hsym.
  simpl in Hsym.
  destruct (Py.get k (rev (declarations files))) as [d'|] eqn:Ed; [|discriminate].
  injection Hsym as ->.
  apply PyFacts.get_In, in_rev in Ed.
  unfold declarations in Ed. apply in_flat_map in Ed.
  destruct Ed as (f & Hf & Hd). apply in_map_iff in Hd.
  destruct Hd as (d0 & [= <- <-] & Hd0).
  destruct (WalkFacts.parsed_sources_In _ _ Efiles f Hf) as [child [Hchild Hp]].
  destruct (WalkFacts.parsed_source_fields _ _ Hp) as (Hpath & Hdefs & _).
  apply WalkFacts.walk_In in Hchild. destruct Hchild as [Hlist Hsrc].
  unfold Walk.is_source in Hsrc.
  apply andb_true_iff in Hsrc. destruct Hsrc as [Hsrc Hskip].
  apply andb_true_iff in Hsrc. destruct Hsrc as [Hfile Hsfx].
  exists child. split; [assumption|]. split; [assumption|].
  split; [now apply PyFacts.mem_In|]. split; [|split].
  - intros part Hpart Hbad. apply negb_true_iff in Hskip.
    unfold Walk.under_skipped_dir in Hskip.
    assert (existsb (fun part => Py.mem part Walk._SKIP_DIRS) (Walk.parts_of child)
            = true) as Hex.
    { apply existsb_exists. exists part. split; [assumption|].
      now apply PyFacts.mem_In. }
    congruence.
  - now rewrite Hpath.
  - exact (ParserFacts.find_function_defs_stamped _ _ Hdefs d0 Hd0).
Qed.

(** The definitions on a file system that can fail, taken on one whose
    calls return, are the definitions of the first part. *)
Module Refinement.

Section Returning.
Variable fs0 : Path.FileSystem.

Lemma first_file_returning (probes : list Path.t) :
  Fallible.first_file (os.returning fs0) probes
  = os.Return (find (Path.is_file fs0) probes).
Proof.
  induction probes as [|probe rest IH]; simpl; [reflexivity|].
  destruct (Path.is_file fs0 probe); [reflexivity | exact IH].
Qed.

Lemma resolve_import_path_returning (current_file : Path.t) (import_path : string) :
  Fallible._resolve_import_path (os.returning fs0) current_file import_path
  = os.of_py (_resolve_import_path fs0 current_file import_path).
Proof.
  unfold Fallible._resolve_import_path, _resolve_import_path.
  destruct (negb (String.prefix "." import_path)); [reflexivity|].
  cbn [os.returning os.resolve os.and_then].
  destruct (probes_of _) as [probes|[msg]]; cbn [os.of_py os.and_then Py.bind];
    [apply first_file_returning | reflexivity].
Qed.

Lemma scan_imports_returning (self : DependencyGraph) (file_path call_name : string)
      (imps : list ImportInfo.t) :
  Fallible.scan_imports (os.returning fs0) self file_path call_name imps
  = os.of_py (scan_imports fs0 self file_path call_name imps).
Proof.
  induction imps as [|imp rest IH]; simpl; [reflexivity|].
  destruct (String.eqb (ImportInfo.name imp) call_name); [|exact IH].
  rewrite resolve_import_path_returning.
  destruct (_resolve_import_path fs0 (Path.of_str file_path) (ImportInfo.path imp))
    as [[rp|]|[msg]]; cbn [os.of_py os.and_then Py.bind]; try exact IH; [|reflexivity].
  destruct (Py.contains _ (_symbol_table self)); [reflexivity | exact IH].
Qed.

Lemma resolve_call_returning (file_path : string) (self : DependencyGraph)
      (call : FunctionCall.t) :
  Fallible.resolve_call (os.returning fs0) file_path self call
  = os.of_py (resolve_call fs0 file_path self call).
Proof.
  unfold Fallible.resolve_call, resolve_call.
  destruct (_find_enclosing_function self file_path (FunctionCall.line call))
    as [caller_name|]; [|reflexivity].
  destruct (negb (Py.truthy caller_name)); [reflexivity|].
  destruct (in_local_defs _ _).
  - destruct (_ && _); reflexivity.
  - unfold Fallible._resolve_call_via_imports, _resolve_call_via_imports.
    rewrite scan_imports_returning.
    destruct (scan_imports fs0 self file_path (FunctionCall.name call) _)
      as [[r|]|[msg]]; cbn [os.of_py os.and_then Py.bind]; try reflexivity.
    destruct (_ && _); reflexivity.
Qed.

Lemma for_each_returning {A B : Type} (f' : B -> A -> os.outcome B)
      (f : B -> A -> Py.result B) (l : list A) :
  (forall b a, f' b a = os.of_py (f b a)) ->
  forall b, os.for_each f' l b = os.of_py (for_each f l b).
Proof.
  intros Hf. induction l as [|a r IH]; intros b; simpl; [reflexivity|].
  rewrite Hf. destruct (f b a) as [b'|[msg]]; cbn [os.of_py os.and_then Py.bind];
    [apply IH | reflexivity].
Qed.

Lemma phase2_returning (self : DependencyGraph) :
  Fallible.phase2 (os.returning fs0) self = os.of_py (phase2 fs0 self).
Proof.
  unfold Fallible.phase2, phase2. apply for_each_returning.
  intros st item. unfold Fallible._resolve_calls, _resolve_calls.
  apply for_each_returning. intros b a. apply resolve_call_returning.
Qed.

Lemma walk_loop_returning {B : Type} (body : B -> Path.t -> Py.result B)
      (children : list Path.t) :
  forall b,
    Fallible.walk_loop (os.returning fs0) (fun st p => os.of_py (body st p)) children b
    = os.of_py (for_each body (filter (Walk.is_source fs0) children) b).
Proof.
  induction children as [|child rest IH]; intros b; simpl; [reflexivity|].
  unfold Fallible.is_source, Walk.is_source. cbn [os.returning os.is_file os.and_then].
  destruct (Path.is_file fs0 child && _ && _); [|apply IH].
  cbn [for_each]. destruct (body b child) as [b'|[msg]];
    cbn [os.of_py os.and_then Py.bind]; [apply IH | reflexivity].
Qed.

Lemma build_graph_returning (rglob : Path.t -> list Path.t) (src : ts.Source)
      (directory : Path.t) (self : DependencyGraph) :
  Fallible.build_graph (os.returning fs0) rglob src directory self
  = os.of_py (build_graph_directory fs0 rglob src directory self).
Proof.
  unfold Fallible.build_graph, build_graph_directory, Walk._walk_sources.
  rewrite walk_loop_returning.
  destruct (for_each _ _ self) as [registered_all|[msg]];
    cbn [os.of_py os.and_then Py.bind]; [apply phase2_returning | reflexivity].
Qed.

End Returning.

Section Skipped.
Variable fs : os.FileSystem.

(** A walk over children that are all under a skipped directory
    yields nothing: it only calls [is_file]. *)
Lemma walk_loop_skipped {B : Type} (body : B -> Path.t -> os.outcome B)
      (children : list Path.t) (b : B) :
  (forall child, In child children -> Walk.under_skipped_dir child = true) ->
  ((forall child, In child children -> exists file, os.is_file fs child = os.Return file) ->
   Fallible.walk_loop fs body children b = os.Return b)
  /\ (forall earlier child later e,
         children = earlier ++ child :: later ->
         (forall c, In c earlier -> exists file, os.is_file fs c = os.Return file) ->
         os.is_file fs child = os.Throw e ->
         Fallible.walk_loop fs body children b = os.Throw e)
  /\ (forall b', Fallible.walk_loop fs body children b = os.Return b' -> b' = b).
Proof.
  induction children as [|child rest IH]; intros Hskip.
  - split; [reflexivity|]. split.
    + intros [|? ?] ? ? ? H; discriminate H.
    + now intros b' [= <-].
  - assert (forall c, In c rest -> Walk.under_skipped_dir c = true) as Hrest
        by (intros c Hc; apply Hskip; now right).
    destruct (IH Hrest) as (IH1 & IH2 & IH3).
    assert (forall file, os.is_file fs child = os.Return file ->
                         Fallible.walk_loop fs body (child :: rest) b
                         = Fallible.walk_loop fs body rest b) as Hstep.
    { intros file Hf. cbn [Fallible.walk_loop]. unfold Fallible.is_source.
      rewrite Hf. cbn [os.and_then].
      rewrite (Hskip child (or_introl eq_refl)), andb_false_r. reflexivity. }
    split; [|split].
    + intros Hall. destruct (Hall child (or_introl eq_refl)) as [file Hf].
      rewrite (Hstep file Hf). apply IH1. intros c Hc. apply Hall. now right.
    + intros [|c0 earlier] c later e Heq Hearlier Hthrow.
      * injection Heq as <- _. cbn [Fallible.walk_loop].
        unfold Fallible.is_source. now rewrite Hthrow.
      * injection Heq as <- Heq.
        destruct (Hearlier child (or_introl eq_refl)) as [file Hf].
        rewrite (Hstep file Hf). apply (IH2 earlier c later e Heq); [|exact Hthrow].
        intros x Hx. apply Hearlier. now right.
    + intros b'. destruct (os.is_file fs child) as [file|e] eqn:Hf.
      * rewrite (Hstep file eq_refl). apply IH3.
      * cbn [Fallible.walk_loop]. unfold Fallible.is_source. rewrite Hf.
        discriminate.
Qed.

End Skipped.

End Refinement.

(** X8. [_resolve_import_path] returns [None] for a specifier that
    does not start with a dot, without a call to the file system.
    For one that does, it raises what [resolve] raises; it raises
    [ValueError] when the resolved candidate has an empty name (the
    root directory); otherwise it tests the five probes in order (the
    candidate, its two suffixed forms, its two index files): it
    returns the first probe that is a file, raises what [is_file]
    raises on a probe reached before, and returns [None] when no probe
    is a file.  On a file system whose calls return, this is the
    definition used in the first part. *)
Theorem resolve_import_path_outcomes
        (fs : os.FileSystem) (current_file : Path.t) (import_path : string) :
  let joined := Path.joinpath (Path.parent current_file) import_path in
  let outcome := Fallible._resolve_import_path fs current_file import_path in
  (String.prefix "." import_path = false -> outcome = os.Return None)
  /\ (String.prefix "." import_path = true ->
      (forall e, os.resolve fs joined = os.Throw e -> outcome = os.Throw e)
      /\ forall candidate,
          os.resolve fs joined = os.Return candidate ->
          (Path.name candidate = "" ->
           outcome = os.Throw (os.ValueError "has an empty name"))
          /\ (Path.name candidate <> "" ->
              exists p_js p_ts,
                Path.with_suffix candidate ".js" = Py.Ok p_js
                /\ Path.with_suffix candidate ".ts" = Py.Ok p_ts
                /\ let probes := [candidate; p_js; p_ts;
                                  Path.joinpath candidate "index.js";
                                  Path.joinpath candidate "index.ts"] in
                   (forall earlier probe later,
                       probes = earlier ++ probe :: later ->
                       Forall (fun p => os.is_file fs p = os.Return false) earlier ->
                       (os.is_file fs probe = os.Return true ->
                        outcome = os.Return (Some probe))
                       /\ (forall e, os.is_file fs probe = os.Throw e ->
                                     outcome = os.Throw e))
                   /\ (Forall (fun p => os.is_file fs p = os.Return false) probes ->
                       outcome = os.Return None)))
  /\ (forall fs0,
         Fallible._resolve_import_path (os.returning fs0) current_file import_path
         = os.of_py (_resolve_import_path fs0 current_file import_path)).
Proof.
  intros joined outcome. split; [|split].
  - intros Hrel. unfold outcome, Fallible._resolve_import_path. now rewrite Hrel.
  - intros Hrel.
    assert (outcome
            = os.and_then (os.resolve fs joined) (fun candidate =>
              os.and_then (os.of_py (probes_of candidate)) (fun probes =>
              Fallible.first_file fs probes))) as Hout.
    { unfold outcome, Fallible._resolve_import_path. now rewrite Hrel. }
    split.
    + intros e He. rewrite Hout, He. reflexivity.
    + intros candidate Hc. rewrite Hout, Hc. cbn [os.and_then].
      unfold probes_of, Path.with_suffix. simpl. unfold Py.truthy.
      destruct (String.eqb_spec (Path.name candidate) "") as [Hname|Hname];
        cbn [negb Py.bind os.of_py os.and_then].
      * split; [reflexivity | contradiction].
      * split; [contradiction|]. intros _. do 2 eexists.
        split; [reflexivity|]. split; [reflexivity|].
        cbv zeta. split.
        -- intros earlier probe later Heq Hearlier.
           rewrite Heq. clear Heq.
           induction Hearlier as [|p earlier Hp _ IH]; cbn [app Fallible.first_file].
           ++ split.
              ** intros ->. reflexivity.
              ** intros e ->. reflexivity.
           ++ rewrite Hp. cbn [os.and_then]. exact IH.
        -- intros Hall. induction Hall as [|p rest Hp _ IH];
             cbn [Fallible.first_file]; [reflexivity|].
           rewrite Hp. cbn [os.and_then]. exact IH.
  - intros fs0. apply Refinement.resolve_import_path_returning.
Qed.

(** X13. [_walk_sources] tests every component of a child's path,
    those of the scanned directory included: when the directory's own
    path has a component in [_SKIP_DIRS] (a project checked out under
    [build/], say), no file is ever yielded and the parser is never
    called.  [is_file] is still called on every listed child, before
    the test of the components: if it raises on one, the walk and
    [build_graph] raise what it raises on the first such child;
    if it returns on all, [build_graph] leaves the instance as its
    second loop alone would, and a fresh instance keeps an empty
    graph.  On a file system whose calls return, [build_graph] is the
    definition used in the first part. *)
Theorem build_graph_directory_under_skipped_dir
        (fs : os.FileSystem) (rglob : Path.t -> list Path.t) (src : ts.Source)
        (directory : Path.t) (self : DependencyGraph) :
  (forall child, In child (rglob directory) ->
                 exists rest, Walk.parts_of child = Walk.parts_of directory ++ rest) ->
  (exists part, In part (Walk.parts_of directory) /\ In part Walk._SKIP_DIRS) ->
  (forall paths,
      Fallible._walk_sources fs rglob directory = os.Return paths -> paths = [])
  /\ ((forall child, In child (rglob directory) ->
                     exists file, os.is_file fs child = os.Return file) ->
      Fallible._walk_sources fs rglob directory = os.Return []
      /\ Fallible.build_graph fs rglob src directory self = Fallible.phase2 fs self
      /\ Fallible.build_graph fs rglob src directory __init__
         = os.Return __init__)
  /\ (forall earlier child later e,
         Walk.sorted (rglob directory) = earlier ++ child :: later ->
         (forall c, In c earlier -> exists file, os.is_file fs c = os.Return file) ->
         os.is_file fs child = os.Throw e ->
         Fallible._walk_sources fs rglob directory = os.Throw e
         /\ Fallible.build_graph fs rglob src directory self = os.Throw e)
  /\ (forall fs0,
         Fallible.build_graph (os.returning fs0) rglob src directory self
         = os.of_py (build_graph_directory fs0 rglob src directory self)).
Proof.
  intros Hunder (part & Hpart & Hskip).
  assert (forall child, In child (Walk.sorted (rglob directory)) ->
                        In child (rglob directory)) as Hlisted.
  { intros child Hin.
    eapply Permutation_in; [apply WalkFacts.sorted_perm | exact Hin]. }
  assert (forall child, In child (Walk.sorted (rglob directory)) ->
                        Walk.under_skipped_dir child = true) as Hall.
  { intros child Hin. destruct (Hunder child (Hlisted child Hin)) as [more Hparts].
    unfold Walk.under_skipped_dir. rewrite Hparts.
    apply existsb_exists. exists part. split.
    - apply in_or_app. now left.
    - now apply PyFacts.mem_In. }
  assert (forall children : list Path.t,
             (forall child, In child (rglob directory) ->
                            exists file, os.is_file fs child = os.Return file) ->
             forall child, In child (Walk.sorted (rglob directory)) ->
                           exists file, os.is_file fs child = os.Return file)
    as Hret by (intros _ H child Hin; apply H, Hlisted, Hin).
  pose proof (@Refinement.walk_loop_skipped
                fs (list Path.t)
                (fun yielded child => os.Return (yielded ++ [child]))
                (Walk.sorted (rglob directory)) [] Hall) as (W1 & W2 & W3).
  assert (forall st,
             (forall child, In child (Walk.sorted (rglob directory)) ->
                            exists file, os.is_file fs child = os.Return file) ->
             Fallible.build_graph fs rglob src directory st = Fallible.phase2 fs st)
    as G1.
  { intros st H. unfold Fallible.build_graph.
    rewrite (proj1 (@Refinement.walk_loop_skipped
                      fs DependencyGraph
                      (fun st0 p => os.of_py (parse_and_register src st0 p))
                      (Walk.sorted (rglob directory)) st Hall) H).
    reflexivity. }
  split; [|split; [|split]].
  - intros paths. unfold Fallible._walk_sources. apply W3.
  - intros Hfiles. specialize (Hret [] Hfiles).
    split; [exact (W1 Hret)|]. split; [exact (G1 self Hret)|].
    rewrite (G1 __init__ Hret). reflexivity.
  - intros earlier child later e Heq Hearlier Hthrow. split.
    + exact (W2 earlier child later e Heq Hearlier Hthrow).
    + unfold Fallible.build_graph.
      rewrite (proj1 (proj2 (@Refinement.walk_loop_skipped
                               fs DependencyGraph
                               (fun st0 p => os.of_py (parse_and_register src st0 p))
                               (Walk.sorted (rglob directory)) self Hall))
                     earlier child later e Heq Hearlier Hthrow).
      reflexivity.
  - intros fs0. apply Refinement.build_graph_returning.
Qed.

Module StringFacts.

Lemma length_snoc (s : string) (c : ascii) :
  String.length (s ++ String c "")%string = S (String.length s).
Proof. induction s as [|a s IH]; simpl; [reflexivity | now rewrite IH]. Qed.

Lemma substring_front (s : string) (c : ascii) :
  substring 0 (String.length s) (s ++ String c "")%string = s.
Proof. induction s as [|a s IH]; simpl; [reflexivity | now rewrite IH]. Qed.

End StringFacts.

(** X14. [_extract_string] returns the text of a node without its
    first and last character whenever the text has at least two
    characters and starts with an apostrophe, a quotation mark or a
    backtick; the last character is not looked at.  Any other text, a
    lone quote included, is returned unchanged. *)
Theorem extract_string_strips_delimiters (string_node : ts.Node) (raw : string) :
  ts.text_decode string_node = Py.Ok raw ->
  (forall q body c,
      raw = String q (body ++ String c "")%string ->
      In q ["'"; "034"; "`"]%char ->
      TreeSitterParser._extract_string string_node = Py.Ok body)
  /\ ((String.length raw < 2)%nat
      \/ TreeSitterParser.opens_with_quote raw = false ->
      TreeSitterParser._extract_string string_node = Py.Ok raw).
Proof.
  intros Hraw. unfold TreeSitterParser._extract_string. rewrite Hraw.
  cbn [Py.bind]. split.
  - intros q body c -> Hq.
    assert (TreeSitterParser.opens_with_quote
              (String q (body ++ String c "")) = true) as ->.
    { simpl. destruct Hq as [<-|[<-|[<-|[]]]]; reflexivity. }
    cbn [String.length]. rewrite StringFacts.length_snoc.
    cbn [Nat.leb andb Nat.sub substring].
    now rewrite Nat.sub_0_r, StringFacts.substring_front.
  - intros [Hlen|Hq].
    + destruct (Nat.leb_spec 2 (String.length raw)); [lia | reflexivity].
    + rewrite Hq, andb_false_r. reflexivity.
Qed.

Module RouteFacts.
Import ts TreeSitterParser.

(** The upper-case names of the seven registration methods. *)
Definition methods_upper : list string :=
  ["GET"; "POST"; "PUT"; "PATCH"; "DELETE"; "USE"; "ALL"].

(** The seven registration methods, each with the name that the route
    carries. *)
Definition method_names : list (string * string) :=
  [("get", "GET"); ("post", "POST"); ("put", "PUT"); ("patch", "PATCH");
   ("delete", "DELETE"); ("use", "USE"); ("all", "ALL")].

(** The arguments that count as middleware: identifiers and member
    expressions. *)
Definition names_middleware (node : Node) : bool :=
  String.eqb (type node) "identifier"
  || String.eqb (type node) "member_expression".

(** [text] is the decoded text of [node]. *)
Definition decodes_to (node : Node) (text : string) : Prop :=
  text_decode node = Py.Ok text.

(** [chosen] is [all] with some elements left out, in the same order. *)
Inductive subsequence {A : Type} : list A -> list A -> Prop :=
| subsequence_nil : subsequence [] []
| subsequence_skip (a : A) (chosen all : list A) :
    subsequence chosen all -> subsequence chosen (a :: all)
| subsequence_take (a : A) (chosen all : list A) :
    subsequence chosen all -> subsequence (a :: chosen) (a :: all).

Lemma subsequence_empty {A : Type} (l : list A) : subsequence [] l.
Proof. induction l; constructor; assumption. Qed.

(** The results of a finder come from matches of the query, in the
    order of the matches. *)
Lemma collect_ordered {A : Type} (body : Match -> Py.result (option A)) matches :
  forall results,
    collect body matches = Py.Ok results ->
    exists chosen,
      subsequence chosen matches
      /\ Forall2 (fun m a => body m = Py.Ok (Some a)) chosen results.
Proof.
  induction matches as [|m rest IH]; intros results; simpl.
  - intros [= <-]. exists []. split; constructor.
  - destruct (body m) as [r|e] eqn:Em; cbn [Py.bind]; [|discriminate].
    destruct (collect body rest) as [rs|e]; cbn [Py.bind]; [|discriminate].
    destruct (IH rs eq_refl) as (chosen & Hsub & Hall).
    intros [= <-]. destruct r as [a|].
    + exists (m :: chosen). split; constructor; assumption.
    + exists chosen. split; [now constructor | exact Hall].
Qed.

Lemma upper_method (m : string) :
  Py.mem m _HTTP_METHODS = true ->
  In (upper m) methods_upper
  /\ (upper m = "USE" -> m = "use")
  /\ In (m, upper m) method_names.
Proof.
  intros H. apply PyFacts.mem_In in H. unfold _HTTP_METHODS in H.
  simpl in H.
  destruct H as [<-|[<-|[<-|[<-|[<-|[<-|[<-|[]]]]]]]];
    (split; [vm_compute; tauto|]);
    (split; [vm_compute; congruence | vm_compute; tauto]).
Qed.

Lemma middleware_of_length mids :
  forall names, middleware_of mids = Py.Ok names ->
                (List.length names <= List.length mids)%nat.
Proof.
  induction mids as [|mid rest IH]; intros names; simpl.
  - intros [= <-]. simpl. lia.
  - destruct (String.eqb (type mid) "identifier"
              || String.eqb (type mid) "member_expression").
    + destruct (text_decode mid); cbn [Py.bind]; [|discriminate].
      destruct (middleware_of rest) as [ns|]; cbn [Py.bind]; [|discriminate].
      intros [= <-]. simpl. specialize (IH ns eq_refl). lia.
    + intros H. specialize (IH names H). lia.
Qed.

(** The middleware names are the texts of the identifiers and member
    expressions among the nodes, in their order. *)
Lemma middleware_of_names mids :
  forall names, middleware_of mids = Py.Ok names ->
                Forall2 decodes_to (filter names_middleware mids) names.
Proof.
  induction mids as [|mid rest IH]; intros names; simpl.
  - intros [= <-]. constructor.
  - unfold names_middleware at 1.
    destruct (String.eqb (type mid) "identifier"
              || String.eqb (type mid) "member_expression").
    + destruct (text_decode mid) as [nm|] eqn:Et; cbn [Py.bind]; [|discriminate].
      destruct (middleware_of rest) as [ns|]; cbn [Py.bind]; [|discriminate].
      intros [= <-]. constructor; [exact Et | now apply IH].
    + apply IH.
Qed.

Lemma last_split {A : Type} (l : list A) (d : A) :
  l <> [] -> l = removelast l ++ [last l d].
Proof. intros H. now apply app_removelast_last. Qed.

(** What one match contributes to [find_routes]. *)
Definition route_from (path : Path.t) (m : Match) (r : RouteInfo.t) : Prop :=
  RouteInfo.file_path r = Path.str path
  /\ In (RouteInfo.http_method r) methods_upper
  /\ RouteInfo.route_pattern r <> ""
  /\ (exists method_node method_text,
         first_node (get_or_nil "method" (snd m)) = Some method_node
         /\ text_decode method_node = Py.Ok method_text
         /\ In (method_text, RouteInfo.http_method r) method_names)
  /\ exists args_node before handler_node,
      first_node (get_or_nil "args" (snd m)) = Some args_node
      /\ named_children args_node = before ++ [handler_node]
      /\ text_decode handler_node = Py.Ok (RouteInfo.handler_source r)
      /\ RouteInfo.handler_start_line r = start_row handler_node + 1
      /\ RouteInfo.handler_end_line r = end_row handler_node + 1
      /\ (RouteInfo.http_method r = "USE" ->
          function_like (type handler_node) = true
          /\ In (type handler_node)
                ["arrow_function"; "function_expression"; "function"])
      /\ (before = [] -> type handler_node <> "string")
      /\ (List.length (RouteInfo.middleware r) <= List.length before)%nat
      /\ (forall first between,
             before = first :: between -> type first = "string" ->
             (exists p, _extract_string first = Py.Ok p
                        /\ RouteInfo.route_pattern r
                           = if String.eqb p "" then "*" else p)
             /\ Forall2 decodes_to (filter names_middleware between)
                        (RouteInfo.middleware r))
      /\ ((forall first between,
              before = first :: between -> type first <> "string") ->
          RouteInfo.route_pattern r = "*"
          /\ Forall2 decodes_to (filter names_middleware before)
                     (RouteInfo.middleware r)).

Lemma route_of_spec path m r :
  route_of path m = Py.Ok (Some r) -> route_from path m r.
Proof.
  unfold route_of, route_from.
  destruct (get_or_nil "method" (snd m)) as [|method_node ?]; [discriminate|].
  destruct (get_or_nil "obj" (snd m)) as [|? ?]; [discriminate|].
  destruct (get_or_nil "args" (snd m)) as [|args_node ?]; [discriminate|].
  destruct (text_decode method_node) as [method_text|] eqn:Emethod;
    cbn [Py.bind]; [|discriminate].
  destruct (Py.mem method_text _HTTP_METHODS) eqn:Hm; cbn [negb];
    [|discriminate].
  destruct (upper_method _ Hm) as (Hup & Huse & Hname).
  destruct (named_children args_node) as [|first_arg others] eqn:Ech;
    [discriminate|].
  set (pr := if String.eqb (type first_arg) "string"
             then p <- _extract_string first_arg ;; Py.Ok (p, others)
             else Py.Ok ("*", first_arg :: others)).
  destruct pr as [[route_pattern remaining]|] eqn:Epr; cbn [Py.bind fst snd];
    [|discriminate].
  destruct remaining as [|r0 rs] eqn:Erem; [discriminate|].
  rewrite <- Erem.
  destruct (middleware_of (removelast remaining)) as [mw|] eqn:Emw;
    cbn [Py.bind]; [|discriminate].
  destruct (text_decode (last remaining first_arg)) as [hsrc|] eqn:Eh;
    cbn [Py.bind]; [|discriminate].
  destruct (String.eqb method_text "use"
            && negb (function_like (type (last remaining first_arg)))) eqn:Euse;
    [discriminate|].
  intros [= <-]. cbn [RouteInfo.file_path RouteInfo.http_method
                      RouteInfo.route_pattern RouteInfo.handler_source
                      RouteInfo.handler_start_line RouteInfo.handler_end_line
                      RouteInfo.middleware].
  split; [reflexivity|]. split; [exact Hup|]. split.
  { unfold Py.truthy. destruct (String.eqb_spec route_pattern "");
      cbn [negb]; [discriminate | assumption]. }
  split.
  { exists method_node, method_text. split; [reflexivity|].
    split; [exact Emethod | exact Hname]. }
  assert (remaining <> []) as Hne by (rewrite Erem; discriminate).
  pose proof (middleware_of_length _ Emw) as Hlen.
  pose proof (middleware_of_names _ Emw) as Hnames.
  (* the remaining arguments are the named children, without a leading
     string *)
  assert (exists skipped,
             first_arg :: others = skipped ++ remaining
             /\ (skipped = []
                 /\ type first_arg <> "string" /\ route_pattern = "*"
                 \/ skipped = [first_arg]
                    /\ type first_arg = "string"
                    /\ _extract_string first_arg = Py.Ok route_pattern))
    as (skipped & Hsplit & Hcases).
  { subst pr. destruct (String.eqb_spec (type first_arg) "string") as [Hs|Hs].
    - destruct (_extract_string first_arg) as [p|]; cbn [Py.bind] in Epr;
        [|discriminate].
      assert (others = remaining) as <- by (rewrite Erem; congruence).
      assert (p = route_pattern) as -> by congruence.
      exists [first_arg]. split; [reflexivity|]. right. auto.
    - assert (first_arg :: others = remaining) as <-
          by (rewrite Erem; congruence).
      assert ("*" = route_pattern) as <- by congruence.
      exists []. split; [reflexivity|]. left. auto. }
  exists args_node, (skipped ++ removelast remaining), (last remaining first_arg).
  split; [reflexivity|]. split.
  { rewrite <- app_assoc, <- (last_split first_arg Hne), Ech. exact Hsplit. }
  split; [exact Eh|]. split; [reflexivity|]. split; [reflexivity|].
  split.
  { intros Hu. apply Huse in Hu. subst method_text. simpl in Euse.
    destruct (function_like (type (last remaining first_arg))) eqn:Ef;
      [|discriminate Euse].
    split; [reflexivity|]. now apply PyFacts.mem_In. }
  split.
  { intros Hnil. apply app_eq_nil in Hnil. destruct Hnil as [Hsk Hrl].
    destruct Hcases as [(_ & Hns & _)|(Hsk' & _)]; [|congruence].
    subst skipped. simpl in Hsplit.
    rewrite (last_split first_arg Hne), Hrl in Hsplit. simpl in Hsplit.
    injection Hsplit as <- _. exact Hns. }
  split; [rewrite length_app; lia|].
  destruct Hcases as [(-> & Hns & ->)|(-> & Hs & Hx)]; cbn [app] in *.
  - (* no leading string: every argument before the handler counts *)
    split.
    + intros first between Hb Hstr. exfalso.
      rewrite <- Hsplit in Hb. destruct others as [|o os]; [discriminate Hb|].
      cbn [removelast] in Hb. injection Hb as <- _. contradiction.
    + intros _. split; [reflexivity | exact Hnames].
  - (* a leading string: it gives the pattern *)
    split.
    + intros first between [= <- <-] _. split; [|exact Hnames].
      exists route_pattern. split; [exact Hx|]. unfold Py.truthy.
      now destruct (String.eqb route_pattern "").
    + intros Hnone. now destruct (Hnone first_arg (removelast remaining) eq_refl).
Qed.

End RouteFacts.

(** X15. Every route that [find_routes] returns for a path comes from a
    match of the query, in the order of the matches, and carries
    [str(path)]; its method is the upper-case name of the matched
    method, one of seven; its handler is the last named argument of
    the registration call, with 1-based lines; a [USE] route has a
    function-like handler; a call whose only argument is a string gives
    no route.  When the first argument is a string, the pattern is its
    content ([*] if that is empty) and the middleware names are the
    texts of the identifiers and member expressions between it and the
    handler, in order; otherwise the pattern is [*] and the names come
    from all arguments before the handler.  A file that cannot be
    parsed gives no routes. *)
Theorem find_routes_invariants (src : ts.Source) (path : Path.t)
        (routes : list RouteInfo.t) :
  TreeSitterParser.find_routes src path = Py.Ok routes ->
  (ts.parses src path = false -> routes = [])
  /\ (List.length routes
      <= List.length (ts.run_query src "express_routes" path))%nat
  /\ (forall r, In r routes ->
                exists m, In m (ts.run_query src "express_routes" path)
                          /\ RouteFacts.route_from path m r)
  /\ exists chosen,
      RouteFacts.subsequence chosen (ts.run_query src "express_routes" path)
      /\ Forall2 (RouteFacts.route_from path) chosen routes.
Proof.
  unfold TreeSitterParser.find_routes.
  destruct (ts.parses src path); cbn [negb].
  - intros H. destruct (ParserFacts.collect_In _ _ H) as [Hin Hlen].
    split; [discriminate|]. split; [exact Hlen|]. split.
    + intros r Hr. destruct (Hin r Hr) as (m & Hm & Hb).
      exists m. split; [exact Hm | exact (RouteFacts.route_of_spec _ _ Hb)].
    + destruct (RouteFacts.collect_ordered _ _ H) as (chosen & Hsub & Hall).
      exists chosen. split; [exact Hsub|].
      clear - Hall. induction Hall as [|m r ms rs Hb _ IH]; constructor;
        [exact (RouteFacts.route_of_spec _ _ Hb) | exact IH].
  - intros [= <-]. split; [reflexivity|]. split; [simpl; lia|].
    split; [intros r []|]. exists [].
    split; [apply RouteFacts.subsequence_empty | constructor].
Qed.

Module DiscoveryFacts.





End DiscoveryFacts.


(** X17. When the target of a scan is a single source file, the scanner
    discovers that file, but [build_graph] finds nothing under it (a
    file has no children to list): the graph of a fresh instance stays
    empty, and the context of every route is the handler's own source
    under its header. *)
Theorem scan_of_a_single_file
        (fs : Path.FileSystem) (ord : Py.SetOrder)
        (rglob : Path.t -> list Path.t) (src : ts.Source) (target : Path.t) :
  Path.is_file fs target = true ->
  cli.scan_suffix target = true ->
  rglob target = [] ->
  cli._discover_files fs rglob target = [target]
  /\ build_graph_directory fs rglob src target __init__ = Py.Ok __init__
  /\ forall route depth,
      get_route_context fs ord __init__ route depth
      = Py.Ok (fallback_block route).
Proof.
  intros Hfile Hsfx Hnone. split; [|split].
  - unfold cli._discover_files. now rewrite Hfile, Hsfx.
  - unfold build_graph_directory, Walk._walk_sources. rewrite Hnone.
    reflexivity.
  - intros route depth. reflexivity.
Qed.

Module ReportFacts.
Import json SARIFReporter.

(** Every vulnerability type has its rule, at the index that the
    lookup table gives. *)
Lemma rule_of_vuln_type (v : VulnType.t) :
  exists i rule,
    vuln_get v _VULN_TO_RULE_INDEX = Some i
    /\ 0 <= i
    /\ subscript _RULES i = Some rule
    /\ nth_error _RULES (Z.to_nat i) = Some rule
    /\ vuln_type rule = v.
Proof.
  destruct v;
    [exists 0 | exists 1 | exists 2 | exists 3 | exists 4];
    eexists; (split; [reflexivity|]); (split; [lia|]);
    (split; [reflexivity|]); (split; [reflexivity|]); reflexivity.
Qed.

(** A dict that numbers its keys by position. *)
Definition numbered (uris : Py.dict Z) : Prop :=
  forall n k, nth_error (Py.keys uris) n = Some k ->
              Py.get k uris = Some (Z.of_nat n).

Lemma numbered_NoDup uris : numbered uris -> NoDup (Py.keys uris).
Proof.
  intros H. apply NoDup_nth_error. intros i j Hi E.
  destruct (nth_error (Py.keys uris) i) as [k|] eqn:Ei.
  - pose proof (H i k Ei) as Gi. symmetry in E.
    pose proof (H j k E) as Gj. rewrite Gi in Gj.
    injection Gj as Gj. lia.
  - apply nth_error_None in Ei. lia.
Qed.

Lemma numbered_get uris k i :
  numbered uris -> Py.get k uris = Some i ->
  0 <= i /\ nth_error (Py.keys uris) (Z.to_nat i) = Some k.
Proof.
  intros H G.
  assert (In k (Py.keys uris)) as Hin.
  { apply PyFacts.mem_In. rewrite <- PyFacts.contains_keys.
    exact (PyFacts.get_Some_contains _ _ G). }
  apply In_nth_error in Hin. destruct Hin as [n Hn].
  pose proof (H n k Hn) as G'. rewrite G in G'. injection G' as ->.
  split; [lia|]. now rewrite Nat2Z.id.
Qed.

Lemma numbered_add uris rel :
  numbered uris -> Py.contains rel uris = false ->
  numbered (Py.set rel (Z.of_nat (List.length uris)) uris).
Proof.
  intros H Hfresh n k. rewrite PyFacts.keys_set, Hfresh. intros Hn.
  rewrite PyFacts.get_set.
  assert (List.length (Py.keys uris) = List.length uris) as Hlen
      by apply length_map.
  destruct (Nat.lt_ge_cases n (List.length (Py.keys uris))) as [Hlt|Hge].
  - rewrite nth_error_app1 in Hn by assumption.
    pose proof (H n k Hn) as G.
    destruct (String.eqb_spec k rel) as [->|_]; [|exact G].
    apply PyFacts.get_Some_contains in G. congruence.
  - rewrite nth_error_app2 in Hn by assumption.
    destruct (n - List.length (Py.keys uris))%nat as [|m] eqn:Em.
    + simpl in Hn. injection Hn as <-. rewrite String.eqb_refl.
      f_equal. lia.
    + simpl in Hn. now destruct m.
Qed.

Section Artifacts.
Variable float : Type.

Definition rel_of (target : Path.t) (f : Finding.t float) : string :=
  _relative_uri (Finding.file_path f) target.

Definition add_uri (target : Path.t) (uris : Py.dict Z) (f : Finding.t float)
  : Py.dict Z :=
  let rel := rel_of target f in
  if Py.contains rel uris then uris
  else Py.set rel (Z.of_nat (List.length uris)) uris.

Lemma add_uri_keeps target uris f k :
  Py.contains k uris = true -> Py.contains k (add_uri target uris f) = true.
Proof.
  intros H. unfold add_uri. destruct (Py.contains (rel_of target f) uris); [exact H|].
  rewrite PyFacts.contains_set, H. apply orb_true_r.
Qed.

Lemma fold_add_uri target fl :
  forall uris,
    numbered uris ->
    let uris' := fold_left (add_uri target) fl uris in
    numbered uris'
    /\ (forall k, Py.contains k uris = true -> Py.contains k uris' = true)
    /\ (forall f, In f fl -> Py.contains (rel_of target f) uris' = true)
    /\ (forall k, Py.contains k uris' = true ->
                  Py.contains k uris = true
                  \/ exists f, In f fl /\ k = rel_of target f).
Proof.
  induction fl as [|f rest IH]; intros uris Hn; simpl.
  - split; [exact Hn|]. split; [auto|]. split; [intros f []|]. auto.
  - assert (numbered (add_uri target uris f)) as Hn'.
    { unfold add_uri. destruct (Py.contains (rel_of target f) uris) eqn:E;
        [exact Hn | now apply numbered_add]. }
    destruct (IH _ Hn') as (H1 & H2 & H3 & H4).
    split; [exact H1|]. split; [|split].
    + intros k Hk. apply H2. now apply add_uri_keeps.
    + intros g [<-|Hg]; [|now apply H3].
      apply H2. unfold add_uri.
      destruct (Py.contains (rel_of target f) uris) eqn:E; [exact E|].
      rewrite PyFacts.contains_set, String.eqb_refl. reflexivity.
    + intros k Hk. destruct (H4 k Hk) as [Hk'|(g & Hg & ->)].
      * unfold add_uri in Hk'.
        destruct (Py.contains (rel_of target f) uris) eqn:E; [now left|].
        rewrite PyFacts.contains_set in Hk'.
        apply orb_true_iff in Hk'. destruct Hk' as [Hk'|Hk']; [|now left].
        apply String.eqb_eq in Hk'. right. exists f. split; [now left | exact Hk'].
      * right. exists g. split; [now right | reflexivity].
Qed.

Lemma artifact_uris_numbered fl target :
  let uris := artifact_uris_of fl target in
  numbered uris
  /\ (forall f, In f fl -> Py.contains (rel_of target f) uris = true)
  /\ (forall k, In k (Py.keys uris) -> exists f, In f fl /\ k = rel_of target f).
Proof.
  assert (numbered []) as H0 by (intros [|n] k H; discriminate H).
  destruct (fold_add_uri target fl H0) as (H1 & _ & H3 & H4).
  split; [exact H1|]. split; [exact H3|].
  intros k Hk. apply PyFacts.mem_In in Hk.
  rewrite <- PyFacts.contains_keys in Hk.
  destruct (H4 k Hk) as [Hc|Hf]; [discriminate Hc | exact Hf].
Qed.

Lemma results_of_Forall2 (fl : list (Finding.t float))
      (convert : Finding.t float -> option (value float)) :
  forall rs, results_of fl convert = Some rs ->
             Forall2 (fun f r => convert f = Some r) fl rs.
Proof.
  induction fl as [|f rest IH]; intros rs; simpl.
  - intros [= <-]. constructor.
  - destruct (convert f) as [r|] eqn:Ef; [|discriminate].
    destruct (results_of rest convert) as [rs'|]; [|discriminate].
    intros [= <-]. constructor; auto.
Qed.

Lemma results_of_total (fl : list (Finding.t float))
      (convert : Finding.t float -> option (value float)) :
  (forall f, In f fl -> exists r, convert f = Some r) ->
  exists rs, results_of fl convert = Some rs.
Proof.
  induction fl as [|f rest IH]; intros H; simpl; [now exists []|].
  destruct (H f (or_introl eq_refl)) as [r ->].
  destruct IH as [rs ->]; [intros g Hg; apply H; now right|].
  now exists (r :: rs).
Qed.

Lemma Forall2_nth {A B : Type} (R : A -> B -> Prop) (l : list A) (l' : list B) :
  Forall2 R l l' ->
  forall k a, nth_error l k = Some a ->
              exists b, nth_error l' k = Some b /\ R a b.
Proof.
  induction 1 as [|x y l l' Hxy _ IH]; intros [|k] a; simpl; try discriminate.
  - intros [= <-]. exists y. auto.
  - apply IH.
Qed.

Lemma Forall2_In_r {A B : Type} (R : A -> B -> Prop) (l : list A) (l' : list B) :
  Forall2 R l l' ->
  forall b, In b l' -> exists a, In a l /\ R a b.
Proof.
  induction 1 as [|x y l l' Hxy _ IH]; intros b; simpl; [intros []|].
  intros [<-|Hb]; [exists x; auto|].
  destruct (IH b Hb) as (a & Ha & Hab). exists a. auto.
Qed.

(** The run object of a report with the given artifacts and results. *)
Definition run_of (uris : Py.dict Z) (rs : list (value float)) : value float :=
  Dict [("tool",
         Dict [("driver",
                Dict [("name", Str "LogicGate");
                      ("version", Str "0.1.0");
                      ("informationUri", Str "https://github.com/logicgate");
                      ("rules", List (_build_rules_array float))])]);
        ("artifacts",
         List (map (fun uri =>
                      Dict [("location",
                             Dict [("uri", Str uri);
                                   ("uriBaseId", Str "%SRCROOT%")])])
                   (Py.keys uris)));
        ("results", List rs)].

(** [generate] always returns a document: none of the subscripts of
    [_finding_to_result] can fail on the dicts that [generate] builds. *)
Lemma generate_spec (results : list (AuditResult.t float)) (target_dir : string)
      (remediations : option (list (Remediation.t float))) :
  let target := Path.of_str target_dir in
  let fl := all_findings_of results in
  let uris := artifact_uris_of fl target in
  exists rs,
    generate results target_dir remediations
    = Some (Dict [("$schema", Str _SARIF_SCHEMA);
                  ("version", Str "2.1.0");
                  ("runs", List [run_of uris rs])])
    /\ Forall2 (fun f r =>
                  _finding_to_result f target uris
                    (rem_get (Finding.file_path f, Finding.title f)
                             (rem_map_of remediations))
                  = Some r)
               fl rs.
Proof.
  intros target fl uris.
  destruct (artifact_uris_numbered fl target) as (Hn & Hall & _).
  fold uris in Hn, Hall.
  set (convert := fun f : Finding.t float =>
                    _finding_to_result f target uris
                      (rem_get (Finding.file_path f, Finding.title f)
                               (rem_map_of remediations))).
  destruct (@results_of_total fl convert) as [rs Hrs].
  { intros f Hf. unfold convert, _finding_to_result.
    destruct (rule_of_vuln_type (Finding.vuln_type f))
      as (i & rule & -> & _ & -> & _ & _).
    specialize (Hall f Hf). unfold rel_of in Hall.
    unfold Py.contains in Hall.
    destruct (Py.get (_relative_uri (Finding.file_path f) target) uris);
      [|discriminate].
    destruct (rem_get _ _); eexists; reflexivity. }
  exists rs. split; [|exact (results_of_Forall2 _ _ Hrs)].
  unfold generate. fold target. fold fl. fold uris. fold convert.
  rewrite Hrs. reflexivity.
Qed.

(** The result object of one finding, in terms of what it was made
    from. *)
Lemma finding_result_spec (f : Finding.t float) (target : Path.t)
      (uris : Py.dict Z) (rem : option (Remediation.t float)) (r : value float) :
  _finding_to_result f target uris rem = Some r ->
  exists i rule index,
    vuln_get (Finding.vuln_type f) _VULN_TO_RULE_INDEX = Some i
    /\ nth_error _RULES (Z.to_nat i) = Some rule
    /\ vuln_type rule = Finding.vuln_type f
    /\ Py.get (rel_of target f) uris = Some index
    /\ field "ruleId" r = Some (Str (id rule))
    /\ field "ruleIndex" r = Some (Int i)
    /\ field "level" r = Some (Str (_severity_to_level (Finding.severity f)))
    /\ lookup [Key "locations"; Idx 0; Key "physicalLocation";
               Key "artifactLocation"] r
       = Some (Dict [("uri", Str (rel_of target f));
                     ("uriBaseId", Str "%SRCROOT%");
                     ("index", Int index)])
    /\ lookup [Key "locations"; Idx 0; Key "physicalLocation"; Key "region"] r
       = Some (Dict [("startLine", Int (Finding.start_line f));
                     ("endLine", Int (Finding.end_line f))])
    /\ field "fixes" r
       = match rem with
         | None => None
         | Some patch =>
             Some (List [Dict
               [("description", Dict [("text", Str (Remediation.explanation patch))]);
                ("artifactChanges",
                 List [Dict
                   [("artifactLocation",
                     Dict [("uri", Str (rel_of target f));
                           ("uriBaseId", Str "%SRCROOT%")]);
                    ("replacements",
                     List [Dict
                       [("deletedRegion",
                         Dict [("startLine", Int (Finding.start_line f));
                               ("endLine", Int (Finding.end_line f))]);
                        ("insertedContent",
                         Dict [("text", Str (Remediation.diff patch))])]])]])]])
         end.
Proof.
  unfold _finding_to_result.
  destruct (rule_of_vuln_type (Finding.vuln_type f))
    as (i & rule & Hi & _ & Hsub & Hnth & Hv).
  rewrite Hi, Hsub. fold (rel_of target f).
  destruct (Py.get (rel_of target f) uris) as [index|]; [|discriminate].
  intros Hr. exists i, rule, index.
  do 4 (split; [first [assumption | reflexivity]|]).
  destruct rem as [patch|]; injection Hr as <-; repeat split; reflexivity.
Qed.

End Artifacts.

End ReportFacts.

Module FixFacts.
Import json SARIFReporter.

Section Fixes.
Variable float : Type.

(** Whether a remediation was made for a finding, as [generate] sees
    it: same file, same title. *)
Definition made_for (rem : Remediation.t float) (f : Finding.t float) : Prop :=
  Remediation.file_path rem = Finding.file_path f
  /\ Remediation.finding_title rem = Finding.title f.

Definition key_of (rem : Remediation.t float) : string * string :=
  (Remediation.file_path rem, Remediation.finding_title rem).

Lemma key_eqb_eq (a b : string * string) : key_eqb a b = true <-> a = b.
Proof.
  unfold key_eqb. destruct a as [a1 a2], b as [b1 b2]. simpl.
  rewrite andb_true_iff, !String.eqb_eq. split.
  - intros [-> ->]. reflexivity.
  - intros [= -> ->]. auto.
Qed.

Lemma rem_get_app k (d1 d2 : list ((string * string) * Remediation.t float)) :
  rem_get k (d1 ++ d2)
  = match rem_get k d1 with Some v => Some v | None => rem_get k d2 end.
Proof.
  induction d1 as [|[k' v] r IH]; simpl; [reflexivity|].
  now destruct (key_eqb k k').
Qed.

Lemma rem_get_set k k' v (d : list ((string * string) * Remediation.t float)) :
  rem_get k' (rem_set k v d)
  = if key_eqb k' k then Some v else rem_get k' d.
Proof.
  induction d as [|[k0 v0] r IH]; simpl.
  - reflexivity.
  - destruct (key_eqb k k0) eqn:E; simpl.
    + apply key_eqb_eq in E. subst k0. now destruct (key_eqb k' k).
    + rewrite IH. destruct (key_eqb k' k0) eqn:E0; [|reflexivity].
      apply key_eqb_eq in E0. subst k0.
      destruct (key_eqb k' k) eqn:E1; [|reflexivity].
      apply key_eqb_eq in E1. subst k'.
      assert (key_eqb k k = true) by now apply key_eqb_eq. congruence.
Qed.

Lemma find_append {A : Type} (p : A -> bool) (l1 l2 : list A) :
  find p (l1 ++ l2)
  = match find p l1 with Some a => Some a | None => find p l2 end.
Proof.
  induction l1 as [|a r IH]; simpl; [reflexivity|]. now destruct (p a).
Qed.

(** The remediation kept for a key is the last one given for it. *)
Lemma rem_map_last k (rems : list (Remediation.t float)) :
  forall m,
    rem_get k (fold_left (fun m rem => rem_set (key_of rem) rem m) rems m)
    = match find (fun rem => key_eqb k (key_of rem)) (rev rems) with
      | Some rem => Some rem
      | None => rem_get k m
      end.
Proof.
  induction rems as [|rem rest IH]; intros m; simpl; [reflexivity|].
  rewrite IH, find_append.
  destruct (find (fun rem0 => key_eqb k (key_of rem0)) (rev rest));
    [reflexivity|].
  simpl. rewrite rem_get_set. now destruct (key_eqb k (key_of rem)).
Qed.

Lemma rem_get_map (f : Finding.t float) (rems : list (Remediation.t float)) :
  rem_get (Finding.file_path f, Finding.title f) (rem_map_of (Some rems))
  = find (fun rem => key_eqb (Finding.file_path f, Finding.title f) (key_of rem))
         (rev rems).
Proof.
  unfold rem_map_of.
  change (fun m rem => rem_set (Remediation.file_path rem,
                                Remediation.finding_title rem) rem m)
    with (fun m rem => rem_set (key_of rem) rem m).
  rewrite rem_map_last. simpl.
  now destruct (find _ (rev rems)).
Qed.

Lemma made_for_key (rem : Remediation.t float) (f : Finding.t float) :
  key_eqb (Finding.file_path f, Finding.title f) (key_of rem) = true
  <-> made_for rem f.
Proof.
  rewrite key_eqb_eq. unfold key_of, made_for. split.
  - intros [= -> ->]. auto.
  - intros [-> ->]. reflexivity.
Qed.

(** The [fixes] of a result made with a remediation. *)
Definition fixes_entry (target : Path.t) (f : Finding.t float)
           (rem : Remediation.t float) : value float :=
  List [Dict
    [("description", Dict [("text", Str (Remediation.explanation rem))]);
     ("artifactChanges",
      List [Dict
        [("artifactLocation",
          Dict [("uri", Str (_relative_uri (Finding.file_path f) target));
                ("uriBaseId", Str "%SRCROOT%")]);
         ("replacements",
          List [Dict
            [("deletedRegion",
              Dict [("startLine", Int (Finding.start_line f));
                    ("endLine", Int (Finding.end_line f))]);
             ("insertedContent",
              Dict [("text", Str (Remediation.diff rem))])]])]])]].

(** The fix of a result is made with the last remediation of the list
    that was made for its finding. *)
Lemma fixes_of_result (f : Finding.t float) (target : Path.t) (uris : Py.dict Z)
      (rems : list (Remediation.t float)) (r : value float) :
  _finding_to_result f target uris
    (rem_get (Finding.file_path f, Finding.title f) (rem_map_of (Some rems)))
  = Some r ->
  field "fixes" r
  = option_map (fixes_entry target f)
      (find (fun rem => key_eqb (Finding.file_path f, Finding.title f) (key_of rem))
            (rev rems)).
Proof.
  intros Hconv.
  destruct (ReportFacts.finding_result_spec _ _ _ _ Hconv)
    as (i & rule & index & _ & _ & _ & _ & _ & _ & _ & _ & _ & Hfix).
  rewrite rem_get_map in Hfix. rewrite Hfix.
  now destruct (find _ (rev rems)).
Qed.

Lemma find_last_made_for (f : Finding.t float)
      (earlier later : list (Remediation.t float)) (rem : Remediation.t float) :
  made_for rem f ->
  (forall x, In x later -> ~ made_for x f) ->
  find (fun rem0 => key_eqb (Finding.file_path f, Finding.title f) (key_of rem0))
       (rev (earlier ++ rem :: later))
  = Some rem.
Proof.
  intros Hmade Hlater.
  rewrite rev_app_distr. cbn [rev]. rewrite <- app_assoc, find_append.
  destruct (find _ (rev later)) as [hit|] eqn:El.
  - apply find_some in El. destruct El as [Hin Hkey].
    apply in_rev in Hin. apply made_for_key in Hkey.
    now destruct (Hlater hit Hin).
  - rewrite find_append. cbn [find].
    apply made_for_key in Hmade. now rewrite Hmade.
Qed.

End Fixes.

End FixFacts.

Module TallyFacts.

Section Tally.
Variable float : Type.

Definition is_severity (s : Severity.t) (f : Finding.t float) : bool :=
  match s, Finding.severity f with
  | Severity.CRITICAL, Severity.CRITICAL | Severity.HIGH, Severity.HIGH
  | Severity.MEDIUM, Severity.MEDIUM | Severity.LOW, Severity.LOW
  | Severity.INFO, Severity.INFO => true
  | _, _ => false
  end.

(** The number of findings of one severity. *)
Definition number_of (s : Severity.t) (fl : list (Finding.t float)) : Z :=
  Z.of_nat (List.length (filter (is_severity s) fl)).

Definition counts_of (base : Severity.t -> Z) (fl : list (Finding.t float))
  : Py.dict Z :=
  map (fun s => (Severity.value s, base s + number_of s fl)) Severity.members.

Lemma counts_same (base1 base2 : Severity.t -> Z) (fl1 fl2 : list (Finding.t float)) :
  (forall s, base1 s + number_of s fl1 = base2 s + number_of s fl2) ->
  counts_of base1 fl1 = counts_of base2 fl2.
Proof.
  intros H. unfold counts_of. apply map_ext. intros s. f_equal. apply H.
Qed.

Lemma number_of_cons s f fl :
  number_of s (f :: fl)
  = (if is_severity s f then 1 else 0) + number_of s fl.
Proof.
  unfold number_of. cbn [filter]. destruct (is_severity s f);
    [cbn [List.length]; rewrite Nat2Z.inj_succ|]; lia.
Qed.

Lemma count_findings fl :
  forall base,
    fold_left (@cli.count_finding float) fl (Some (counts_of base []))
    = Some (counts_of base fl).
Proof.
  induction fl as [|f rest IH]; intros base; cbn [fold_left]; [reflexivity|].
  set (base' := fun s => base s + (if is_severity s f then 1 else 0)).
  assert (cli.count_finding (Some (counts_of base [])) f
          = Some (counts_of base' [])) as ->.
  { unfold cli.count_finding, counts_of, base', number_of, is_severity.
    destruct (Finding.severity f); simpl; f_equal;
      repeat (f_equal; [f_equal; lia|]); f_equal; f_equal; lia. }
  rewrite IH. f_equal. apply counts_same. intros s. unfold base'.
  rewrite number_of_cons. lia.
Qed.

Lemma count_results (results : list (AuditResult.t float)) :
  forall base,
    fold_left (fun counts result =>
                 fold_left (@cli.count_finding float)
                           (AuditResult.findings result) counts)
              results (Some (counts_of base []))
    = Some (counts_of base (SARIFReporter.all_findings_of results)).
Proof.
  induction results as [|result rest IH]; intros base; cbn [fold_left];
    [reflexivity|].
  rewrite count_findings.
  set (base' := fun s => base s + number_of s (AuditResult.findings result)).
  assert (counts_of base (AuditResult.findings result) = counts_of base' [])
    as ->.
  { apply counts_same. intros s. unfold base', number_of. simpl. lia. }
  rewrite IH. f_equal. apply counts_same. intros s.
  unfold base', number_of, SARIFReporter.all_findings_of. cbn [flat_map].
  rewrite filter_app, length_app. lia.
Qed.

Lemma severity_counts_spec (results : list (AuditResult.t float)) :
  cli.severity_counts results
  = Some (counts_of (fun _ => 0) (SARIFReporter.all_findings_of results)).
Proof.
  unfold cli.severity_counts.
  change (@cli.initial_counts) with (counts_of (fun _ => 0) []).
  apply count_results.
Qed.

Lemma number_of_total (fl : list (Finding.t float)) :
  number_of Severity.CRITICAL fl + number_of Severity.HIGH fl
  + number_of Severity.MEDIUM fl + number_of Severity.LOW fl
  + number_of Severity.INFO fl
  = Z.of_nat (List.length fl).
Proof.
  induction fl as [|f rest IH]; [reflexivity|].
  rewrite !number_of_cons. cbn [List.length]. rewrite Nat2Z.inj_succ.
  unfold is_severity. destruct (Finding.severity f); lia.
Qed.

Lemma number_of_nonneg s (fl : list (Finding.t float)) : 0 <= number_of s fl.
Proof. unfold number_of. lia. Qed.

Lemma number_of_positive s (fl : list (Finding.t float)) :
  0 < number_of s fl <-> exists f, In f fl /\ Finding.severity f = s.
Proof.
  unfold number_of. split.
  - intros H. destruct (filter (is_severity s) fl) as [|f r] eqn:E;
      [simpl in H; lia|].
    assert (In f (filter (is_severity s) fl)) as Hin by (rewrite E; now left).
    apply filter_In in Hin. destruct Hin as [Hin Hs]. exists f.
    split; [exact Hin|]. unfold is_severity in Hs.
    destruct s, (Finding.severity f); congruence.
  - intros (f & Hin & Hs).
    assert (In f (filter (is_severity s) fl)) as Hf.
    { apply filter_In. split; [exact Hin|]. unfold is_severity.
      rewrite Hs. now destruct s. }
    destruct (filter (is_severity s) fl); [destruct Hf | simpl; lia].
Qed.

End Tally.

End TallyFacts.

Module ReportPaths.
Import json.

Definition results_path : list step := [Key "runs"; Idx 0; Key "results"].
Definition artifacts_path : list step := [Key "runs"; Idx 0; Key "artifacts"].
Definition rules_path : list step :=
  [Key "runs"; Idx 0; Key "tool"; Key "driver"; Key "rules"].
Definition artifact_location : list step :=
  [Key "locations"; Idx 0; Key "physicalLocation"; Key "artifactLocation"].
Definition region : list step :=
  [Key "locations"; Idx 0; Key "physicalLocation"; Key "region"].
Definition replacement : list step :=
  [Key "fixes"; Idx 0; Key "artifactChanges"; Idx 0; Key "replacements"; Idx 0].

Lemma NoDup_map_injective {A B : Type} (g : A -> B) (l : list A) :
  (forall x y, g x = g y -> x = y) -> NoDup l -> NoDup (map g l).
Proof.
  intros Hinj. induction 1 as [|x l Hx _ IH]; simpl; constructor; [|exact IH].
  intros Hin. apply in_map_iff in Hin. destruct Hin as (y & Hy & Hin).
  apply Hinj in Hy. now subst.
Qed.

End ReportPaths.

(** X18. [generate] always returns a document (no subscript in it can
    fail).  Its results are the findings of all audit results, one
    each and in order; the artifacts are distinct and each stems from
    a finding; the artifact index written into the result of a finding
    is the position, in the artifacts array, of the entry that carries
    the finding's relative URI; the region carries its lines. *)
Theorem generate_indexes_artifacts
        (float : Type) (results : list (AuditResult.t float))
        (target_dir : string)
        (remediations : option (list (Remediation.t float))) :
  exists sarif rs arts,
    SARIFReporter.generate results target_dir remediations = Some sarif
    /\ json.lookup ReportPaths.results_path sarif = Some (json.List rs)
    /\ json.lookup ReportPaths.artifacts_path sarif = Some (json.List arts)
    /\ List.length rs = List.length (SARIFReporter.all_findings_of results)
    /\ NoDup arts
    /\ (forall a, In a arts ->
                  exists f, In f (SARIFReporter.all_findings_of results)
                            /\ json.lookup [json.Key "location"; json.Key "uri"] a
                               = Some (json.Str (SARIFReporter._relative_uri
                                                   (Finding.file_path f)
                                                   (Path.of_str target_dir))))
    /\ forall k f,
        nth_error (SARIFReporter.all_findings_of results) k = Some f ->
        exists r i a,
          nth_error rs k = Some r
          /\ json.lookup ReportPaths.artifact_location r
             = Some (json.Dict
                       [("uri", json.Str (SARIFReporter._relative_uri
                                            (Finding.file_path f)
                                            (Path.of_str target_dir)));
                        ("uriBaseId", json.Str "%SRCROOT%");
                        ("index", json.Int i)])
          /\ 0 <= i
          /\ nth_error arts (Z.to_nat i) = Some a
          /\ json.lookup [json.Key "location"; json.Key "uri"] a
             = Some (json.Str (SARIFReporter._relative_uri
                                 (Finding.file_path f) (Path.of_str target_dir)))
          /\ json.lookup ReportPaths.region r
             = Some (json.Dict [("startLine", json.Int (Finding.start_line f));
                                ("endLine", json.Int (Finding.end_line f))]).
Proof.
  destruct (ReportFacts.generate_spec results target_dir remediations)
    as (rs & Hgen & Hall).
  destruct (ReportFacts.artifact_uris_numbered
              (SARIFReporter.all_findings_of results) (Path.of_str target_dir))
    as (Hnum & _ & Hkeys).
  set (uris := SARIFReporter.artifact_uris_of
                 (SARIFReporter.all_findings_of results) (Path.of_str target_dir))
    in *.
  set (entry := fun uri : string =>
                  json.Dict [("location",
                              json.Dict [("uri", @json.Str float uri);
                                         ("uriBaseId", json.Str "%SRCROOT%")])]).
  eexists. exists rs, (map entry (Py.keys uris)).
  split; [exact Hgen|]. split; [reflexivity|]. split; [reflexivity|].
  split; [symmetry; exact (Forall2_length Hall)|]. split.
  { apply ReportPaths.NoDup_map_injective.
    - intros x y H. unfold entry in H. congruence.
    - now apply ReportFacts.numbered_NoDup. }
  split.
  { intros a Ha. apply in_map_iff in Ha. destruct Ha as (uri & <- & Huri).
    destruct (Hkeys uri Huri) as (f & Hf & ->). exists f. split; [exact Hf|].
    reflexivity. }
  intros k f Hk.
  destruct (ReportFacts.Forall2_nth Hall k Hk) as (r & Hr & Hconv).
  destruct (ReportFacts.finding_result_spec _ _ _ _ Hconv)
    as (i & rule & index & _ & _ & _ & Hget & _ & _ & _ & Hloc & Hreg & _).
  destruct (ReportFacts.numbered_get _ Hnum Hget) as [Hpos Hnth].
  exists r, index, (entry (ReportFacts.rel_of (Path.of_str target_dir) f)).
  split; [exact Hr|]. split; [exact Hloc|]. split; [exact Hpos|].
  split; [|split; [reflexivity | exact Hreg]].
  rewrite nth_error_map. fold uris in Hnth. now rewrite Hnth.
Qed.

(** X19. In a report, the rule named by the result of a finding is the
    rule of the finding's vulnerability type: [ruleIndex] is its
    position in [_RULES] and in the [rules] array of the driver,
    [ruleId] is its id, and the level is that of the finding's
    severity.  No vulnerability type lacks a rule. *)
Theorem generate_names_the_rule
        (float : Type) (results : list (AuditResult.t float))
        (target_dir : string)
        (remediations : option (list (Remediation.t float))) :
  exists sarif rs rules,
    SARIFReporter.generate results target_dir remediations = Some sarif
    /\ json.lookup ReportPaths.results_path sarif = Some (json.List rs)
    /\ json.lookup ReportPaths.rules_path sarif = Some (json.List rules)
    /\ forall k f,
        nth_error (SARIFReporter.all_findings_of results) k = Some f ->
        exists r i rule entry,
          nth_error rs k = Some r
          /\ json.field "ruleIndex" r = Some (json.Int i)
          /\ 0 <= i
          /\ nth_error SARIFReporter._RULES (Z.to_nat i) = Some rule
          /\ SARIFReporter.vuln_type rule = Finding.vuln_type f
          /\ json.field "ruleId" r = Some (json.Str (SARIFReporter.id rule))
          /\ nth_error rules (Z.to_nat i) = Some entry
          /\ json.field "id" entry = Some (json.Str (SARIFReporter.id rule))
          /\ json.field "level" r
             = Some (json.Str (SARIFReporter._severity_to_level
                                 (Finding.severity f))).
Proof.
  destruct (ReportFacts.generate_spec results target_dir remediations)
    as (rs & Hgen & Hall).
  eexists. exists rs, (SARIFReporter._build_rules_array float).
  split; [exact Hgen|]. split; [reflexivity|]. split; [reflexivity|].
  intros k f Hk.
  destruct (ReportFacts.Forall2_nth Hall k Hk) as (r & Hr & Hconv).
  destruct (ReportFacts.finding_result_spec _ _ _ _ Hconv)
    as (i & rule & index & Hi & Hnth & Hv & _ & Hid & Hidx & Hlevel & _).
  destruct (ReportFacts.rule_of_vuln_type (Finding.vuln_type f))
    as (i' & rule' & Hi' & Hpos & _).
  assert (i' = i) as -> by congruence.
  unfold SARIFReporter._build_rules_array.
  eexists r, i, rule, _.
  split; [exact Hr|]. split; [exact Hidx|]. split; [exact Hpos|].
  split; [exact Hnth|]. split; [exact Hv|]. split; [exact Hid|].
  split; [rewrite nth_error_map, Hnth; reflexivity|].
  split; [reflexivity | exact Hlevel].
Qed.

(** X20. A result of the report carries [fixes] exactly when some
    remediation has the file path and the title of its finding; the
    fix then comes from the last such remediation of the list: its
    explanation, and its diff as the replacement of the finding's own
    lines.  Without a list of remediations no result carries fixes. *)
Theorem generate_attaches_last_fix
        (float : Type) (results : list (AuditResult.t float))
        (target_dir : string) (rems : list (Remediation.t float)) :
  exists sarif rs plain,
    SARIFReporter.generate results target_dir (Some rems) = Some sarif
    /\ json.lookup ReportPaths.results_path sarif = Some (json.List rs)
    /\ SARIFReporter.generate results target_dir None = Some plain
    /\ (forall r, json.lookup ReportPaths.results_path plain = Some (json.List r) ->
                  forall x, In x r -> json.field "fixes" x = None)
    /\ forall k f,
        nth_error (SARIFReporter.all_findings_of results) k = Some f ->
        exists r,
          nth_error rs k = Some r
          /\ (json.field "fixes" r = None
              <-> forall rem, In rem rems -> ~ FixFacts.made_for rem f)
          /\ forall earlier rem later,
              rems = earlier ++ rem :: later ->
              FixFacts.made_for rem f ->
              (forall x, In x later -> ~ FixFacts.made_for x f) ->
              json.lookup [json.Key "fixes"; json.Idx 0; json.Key "description";
                           json.Key "text"] r
              = Some (json.Str (Remediation.explanation rem))
              /\ json.lookup (ReportPaths.replacement
                                ++ [json.Key "insertedContent"; json.Key "text"]) r
                 = Some (json.Str (Remediation.diff rem))
              /\ json.lookup (ReportPaths.replacement ++ [json.Key "deletedRegion"]) r
                 = Some (json.Dict
                           [("startLine", json.Int (Finding.start_line f));
                            ("endLine", json.Int (Finding.end_line f))]).
Proof.
  destruct (ReportFacts.generate_spec results target_dir (Some rems))
    as (rs & Hgen & Hall).
  destruct (ReportFacts.generate_spec results target_dir (@None (list (Remediation.t float))))
    as (rs0 & Hgen0 & Hall0).
  eexists. exists rs. eexists.
  split; [exact Hgen|]. split; [reflexivity|]. split; [exact Hgen0|]. split.
  { intros r [= <-] x Hx.
    destruct (ReportFacts.Forall2_In_r Hall0 x Hx) as (f & _ & Hconv).
    destruct (ReportFacts.finding_result_spec _ _ _ _ Hconv)
      as (i & rule & index & _ & _ & _ & _ & _ & _ & _ & _ & _ & Hfix).
    exact Hfix. }
  intros k f Hk.
  destruct (ReportFacts.Forall2_nth Hall k Hk) as (r & Hr & Hconv).
  pose proof (FixFacts.fixes_of_result _ _ _ _ Hconv) as Hfix.
  exists r. split; [exact Hr|]. split.
  - split.
    + intros Hnone rem Hin Hmade.
      destruct (find (fun rem0 => SARIFReporter.key_eqb
                                    (Finding.file_path f, Finding.title f)
                                    (FixFacts.key_of rem0)) (rev rems))
        as [hit|] eqn:Efind.
      * rewrite Hnone in Hfix. discriminate Hfix.
      * apply in_rev in Hin. pose proof (find_none _ _ Efind rem Hin) as Hno.
        apply FixFacts.made_for_key in Hmade. cbv beta in Hno. congruence.
    + intros Hnone.
      destruct (find (fun rem0 => SARIFReporter.key_eqb
                                    (Finding.file_path f, Finding.title f)
                                    (FixFacts.key_of rem0)) (rev rems))
        as [hit|] eqn:Efind; [|exact Hfix].
      apply find_some in Efind. destruct Efind as [Hin Hkey].
      apply in_rev in Hin. apply FixFacts.made_for_key in Hkey.
      now destruct (Hnone hit Hin).
  - intros earlier rem later -> Hmade Hlater.
    rewrite (FixFacts.find_last_made_for _ _ Hmade Hlater) in Hfix.
    unfold ReportPaths.replacement. cbn [app json.lookup].
    rewrite Hfix. cbn. repeat split; reflexivity.
Qed.

(** X21. After the report is written, [scan] counts the findings by
    severity without ever missing a key; the counts add up to the
    number of findings; the exit code is 1 exactly when some finding
    is critical or high, which is exactly when the report holds a
    result of level [error], and 0 otherwise. *)
Theorem exit_code_follows_error_level
        (float : Type) (results : list (AuditResult.t float))
        (target_dir : string)
        (remediations : option (list (Remediation.t float))) :
  exists counts sarif rs,
    cli.severity_counts results = Some counts
    /\ cli.total_findings counts
       = Z.of_nat (List.length (SARIFReporter.all_findings_of results))
    /\ SARIFReporter.generate results target_dir remediations = Some sarif
    /\ json.lookup ReportPaths.results_path sarif = Some (json.List rs)
    /\ (cli.exit_code results = Some 1 \/ cli.exit_code results = Some 0)
    /\ (cli.exit_code results = Some 1
        <-> exists f, In f (SARIFReporter.all_findings_of results)
                      /\ (Finding.severity f = Severity.CRITICAL
                          \/ Finding.severity f = Severity.HIGH))
    /\ (cli.exit_code results = Some 1
        <-> exists r, In r rs /\ json.field "level" r = Some (json.Str "error")).
Proof.
  destruct (ReportFacts.generate_spec results target_dir remediations)
    as (rs & Hgen & Hall).
  pose proof (TallyFacts.severity_counts_spec results) as Hcounts.
  set (fl := SARIFReporter.all_findings_of results) in *.
  pose proof (TallyFacts.number_of_total fl) as Htotal.
  pose proof (TallyFacts.number_of_nonneg Severity.CRITICAL fl) as Hc.
  pose proof (TallyFacts.number_of_nonneg Severity.HIGH fl) as Hh.
  assert (cli.exit_code results
          = if TallyFacts.number_of Severity.CRITICAL fl
               + TallyFacts.number_of Severity.HIGH fl >? 0
            then Some 1 else Some 0) as Hexit.
  { unfold cli.exit_code. rewrite Hcounts. reflexivity. }
  assert (cli.exit_code results = Some 1
          <-> exists f, In f fl /\ (Finding.severity f = Severity.CRITICAL
                                    \/ Finding.severity f = Severity.HIGH))
    as Hiff.
  { rewrite Hexit.
    destruct (Z.gtb_spec (TallyFacts.number_of Severity.CRITICAL fl
                          + TallyFacts.number_of Severity.HIGH fl) 0) as [Hgt|Hle].
    - split; [intros _ | reflexivity].
      destruct (Z.lt_ge_cases 0 (TallyFacts.number_of Severity.CRITICAL fl))
        as [H|H].
      + apply TallyFacts.number_of_positive in H. destruct H as (f & Hf & Hs).
        exists f. auto.
      + assert (0 < TallyFacts.number_of Severity.HIGH fl) as H' by lia.
        apply TallyFacts.number_of_positive in H'. destruct H' as (f & Hf & Hs).
        exists f. auto.
    - split; [discriminate|]. intros (f & Hf & [Hs|Hs]).
      + assert (0 < TallyFacts.number_of Severity.CRITICAL fl)
          by (apply TallyFacts.number_of_positive; eauto). lia.
      + assert (0 < TallyFacts.number_of Severity.HIGH fl)
          by (apply TallyFacts.number_of_positive; eauto). lia. }
  eexists. eexists. exists rs.
  split; [exact Hcounts|]. split.
  { unfold cli.total_findings, TallyFacts.counts_of. simpl. lia. }
  split; [exact Hgen|]. split; [reflexivity|]. split.
  { rewrite Hexit. destruct (_ >? 0); auto. }
  split; [exact Hiff|].
  rewrite Hiff. split.
  - intros (f & Hf & Hs). apply In_nth_error in Hf. destruct Hf as [k Hk].
    destruct (ReportFacts.Forall2_nth Hall k Hk) as (r & Hr & Hconv).
    destruct (ReportFacts.finding_result_spec _ _ _ _ Hconv)
      as (i & rule & index & _ & _ & _ & _ & _ & _ & Hlevel & _).
    exists r. split; [exact (nth_error_In _ _ Hr)|]. rewrite Hlevel.
    destruct Hs as [-> | ->]; reflexivity.
  - intros (r & Hr & Hlevel).
    destruct (ReportFacts.Forall2_In_r Hall r Hr) as (f & Hf & Hconv).
    destruct (ReportFacts.finding_result_spec _ _ _ _ Hconv)
      as (i & rule & index & _ & _ & _ & _ & _ & _ & Hlevel' & _).
    exists f. split; [exact Hf|]. rewrite Hlevel in Hlevel'.
    destruct (Finding.severity f); auto; discriminate Hlevel'.
Qed.

Module TextFacts.
Import Text.

(** [s] is made of whitespace only. *)
Fixpoint blank (s : string) : bool :=
  match s with
  | EmptyString => true
  | String c r => isspace c && blank r
  end.

Lemma append_nil_r (s : string) : (s ++ "")%string = s.
Proof. induction s as [|c r IH]; simpl; [reflexivity | now rewrite IH]. Qed.

Lemma length_append (a b : string) :
  String.length (a ++ b)%string = (String.length a + String.length b)%nat.
Proof. induction a as [|c r IH]; simpl; [reflexivity | now rewrite IH]. Qed.

Lemma contains_char_append c (a b : string) :
  Py.contains_char c (a ++ b)%string
  = Py.contains_char c a || Py.contains_char c b.
Proof.
  induction a as [|x r IH]; simpl; [reflexivity|].
  now rewrite IH, orb_assoc.
Qed.

Lemma lstrip_blank (s : string) : blank s = true -> lstrip s = "".
Proof.
  induction s as [|c r IH]; simpl; [reflexivity|].
  destruct (isspace c); simpl; [exact IH | discriminate].
Qed.

Lemma lstrip_append (a b : string) :
  lstrip (a ++ b)%string
  = if blank a then lstrip b else (lstrip a ++ b)%string.
Proof.
  induction a as [|c r IH]; simpl; [reflexivity|].
  destruct (isspace c); simpl; [exact IH | reflexivity].
Qed.

Lemma rstrip_blank (s : string) : blank s = true -> rstrip s = "".
Proof.
  induction s as [|c r IH]; simpl; [reflexivity|].
  destruct (isspace c); simpl; [|discriminate].
  intros H. now rewrite (IH H).
Qed.

Lemma rstrip_nonempty (s : string) : blank s = false -> rstrip s <> "".
Proof.
  induction s as [|c r IH]; simpl; [discriminate|].
  destruct (isspace c) eqn:Ec; simpl.
  - intros H. specialize (IH H). destruct (rstrip r); [congruence | discriminate].
  - intros _. destruct (rstrip r); discriminate.
Qed.

Lemma rstrip_append_blank (a b : string) :
  blank b = true -> rstrip (a ++ b)%string = rstrip a.
Proof.
  intros Hb. induction a as [|c r IH]; simpl.
  - now apply rstrip_blank.
  - now rewrite IH.
Qed.

Lemma blank_append (a b : string) :
  blank (a ++ b)%string = blank a && blank b.
Proof.
  induction a as [|c r IH]; simpl; [reflexivity|].
  now rewrite IH, andb_assoc.
Qed.

Lemma blank_lstrip (s : string) : blank s = false -> blank (lstrip s) = false.
Proof.
  induction s as [|c r IH]; simpl; [discriminate|].
  destruct (isspace c) eqn:Ec; simpl; [exact IH|].
  intros _. now rewrite Ec.
Qed.

(** Stripping does not see whitespace added at either end. *)
Lemma strip_padded (before s after : string) :
  blank before = true -> blank after = true ->
  strip (before ++ s ++ after)%string = strip s.
Proof.
  intros Hb Ha. unfold strip. rewrite lstrip_append, Hb, lstrip_append.
  destruct (blank s) eqn:Es.
  - rewrite (lstrip_blank _ Ha), (lstrip_blank _ Es). reflexivity.
  - now rewrite rstrip_append_blank.
Qed.

Lemma rstrip_ends (s : string) (c : ascii) :
  isspace c = false -> rstrip (s ++ String c "")%string = (s ++ String c "")%string.
Proof.
  intros Hc. induction s as [|a r IH]; simpl.
  - now rewrite Hc.
  - rewrite IH. destruct r; reflexivity.
Qed.

(** A text that starts and ends with a character that is not
    whitespace is its own [strip]. *)
Lemma strip_tight (c d : ascii) (s : string) :
  isspace c = false -> isspace d = false ->
  strip (String c (s ++ String d ""))%string = String c (s ++ String d "")%string.
Proof.
  intros Hc Hd. unfold strip. cbn [lstrip]. rewrite Hc.
  change (String c (s ++ String d ""))%string
    with ((String c s) ++ String d "")%string.
  now apply rstrip_ends.
Qed.

Lemma index_None c (s : string) :
  index c s = None <-> Py.contains_char c s = false.
Proof.
  induction s as [|a r IH]; simpl; [tauto|].
  destruct (Ascii.eqb a c); simpl; [split; discriminate|].
  destruct (index c r); [split; [discriminate | intros H; apply IH in H; discriminate]|].
  tauto.
Qed.

Lemma index_append c (a r : string) :
  Py.contains_char c a = false ->
  index c (a ++ String c r)%string = Some (String.length a).
Proof.
  induction a as [|x a' IH]; simpl.
  - intros _. now rewrite Ascii.eqb_refl.
  - destruct (Ascii.eqb x c); simpl; [discriminate|].
    intros H. now rewrite (IH H).
Qed.

Lemma substring_all (s : string) : substring 0 (String.length s) s = s.
Proof. induction s as [|c r IH]; simpl; [reflexivity | now rewrite IH]. Qed.

Lemma substring_head (a b : string) :
  substring 0 (String.length a) (a ++ b)%string = a.
Proof.
  induction a as [|c r IH]; simpl.
  - now destruct b.
  - now rewrite IH.
Qed.

Lemma substring_tail (a b : string) :
  substring (String.length a) (String.length b) (a ++ b)%string = b.
Proof.
  induction a as [|c r IH]; simpl; [apply substring_all | exact IH].
Qed.

Lemma from_append (a b : string) : from (String.length a) (a ++ b)%string = b.
Proof.
  unfold from. rewrite length_append.
  replace (String.length a + String.length b - String.length a)%nat
    with (String.length b) by lia.
  apply substring_tail.
Qed.

Lemma drop_last_append (a b : string) :
  drop_last (String.length b) (a ++ b)%string = a.
Proof.
  unfold drop_last. rewrite length_append.
  replace (String.length a + String.length b - String.length b)%nat
    with (String.length a) by lia.
  apply substring_head.
Qed.

Lemma endswith_append (a sfx : string) : endswith sfx (a ++ sfx)%string = true.
Proof.
  unfold endswith. rewrite length_append.
  replace (String.length a + String.length sfx - String.length sfx)%nat
    with (String.length a) by lia.
  rewrite from_append, String.eqb_refl, andb_true_r.
  apply Nat.leb_le. lia.
Qed.

End TextFacts.

Module FenceFacts.
Import llm.

Lemma strip_fences_throws (raw_text : string) (e : raised) :
  strip_fences raw_text = Throw e
  <-> e = ValueError "substring not found"
      /\ String.prefix fence (Text.strip raw_text) = true
      /\ Py.contains_char "010" (Text.strip raw_text) = false.
Proof.
  unfold strip_fences.
  destruct (String.prefix fence (Text.strip raw_text)) eqn:Ep.
  - destruct (Text.index "010" (Text.strip raw_text)) as [i|] eqn:Ei.
    + assert (Py.contains_char "010" (Text.strip raw_text) <> false) as Hc.
      { intros Hc. apply TextFacts.index_None in Hc. congruence. }
      destruct (Text.endswith fence _); split;
        solve [discriminate | intros (_ & _ & H); now destruct Hc].
    + apply TextFacts.index_None in Ei. split.
      * intros [= <-]. auto.
      * intros (-> & _). reflexivity.
  - split; [discriminate | intros (_ & H & _); discriminate H].
Qed.

End FenceFacts.

(** X22. [audit_route] returns what the reply parses to, and turns an
    API error, a JSON decoding error and a validation error, raised by
    the call of the model or by the parsing of its reply, into a result
    without findings under the route's label, with a reasoning that
    names the error; so none of the three ever leaves it, and any other
    exception does.  A reply whose text, once stripped, opens with a
    fence and has no line break makes [str.index] raise a plain
    [ValueError], which no handler catches: it leaves [audit_route]
    whatever the text would have parsed to. *)
Theorem audit_route_escapes
        (float : Type) (ask : string -> llm.outcome (list llm.block))
        (parse : string -> llm.outcome (AuditResult.t float))
        (route : RouteInfo.t) (context : string) :
  let label :=
    (RouteInfo.http_method route ++ " " ++ RouteInfo.route_pattern route)%string in
  let handled (e : llm.raised) : llm.outcome (AuditResult.t float) :=
    match e with
    | llm.APIError msg =>
        llm.Return (AuditResult.mk label [] ("API error: " ++ msg)%string)
    | llm.JSONDecodeError msg =>
        llm.Return (AuditResult.mk label []
                      ("Failed to parse LLM response as JSON: " ++ msg)%string)
    | llm.ValidationError msg =>
        llm.Return (AuditResult.mk label []
                      ("LLM response did not match expected schema: " ++ msg)%string)
    | other => llm.Throw other
    end in
  (forall e, Analyzer.audit_route ask parse route context = llm.Throw e ->
             (exists msg, e = llm.ValueError msg)
             \/ (exists kind msg, e = llm.Exception kind msg))
  /\ (forall msg,
         ask (Analyzer._build_user_prompt route context)
         = llm.Throw (llm.APIError msg) ->
         Analyzer.audit_route ask parse route context
         = llm.Return (AuditResult.mk (cli.route_label route) []
                                      ("API error: " ++ msg)%string))
  /\ (forall content,
         ask (Analyzer._build_user_prompt route context) = llm.Return content ->
         String.prefix llm.fence (Text.strip (llm.first_text content)) = true ->
         Py.contains_char "010" (Text.strip (llm.first_text content)) = false ->
         Analyzer.audit_route ask parse route context
         = llm.Throw (llm.ValueError "substring not found"))
  /\ (forall e,
         ask (Analyzer._build_user_prompt route context) = llm.Throw e ->
         Analyzer.audit_route ask parse route context = handled e)
  /\ (forall content raw_text,
         ask (Analyzer._build_user_prompt route context) = llm.Return content ->
         llm.strip_fences (llm.first_text content) = llm.Return raw_text ->
         (forall result,
             parse raw_text = llm.Return result ->
             Analyzer.audit_route ask parse route context = llm.Return result)
         /\ (forall e,
                parse raw_text = llm.Throw e ->
                Analyzer.audit_route ask parse route context = handled e)).
Proof.
  intros label handled. split; [|split; [|split; [|split]]].
  - intros e. unfold Analyzer.audit_route, llm.handle.
    destruct (llm.and_then _ _) as [a|[m|m|m|m|kind m]]; try discriminate;
      intros [= <-]; eauto.
  - intros msg Hask. unfold Analyzer.audit_route. rewrite Hask. reflexivity.
  - intros content Hask Hp Hn. unfold Analyzer.audit_route. rewrite Hask.
    cbn [llm.and_then].
    assert (llm.strip_fences (llm.first_text content)
            = llm.Throw (llm.ValueError "substring not found")) as ->
        by (apply FenceFacts.strip_fences_throws; auto).
    reflexivity.
  - intros e Hask. unfold Analyzer.audit_route. rewrite Hask.
    destruct e; reflexivity.
  - intros content raw_text Hask Hraw. unfold Analyzer.audit_route.
    rewrite Hask. cbn [llm.and_then]. rewrite Hraw. cbn [llm.and_then].
    split.
    + intros result ->. reflexivity.
    + intros e ->. destruct e; reflexivity.
Qed.

(** X23. A reply wrapped in a fence is unwrapped: whatever whitespace
    surrounds it and whatever follows the opening fence on its line,
    the text between the first line break and the closing fence is
    returned, stripped.  A reply that does not open with a fence is
    returned as it is, whitespace included. *)
Theorem strip_fences_unwraps (before lang body after : string) :
  TextFacts.blank before = true ->
  TextFacts.blank after = true ->
  Py.contains_char "010" lang = false ->
  llm.strip_fences
    (before ++ (llm.fence ++ lang ++ String "010" (body ++ String "010" llm.fence))
       ++ after)%string
  = llm.Return (Text.strip body)
  /\ (forall raw_text,
         String.prefix llm.fence (Text.strip raw_text) = false ->
         llm.strip_fences raw_text = llm.Return raw_text).
Proof.
  intros Hb Ha Hl. split.
  - unfold llm.strip_fences. rewrite TextFacts.strip_padded by assumption.
    assert (Text.strip (llm.fence ++ lang
                          ++ String "010" (body ++ String "010" llm.fence))
            = (llm.fence ++ lang
                 ++ String "010" (body ++ String "010" llm.fence))%string) as ->.
    { replace (llm.fence ++ lang ++ String "010" (body ++ String "010" llm.fence))%string
        with (String "`" (("``" ++ lang ++ String "010" (body ++ String "010" "``"))
                            ++ String "`" ""))%string.
      - apply TextFacts.strip_tight; reflexivity.
      - unfold llm.fence. cbn [append]. f_equal. f_equal. f_equal.
        rewrite !Assembly.append_assoc. cbn [append]. f_equal. f_equal.
        rewrite Assembly.append_assoc. reflexivity. }
    assert (String.prefix llm.fence
              (llm.fence ++ lang ++ String "010" (body ++ String "010" llm.fence))
            = true) as ->.
    { unfold llm.fence. cbn. now destruct (lang ++ _)%string. }
    rewrite <- Assembly.append_assoc.
    rewrite TextFacts.index_append.
    2:{ rewrite TextFacts.contains_char_append, Hl. reflexivity. }
    replace (String.length (llm.fence ++ lang) + 1)%nat
      with (String.length ((llm.fence ++ lang) ++ String "010" "")).
    2:{ rewrite TextFacts.length_append. reflexivity. }
    replace ((llm.fence ++ lang) ++ String "010" (body ++ String "010" llm.fence))%string
      with (((llm.fence ++ lang) ++ String "010" "")
              ++ (body ++ String "010" llm.fence))%string.
    2:{ rewrite Assembly.append_assoc. reflexivity. }
    rewrite TextFacts.from_append.
    replace (body ++ String "010" llm.fence)%string
      with ((body ++ String "010" "") ++ llm.fence)%string.
    2:{ rewrite Assembly.append_assoc. reflexivity. }
    rewrite TextFacts.endswith_append.
    change 3%nat with (String.length llm.fence).
    rewrite TextFacts.drop_last_append.
    f_equal.
    rewrite <- (TextFacts.strip_padded "" body (String "010" "")) by reflexivity.
    reflexivity.
  - intros raw_text Hp. unfold llm.strip_fences. now rewrite Hp.
Qed.

(** X24. [remediate] returns [None] on an API error and on a parsed
    reply whose confidence is out of bounds, and never lets one of the
    three handled exceptions out.  A remediation that it returns
    carries the title and the file path of its finding, which is the
    key under which the report looks fixes up: in a report made with
    it, every finding of that file and title gets its diff, at that
    finding's own lines.  As in [audit_route], a one-line fenced reply
    makes it raise a plain [ValueError]. *)
Theorem remediate_outcomes
        (float : Type) (ask : string -> llm.outcome (list llm.block))
        (parse : string -> llm.outcome (Remediator._RemediationResponse float))
        (in_bounds : float -> bool)
        (finding : Finding.t float) (route : RouteInfo.t)
        (file_content route_context : string) :
  (forall e,
      Remediator.remediate ask parse in_bounds finding route file_content
                           route_context
      = llm.Throw e ->
      (exists msg, e = llm.ValueError msg)
      \/ (exists kind msg, e = llm.Exception kind msg))
  /\ (forall msg,
         ask (Remediator._build_user_prompt file_content finding route_context)
         = llm.Throw (llm.APIError msg) ->
         Remediator.remediate ask parse in_bounds finding route file_content
                              route_context
         = llm.Return None)
  /\ (forall content raw_text parsed,
         ask (Remediator._build_user_prompt file_content finding route_context)
         = llm.Return content ->
         llm.strip_fences (llm.first_text content) = llm.Return raw_text ->
         parse raw_text = llm.Return parsed ->
         in_bounds (Remediator.confidence parsed) = false ->
         Remediator.remediate ask parse in_bounds finding route file_content
                              route_context
         = llm.Return None)
  /\ (forall content,
         ask (Remediator._build_user_prompt file_content finding route_context)
         = llm.Return content ->
         String.prefix llm.fence (Text.strip (llm.first_text content)) = true ->
         Py.contains_char "010" (Text.strip (llm.first_text content)) = false ->
         Remediator.remediate ask parse in_bounds finding route file_content
                              route_context
         = llm.Throw (llm.ValueError "substring not found"))
  /\ (forall rem,
         Remediator.remediate ask parse in_bounds finding route file_content
                              route_context
         = llm.Return (Some rem) ->
         FixFacts.made_for rem finding
         /\ in_bounds (Remediation.confidence rem) = true
         /\ forall results target_dir k f,
             nth_error (SARIFReporter.all_findings_of results) k = Some f ->
             Finding.file_path f = Finding.file_path finding ->
             Finding.title f = Finding.title finding ->
             exists sarif rs r,
               SARIFReporter.generate results target_dir (Some [rem]) = Some sarif
               /\ json.lookup ReportPaths.results_path sarif = Some (json.List rs)
               /\ nth_error rs k = Some r
               /\ json.lookup (ReportPaths.replacement
                                 ++ [json.Key "insertedContent"; json.Key "text"]) r
                  = Some (json.Str (Remediation.diff rem))
               /\ json.lookup (ReportPaths.replacement
                                 ++ [json.Key "deletedRegion"]) r
                  = Some (json.Dict
                            [("startLine", json.Int (Finding.start_line f));
                             ("endLine", json.Int (Finding.end_line f))])).
Proof.
  split; [|split; [|split; [|split]]].
  - intros e. unfold Remediator.remediate, llm.handle.
    destruct (llm.and_then _ _) as [a|[m|m|m|m|kind m]]; try discriminate;
      intros [= <-]; eauto.
  - intros msg Hask. unfold Remediator.remediate. rewrite Hask. reflexivity.
  - intros content raw_text parsed Hask Hraw Hparse Hout.
    unfold Remediator.remediate. rewrite Hask. cbn [llm.and_then].
    rewrite Hraw. cbn [llm.and_then]. rewrite Hparse. cbn [llm.and_then].
    rewrite Hout. reflexivity.
  - intros content Hask Hp Hn. unfold Remediator.remediate. rewrite Hask.
    cbn [llm.and_then].
    assert (llm.strip_fences (llm.first_text content)
            = llm.Throw (llm.ValueError "substring not found")) as ->
        by (apply FenceFacts.strip_fences_throws; auto).
    reflexivity.
  - intros rem Hrem.
    assert (FixFacts.made_for rem finding
            /\ in_bounds (Remediation.confidence rem) = true) as [Hmade Hin].
    { unfold Remediator.remediate, llm.handle in Hrem.
      destruct (ask _) as [content|e]; cbn [llm.and_then] in Hrem.
      - destruct (llm.strip_fences _) as [raw_text|e]; cbn [llm.and_then] in Hrem.
        + destruct (parse raw_text) as [parsed|e]; cbn [llm.and_then] in Hrem.
          * destruct (in_bounds (Remediator.confidence parsed)) eqn:Eb;
              [|discriminate Hrem].
            injection Hrem as <-. split; [split; reflexivity | exact Eb].
          * destruct e; discriminate Hrem.
        + destruct e; discriminate Hrem.
      - destruct e; discriminate Hrem. }
    split; [exact Hmade|]. split; [exact Hin|].
    intros results target_dir k f Hk Hfile Htitle.
    destruct (ReportFacts.generate_spec results target_dir (Some [rem]))
      as (rs & Hgen & Hall).
    destruct (ReportFacts.Forall2_nth Hall k Hk) as (r & Hr & Hconv).
    pose proof (FixFacts.fixes_of_result _ _ _ _ Hconv) as Hfix.
    assert (FixFacts.made_for rem f) as Hf.
    { destruct Hmade as [H1 H2]. split; congruence. }
    change [rem] with ([] ++ rem :: []) in Hfix.
    rewrite (@FixFacts.find_last_made_for float f [] [] rem Hf) in Hfix
      by (intros x []).
    eexists. exists rs, r. split; [exact Hgen|]. split; [reflexivity|].
    split; [exact Hr|].
    unfold ReportPaths.replacement. cbn [app json.lookup].
    rewrite Hfix. cbn. split; reflexivity.
Qed.

Module NameFacts.

Lemma replace_char_gone (a b c : ascii) (s : string) :
  c <> b -> (c = a \/ Py.contains_char c s = false) ->
  Py.contains_char c (cli.replace_char a b s) = false.
Proof.
  intros Hb H. induction s as [|x r IH]; simpl; [reflexivity|].
  destruct (Ascii.eqb_spec x a) as [->|Hx].
  - destruct (Ascii.eqb_spec b c) as [->|_]; [now destruct Hb|].
    simpl. apply IH. destruct H as [H|H]; [now left|].
    simpl in H. apply orb_false_iff in H. tauto.
  - destruct (Ascii.eqb_spec x c) as [->|_]; simpl.
    + destruct H as [H|H]; [now destruct Hx|].
      simpl in H. now rewrite Ascii.eqb_refl in H.
    + apply IH. destruct H as [H|H]; [now left|].
      simpl in H. apply orb_false_iff in H. tauto.
Qed.

Lemma substring_keeps_absent (c : ascii) (n : nat) :
  forall s, Py.contains_char c s = false ->
            Py.contains_char c (substring 0 n s) = false.
Proof.
  induction n as [|n IH]; intros [|x r]; simpl; try reflexivity.
  intros H. apply orb_false_iff in H. destruct H as [-> H]. simpl. now apply IH.
Qed.

Lemma substring_length (n : nat) :
  forall s, (String.length (substring 0 n s) <= n)%nat.
Proof.
  induction n as [|n IH]; intros [|x r]; simpl; try lia.
  specialize (IH r). lia.
Qed.

(** A safe name has none of the three characters and at most sixty
    characters in all. *)
Lemma safe_name_clean (title : string) (c : ascii) :
  In c [" "; "/"; ":"]%char ->
  Py.contains_char c (cli.safe_name title) = false.
Proof.
  intros Hc. unfold cli.safe_name. apply substring_keeps_absent.
  simpl in Hc. destruct Hc as [<-|[<-|[<-|[]]]].
  - apply replace_char_gone; [discriminate|]. right.
    apply replace_char_gone; [discriminate|]. right.
    apply replace_char_gone; [discriminate | now left].
  - apply replace_char_gone; [discriminate|]. right.
    apply replace_char_gone; [discriminate | now left].
  - apply replace_char_gone; [discriminate | now left].
Qed.

Lemma uint_no_slash (d : Decimal.uint) :
  Py.contains_char "/" (NilEmpty.string_of_uint d) = false.
Proof. induction d; simpl; auto. Qed.

Lemma str_of_int_no_slash (n : Z) :
  Py.contains_char "/" (Py.str_of_int n) = false.
Proof.
  unfold Py.str_of_int, NilZero.string_of_int, NilZero.string_of_uint.
  destruct (Z.to_int n) as [d|d]; destruct d; simpl;
    try reflexivity; apply uint_no_slash.
Qed.

(** [Path(s)] for a name without a slash that is neither empty nor a
    dot: one relative component. *)
Lemma split_no_slash (s : string) :
  Py.contains_char "/" s = false -> Py.split "/" s = [s].
Proof.
  induction s as [|c r IH]; simpl; [reflexivity|].
  intros H. apply orb_false_iff in H. destruct H as [-> H].
  now rewrite (IH H).
Qed.

Lemma leading_no_slash (s : string) :
  Py.contains_char "/" s = false -> Py.leading "/" s = O.
Proof.
  destruct s as [|c r]; simpl; [reflexivity|].
  intros H. apply orb_false_iff in H. destruct H as [-> _]. reflexivity.
Qed.

Lemma of_str_name (s : string) :
  Py.contains_char "/" s = false -> (2 <= String.length s)%nat ->
  Path.of_str s = {| Path.root := ""; Path.parts := [s] |}.
Proof.
  intros Hs Hlen. unfold Path.of_str.
  rewrite (leading_no_slash _ Hs), (split_no_slash _ Hs).
  cbn [filter]. unfold Path.keep_part.
  destruct s as [|a [|b r]]; simpl in Hlen; try lia.
  assert (String.eqb (String a (String b r)) "" = false) as -> by reflexivity.
  assert (String.eqb (String a (String b r)) "." = false) as ->.
  { simpl. destruct (Ascii.eqb a "."); reflexivity. }
  reflexivity.
Qed.

Lemma replace_char_length (a b : ascii) (s : string) :
  String.length (cli.replace_char a b s) = String.length s.
Proof. induction s as [|x r IH]; simpl; [reflexivity | now rewrite IH]. Qed.

Lemma replace_char_get (a b : ascii) (s : string) :
  forall i, String.get i (cli.replace_char a b s)
            = option_map (fun c => if Ascii.eqb c a then b else c) (String.get i s).
Proof.
  induction s as [|x r IH]; intros i; simpl; [reflexivity|].
  destruct i as [|i]; [reflexivity | apply IH].
Qed.

Lemma substring_front_length (n : nat) :
  forall s, String.length (substring 0 n s) = Nat.min n (String.length s).
Proof.
  induction n as [|n IH]; intros [|x r]; simpl; try reflexivity.
  now rewrite IH.
Qed.

Lemma substring_front_get (n : nat) :
  forall s i, (i < n)%nat -> String.get i (substring 0 n s) = String.get i s.
Proof.
  induction n as [|n IH]; intros s i Hi; [lia|].
  destruct s as [|x r]; simpl; [reflexivity|].
  destruct i as [|i]; [reflexivity|]. apply IH. lia.
Qed.

(** What [safe_name] does to one character. *)
Definition safe_char (c : ascii) : ascii :=
  if Ascii.eqb c " " || Ascii.eqb c "/" || Ascii.eqb c ":" then "_"%char else c.

Lemma safe_name_get (title : string) (i : nat) (c : ascii) :
  (i < 60)%nat -> String.get i title = Some c ->
  String.get i (cli.safe_name title) = Some (safe_char c).
Proof.
  intros Hi Hc. unfold cli.safe_name.
  rewrite substring_front_get by exact Hi.
  rewrite !replace_char_get, Hc. cbn [option_map]. f_equal. unfold safe_char.
  destruct (Ascii.eqb_spec c " ") as [->|H1]; [reflexivity|].
  destruct (Ascii.eqb_spec c "/") as [->|H2]; [reflexivity|].
  destruct (Ascii.eqb_spec c ":") as [->|H3]; [reflexivity|].
  cbn [orb]. destruct (Ascii.eqb_spec c "/"); [contradiction|].
  destruct (Ascii.eqb_spec c ":"); [contradiction | reflexivity].
Qed.

Lemma safe_name_length (title : string) :
  String.length (cli.safe_name title) = Nat.min 60 (String.length title).
Proof.
  unfold cli.safe_name.
  now rewrite substring_front_length, !replace_char_length.
Qed.

End NameFacts.

(** X25. With POSIX paths, where the slash is the only separator,
    the patch of a finding is always written directly inside
    [logicgate-fixes], whatever the title of the finding is: the file
    name built from it has no slash, and the parent of the patch path
    is the fixes directory.  The part of the name taken from the title
    is its first sixty characters with every space, slash and colon
    replaced by an underscore; every other character, a backslash
    included, is kept as it is, so this is a fact about POSIX paths
    only. *)
Theorem patch_path_stays_in_fixes_dir (float : Type) (finding : Finding.t float) :
  Path.parent (cli.patch_path finding) = cli.fixes_dir
  /\ Path.name (cli.patch_path finding) = cli.patch_name finding
  /\ Path.str (cli.patch_path finding)
     = ("logicgate-fixes/" ++ cli.patch_name finding)%string
  /\ Py.contains_char "/" (cli.patch_name finding) = false
  /\ (String.length (cli.safe_name (Finding.title finding)) <= 60)%nat
  /\ (forall c, In c [" "; "/"; ":"]%char ->
                Py.contains_char c (cli.safe_name (Finding.title finding)) = false)
  /\ cli.patch_name finding
     = (cli.safe_name (Finding.title finding) ++ "_"
          ++ Py.str_of_int (Finding.start_line finding) ++ ".patch")%string
  /\ String.length (cli.safe_name (Finding.title finding))
     = Nat.min 60 (String.length (Finding.title finding))
  /\ (forall i c,
         (i < 60)%nat ->
         String.get i (Finding.title finding) = Some c ->
         String.get i (cli.safe_name (Finding.title finding))
         = Some (if Ascii.eqb c " " || Ascii.eqb c "/" || Ascii.eqb c ":"
                 then "_"%char else c))
  /\ cli.safe_name "a\b" = "a\b".
Proof.
  assert (Py.contains_char "/" (cli.patch_name finding) = false) as Hslash.
  { unfold cli.patch_name. rewrite !TextFacts.contains_char_append.
    rewrite NameFacts.safe_name_clean by (simpl; auto).
    rewrite NameFacts.str_of_int_no_slash. reflexivity. }
  assert (2 <= String.length (cli.patch_name finding))%nat as Hlen.
  { unfold cli.patch_name. rewrite !TextFacts.length_append. simpl. lia. }
  assert (cli.patch_path finding
          = {| Path.root := ""; Path.parts := ["logicgate-fixes"; cli.patch_name finding] |})
    as Hpath.
  { unfold cli.patch_path, Path.joinpath.
    rewrite (NameFacts.of_str_name _ Hslash Hlen). reflexivity. }
  rewrite Hpath. split; [reflexivity|]. split; [reflexivity|].
  split; [|split; [exact Hslash|split; [|split; [|split; [|split; [|split]]]]]].
  - unfold Path.str. cbn [Path.root Path.parts Py.join String.concat].
    reflexivity.
  - apply NameFacts.substring_length.
  - intros c Hc. now apply NameFacts.safe_name_clean.
  - reflexivity.
  - apply NameFacts.safe_name_length.
  - intros i c Hi Hc. exact (NameFacts.safe_name_get _ Hi Hc).
  - reflexivity.
Qed.

Module MatchFacts.

(** [find] returns the first element that passes the test. *)
Lemma find_first {A : Type} (p : A -> bool) (l : list A) (a : A) :
  find p l = Some a ->
  exists earlier later,
    l = earlier ++ a :: later
    /\ p a = true
    /\ forall x, In x earlier -> p x = false.
Proof.
  induction l as [|y r IH]; simpl; [discriminate|].
  destruct (p y) eqn:Ey.
  - intros [= <-]. exists [], r. split; [reflexivity|].
    split; [exact Ey | intros x []].
  - intros H. destruct (IH H) as (earlier & later & -> & Ha & Hearlier).
    exists (y :: earlier), later. split; [reflexivity|]. split; [exact Ha|].
    intros x [<-|Hx]; [exact Ey | now apply Hearlier].
Qed.

End MatchFacts.

(** X26. The route under which a fix is generated for a finding is
    always a route of the finding's own file: the first route of the
    list that has the finding's file and label
    ([METHOD pattern]) if there is one, else the first route of that
    file.  A finding whose file has no route is left without a fix,
    and every pair queued for fixing is a finding of the results with
    the route chosen for it. *)
Theorem matching_route_same_file
        (float : Type) (all_routes : list RouteInfo.t)
        (results : list (AuditResult.t float)) (finding : Finding.t float) :
  let label_of (x : RouteInfo.t) :=
    (RouteInfo.http_method x ++ " " ++ RouteInfo.route_pattern x)%string in
  let same_label (x : RouteInfo.t) :=
    RouteInfo.file_path x = Finding.file_path finding
    /\ label_of x = Finding.affected_route finding in
  (forall r,
      cli.matching_route all_routes finding = Some r ->
      In r all_routes
      /\ RouteInfo.file_path r = Finding.file_path finding
      /\ ((exists r', In r' all_routes
                      /\ RouteInfo.file_path r' = Finding.file_path finding
                      /\ cli.route_label r' = Finding.affected_route finding) ->
          cli.route_label r = Finding.affected_route finding))
  /\ (cli.matching_route all_routes finding = None
      <-> forall r, In r all_routes ->
                    RouteInfo.file_path r <> Finding.file_path finding)
  /\ (forall f r,
         In (f, r) (cli.all_findings_for_fix all_routes results)
         <-> In f (SARIFReporter.all_findings_of results)
             /\ cli.matching_route all_routes f = Some r)
  /\ (forall r,
         cli.matching_route all_routes finding = Some r ->
         exists earlier later,
           all_routes = earlier ++ r :: later
           /\ (same_label r /\ (forall x, In x earlier -> ~ same_label x)
               \/ (forall x, In x all_routes -> ~ same_label x)
                  /\ RouteInfo.file_path r = Finding.file_path finding
                  /\ forall x, In x earlier ->
                               RouteInfo.file_path x <> Finding.file_path finding)).
Proof.
  intros label_of same_label.
  assert (forall x,
             String.eqb (RouteInfo.file_path x) (Finding.file_path finding)
             && String.eqb (cli.route_label x) (Finding.affected_route finding)
             = true <-> same_label x) as Hexact.
  { intros x. unfold same_label, label_of, cli.route_label.
    now rewrite andb_true_iff, !String.eqb_eq. }
  split; [|split; [|split]].
  - intros r. unfold cli.matching_route.
    destruct (find _ all_routes) as [hit|] eqn:E1.
    + intros [= <-]. apply find_some in E1. destruct E1 as [Hin Hb].
      apply andb_true_iff in Hb. destruct Hb as [Hf Hl].
      apply String.eqb_eq in Hf, Hl. auto.
    + intros E2. apply find_some in E2. destruct E2 as [Hin Hf].
      apply String.eqb_eq in Hf. split; [exact Hin|]. split; [exact Hf|].
      intros (r' & Hin' & Hf' & Hl').
      pose proof (find_none _ _ E1 r' Hin') as Hno. cbv beta in Hno.
      rewrite Hf', Hl', !String.eqb_refl in Hno. discriminate Hno.
  - unfold cli.matching_route. split.
    + destruct (find _ all_routes) eqn:E1; [discriminate|].
      intros E2 r Hin Hf. pose proof (find_none _ _ E2 r Hin) as Hno.
      cbv beta in Hno. rewrite Hf, String.eqb_refl in Hno. discriminate Hno.
    + intros Hnone.
      destruct (find _ all_routes) as [hit|] eqn:E1.
      * apply find_some in E1. destruct E1 as [Hin Hb].
        apply andb_true_iff in Hb. destruct Hb as [Hf _].
        apply String.eqb_eq in Hf. now destruct (Hnone hit Hin).
      * destruct (find (fun r => String.eqb (RouteInfo.file_path r)
                                            (Finding.file_path finding))
                       all_routes) as [hit|] eqn:E2; [|reflexivity].
        apply find_some in E2. destruct E2 as [Hin Hf].
        apply String.eqb_eq in Hf. now destruct (Hnone hit Hin).
  - intros f r. unfold cli.all_findings_for_fix, SARIFReporter.all_findings_of.
    rewrite !in_flat_map. split.
    + intros (result & Hres & Hin). apply in_flat_map in Hin.
      destruct Hin as (g & Hg & Hin).
      destruct (cli.matching_route all_routes g) as [hit|] eqn:Em;
        [|destruct Hin].
      destruct Hin as [[= <- <-]|[]]. split; [|exact Em].
      exists result. auto.
    + intros ((result & Hres & Hf) & Hm). exists result. split; [exact Hres|].
      apply in_flat_map. exists f. split; [exact Hf|]. rewrite Hm. now left.
  - intros r. unfold cli.matching_route.
    destruct (find (fun x => String.eqb (RouteInfo.file_path x)
                                        (Finding.file_path finding)
                             && String.eqb (cli.route_label x)
                                           (Finding.affected_route finding))
                   all_routes) as [hit|] eqn:E1.
    + intros [= <-].
      destruct (MatchFacts.find_first _ _ E1) as (earlier & later & Hl & Hp & He).
      exists earlier, later. split; [exact Hl|]. left.
      split; [now apply Hexact|].
      intros x Hx Hex. apply Hexact in Hex. rewrite (He x Hx) in Hex.
      discriminate Hex.
    + intros E2.
      destruct (MatchFacts.find_first _ _ E2) as (earlier & later & Hl & Hp & He).
      exists earlier, later. split; [exact Hl|]. right. split; [|split].
      * intros x Hx Hex. apply Hexact in Hex.
        pose proof (find_none _ _ E1 x Hx) as Hno. cbv beta in Hno. congruence.
      * now apply String.eqb_eq.
      * intros x Hx Hf. specialize (He x Hx). cbv beta in He.
        rewrite Hf, String.eqb_refl in He. discriminate He.
Qed.

Module DecodeFacts.
Import ts TreeSitterParser.

(** [node] is one of the nodes that a match captured, or a named child
    of one. *)
Definition captured (m : Match) (node : Node) : Prop :=
  exists key nodes,
    Py.get key (snd m) = Some nodes
    /\ (In node nodes
        \/ exists parent, In parent nodes /\ In node (named_children parent)).

(** The finder raised [e] because the text of [node] does not decode. *)
Definition undecodable (src : Source) (query : string) (path : Path.t)
           (e : Py.exn) : Prop :=
  exists m node,
    In m (run_query src query path)
    /\ captured m node
    /\ text_decode node = Py.Raise e.

Lemma collect_raises {A : Type} (body : Match -> Py.result (option A)) matches e :
  collect body matches = Py.Raise e ->
  exists m, In m matches /\ body m = Py.Raise e.
Proof.
  induction matches as [|m rest IH]; simpl; [discriminate|].
  destruct (body m) as [r|e0] eqn:Em; cbn [Py.bind].
  - destruct (collect body rest) as [rs|e1]; cbn [Py.bind]; [discriminate|].
    intros [= <-]. destruct (IH eq_refl) as (m' & Hin & Hb). exists m'. auto.
  - intros [= <-]. exists m. auto.
Qed.

Lemma first_captured (key : string) (m : Match) (node : Node) (rest : list Node) :
  get_or_nil key (snd m) = node :: rest -> captured m node.
Proof.
  unfold get_or_nil. destruct (Py.get key (snd m)) as [nodes|] eqn:E;
    [|discriminate].
  intros ->. exists key, (node :: rest). split; [exact E|]. left. now left.
Qed.

Lemma child_captured (key : string) (m : Match) (parent node : Node)
      (rest : list Node) :
  get_or_nil key (snd m) = parent :: rest ->
  In node (named_children parent) -> captured m node.
Proof.
  unfold get_or_nil. destruct (Py.get key (snd m)) as [nodes|] eqn:E;
    [|discriminate].
  intros -> Hin. exists key, (parent :: rest). split; [exact E|].
  right. exists parent. split; [now left | exact Hin].
Qed.

Lemma extract_string_raises node e :
  _extract_string node = Py.Raise e -> text_decode node = Py.Raise e.
Proof.
  unfold _extract_string. destruct (text_decode node) as [raw|e0];
    cbn [Py.bind]; [|auto].
  destruct (_ && _); discriminate.
Qed.

Lemma function_def_raises path m e :
  function_def_of path m = Py.Raise e ->
  exists node, captured m node /\ text_decode node = Py.Raise e.
Proof.
  unfold function_def_of.
  destruct (get_or_nil "name" (snd m)) as [|name_node ?] eqn:En; [discriminate|].
  destruct (text_decode name_node) as [nm|e0] eqn:Et; cbn [Py.bind].
  - destruct (get_or_nil "func" (snd m)) as [|span ?] eqn:Ef.
    + unfold first_node.
      destruct (get_or_nil "decl" (snd m)) as [|span ?] eqn:Ed;
        cbn [hd_error]; [discriminate|].
      destruct (text_decode span) as [s|e1] eqn:Es; cbn [Py.bind];
        [discriminate|].
      intros [= <-]. exists span. split; [exact (first_captured _ _ Ed) | exact Es].
    + destruct (text_decode span) as [s|e1] eqn:Es; cbn [Py.bind];
        [discriminate|].
      intros [= <-]. exists span. split; [exact (first_captured _ _ Ef) | exact Es].
  - intros [= <-]. exists name_node.
    split; [exact (first_captured _ _ En) | exact Et].
Qed.

Lemma function_call_raises path m e :
  function_call_of path m = Py.Raise e ->
  exists node, captured m node /\ text_decode node = Py.Raise e.
Proof.
  unfold function_call_of.
  destruct (get_or_nil "fn_name" (snd m)) as [|node ?] eqn:En.
  - destruct (get_or_nil "method_name" (snd m)) as [|method_node ?] eqn:Em;
      [discriminate|].
    destruct (get_or_nil "obj" (snd m)) as [|obj_node ?] eqn:Eo; [discriminate|].
    destruct (text_decode obj_node) as [o|e0] eqn:Et; cbn [Py.bind].
    + destruct (text_decode method_node) as [s|e1] eqn:Es; cbn [Py.bind];
        [discriminate|].
      intros [= <-]. exists method_node.
      split; [exact (first_captured _ _ Em) | exact Es].
    + intros [= <-]. exists obj_node.
      split; [exact (first_captured _ _ Eo) | exact Et].
  - destruct (text_decode node) as [s|e0] eqn:Et; cbn [Py.bind]; [discriminate|].
    intros [= <-]. exists node. split; [exact (first_captured _ _ En) | exact Et].
Qed.

Lemma import_raises path m e :
  import_of path m = Py.Raise e ->
  exists node, captured m node /\ text_decode node = Py.Raise e.
Proof.
  unfold import_of.
  destruct (get_or_nil "name" (snd m)) as [|name_node ?] eqn:En; [discriminate|].
  destruct (get_or_nil "req_fn" (snd m)) as [|req_node ?] eqn:Er; [discriminate|].
  destruct (get_or_nil "source" (snd m)) as [|source_node ?] eqn:Es;
    [discriminate|].
  destruct (text_decode req_node) as [req|e0] eqn:Et; cbn [Py.bind].
  - destruct (negb (String.eqb req "require")); [discriminate|].
    destruct (text_decode name_node) as [nm|e1] eqn:Etn; cbn [Py.bind].
    + destruct (_extract_string source_node) as [p|e2] eqn:Ex; cbn [Py.bind];
        [discriminate|].
      intros [= <-]. exists source_node.
      split; [exact (first_captured _ _ Es) | exact (extract_string_raises _ Ex)].
    + intros [= <-]. exists name_node.
      split; [exact (first_captured _ _ En) | exact Etn].
  - intros [= <-]. exists req_node.
    split; [exact (first_captured _ _ Er) | exact Et].
Qed.

Lemma middleware_raises mids e :
  middleware_of mids = Py.Raise e ->
  exists mid, In mid mids /\ text_decode mid = Py.Raise e.
Proof.
  induction mids as [|mid rest IH]; simpl; [discriminate|].
  destruct (String.eqb (type mid) "identifier"
            || String.eqb (type mid) "member_expression").
  - destruct (text_decode mid) as [nm|e0] eqn:Et; cbn [Py.bind].
    + destruct (middleware_of rest) as [ns|e1]; cbn [Py.bind]; [discriminate|].
      intros [= <-]. destruct (IH eq_refl) as (x & Hx & Hd). exists x. auto.
    + intros [= <-]. exists mid. auto.
  - intros H. destruct (IH H) as (x & Hx & Hd). exists x. auto.
Qed.

Lemma In_removelast {A : Type} (x : A) (l : list A) :
  In x (removelast l) -> In x l.
Proof.
  induction l as [|a r IH]; simpl; [auto|].
  destruct r as [|b r']; [intros []|].
  intros [<-|H]; [now left | right; now apply IH].
Qed.

Lemma In_last {A : Type} (l : list A) (d : A) : l <> [] -> In (last l d) l.
Proof.
  induction l as [|a r IH]; [congruence|]. intros _.
  destruct r as [|b r']; [now left|]. right. apply IH. discriminate.
Qed.

Lemma route_raises path m e :
  route_of path m = Py.Raise e ->
  exists node, captured m node /\ text_decode node = Py.Raise e.
Proof.
  unfold route_of.
  destruct (get_or_nil "method" (snd m)) as [|method_node ?] eqn:Em;
    [discriminate|].
  destruct (get_or_nil "obj" (snd m)) as [|? ?]; [discriminate|].
  destruct (get_or_nil "args" (snd m)) as [|args_node ?] eqn:Ea; [discriminate|].
  destruct (text_decode method_node) as [method_text|e0] eqn:Et; cbn [Py.bind].
  2:{ intros [= <-]. exists method_node.
      split; [exact (first_captured _ _ Em) | exact Et]. }
  destruct (negb (Py.mem method_text _HTTP_METHODS)); [discriminate|].
  destruct (named_children args_node) as [|first_arg others] eqn:Ech;
    [discriminate|].
  assert (forall node, In node (first_arg :: others) -> captured m node) as Hcap.
  { intros node Hin. eapply child_captured; [exact Ea|]. now rewrite Ech. }
  destruct (String.eqb (type first_arg) "string").
  - destruct (_extract_string first_arg) as [p|e1] eqn:Ex; cbn [Py.bind fst snd].
    2:{ intros [= <-]. exists first_arg.
        split; [apply Hcap; now left | exact (extract_string_raises _ Ex)]. }
    destruct others as [|o os] eqn:Eo; [discriminate|]. rewrite <- Eo in *.
    assert (others <> []) as Hne by (rewrite Eo; discriminate).
    destruct (middleware_of (removelast others)) as [mw|e1] eqn:Emw;
      cbn [Py.bind].
    2:{ intros [= <-]. destruct (middleware_raises _ Emw) as (mid & Hin & Hd).
        exists mid. split; [|exact Hd].
        apply Hcap. right. now apply In_removelast. }
    destruct (text_decode (last others first_arg)) as [hs|e1] eqn:Eh;
      cbn [Py.bind].
    + destruct (_ && _); discriminate.
    + intros [= <-]. exists (last others first_arg). split; [|exact Eh].
      apply Hcap. right. now apply In_last.
  - cbn [Py.bind fst snd].
    assert (first_arg :: others <> []) as Hne by discriminate.
    destruct (middleware_of (removelast (first_arg :: others))) as [mw|e1] eqn:Emw;
      cbn [Py.bind].
    2:{ intros [= <-]. destruct (middleware_raises _ Emw) as (mid & Hin & Hd).
        exists mid. split; [|exact Hd].
        apply Hcap. now apply In_removelast. }
    destruct (text_decode (last (first_arg :: others) first_arg)) as [hs|e1] eqn:Eh;
      cbn [Py.bind].
    + destruct (_ && _); discriminate.
    + intros [= <-]. exists (last (first_arg :: others) first_arg).
      split; [|exact Eh]. apply Hcap. now apply In_last.
Qed.

Lemma finder_raises {A : Type} (src : Source) (query : string) (path : Path.t)
      (body : Match -> Py.result (option A)) (e : Py.exn) :
  (forall m, body m = Py.Raise e ->
             exists node, captured m node /\ text_decode node = Py.Raise e) ->
  (if negb (parses src path) then Py.Ok []
   else collect body (run_query src query path)) = Py.Raise e ->
  parses src path = true /\ undecodable src query path e.
Proof.
  intros Hbody. destruct (parses src path); cbn [negb]; [|discriminate].
  intros H. split; [reflexivity|].
  destruct (collect_raises _ _ H) as (m & Hin & Hm).
  destruct (Hbody m Hm) as (node & Hc & Hd). exists m, node. auto.
Qed.

Lemma parsed_sources_raises src path e :
  forall earlier later files,
    parsed_sources src earlier = Py.Ok files ->
    parsed_source src path = Py.Raise e ->
    parsed_sources src (earlier ++ path :: later) = Py.Raise e.
Proof.
  induction earlier as [|p rest IH]; intros later files; simpl.
  - intros _ ->. reflexivity.
  - destruct (parsed_source src p); cbn [Py.bind]; [|discriminate].
    destruct (parsed_sources src rest) as [fs'|] eqn:Er; cbn [Py.bind];
      [|discriminate].
    intros _ He. now rewrite (IH later fs' eq_refl He).
Qed.

End DecodeFacts.

(** X27. The finders of the parser only guard the parsing of the file:
    when one of them raises, the file did parse and the exception is
    that of decoding the text of a node captured by one of the query's
    matches (or of a named child of one).  [build_graph] has no guard
    either: when the parser raises on a walked file and returned on
    the files before it, [build_graph] raises the same exception. *)
Theorem finders_raise_only_on_decoding
        (src : ts.Source) (path : Path.t) (e : Py.exn) :
  (TreeSitterParser.find_function_defs src path = Py.Raise e ->
   ts.parses src path = true
   /\ DecodeFacts.undecodable src "function_defs" path e)
  /\ (TreeSitterParser.find_function_calls src path = Py.Raise e ->
      ts.parses src path = true
      /\ DecodeFacts.undecodable src "function_calls" path e)
  /\ (TreeSitterParser.find_imports src path = Py.Raise e ->
      ts.parses src path = true
      /\ DecodeFacts.undecodable src "require_imports" path e)
  /\ (TreeSitterParser.find_routes src path = Py.Raise e ->
      ts.parses src path = true
      /\ DecodeFacts.undecodable src "express_routes" path e)
  /\ forall fs rglob directory self earlier later files,
      Walk._walk_sources fs rglob directory = earlier ++ path :: later ->
      parsed_sources src earlier = Py.Ok files ->
      parsed_source src path = Py.Raise e ->
      build_graph_directory fs rglob src directory self = Py.Raise e.
Proof.
  split; [|split; [|split; [|split]]].
  - apply (@DecodeFacts.finder_raises _ src "function_defs" path
             (TreeSitterParser.function_def_of path) e).
    intros m. apply DecodeFacts.function_def_raises.
  - apply (@DecodeFacts.finder_raises _ src "function_calls" path
             (TreeSitterParser.function_call_of path) e).
    intros m. apply DecodeFacts.function_call_raises.
  - apply (@DecodeFacts.finder_raises _ src "require_imports" path
             (TreeSitterParser.import_of path) e).
    intros m. apply DecodeFacts.import_raises.
  - apply (@DecodeFacts.finder_raises _ src "express_routes" path
             (TreeSitterParser.route_of path) e).
    intros m. apply DecodeFacts.route_raises.
  - intros fs rglob directory self earlier later files Hw He Hp.
    unfold build_graph_directory. rewrite WalkFacts.register_loop, Hw.
    now rewrite (@DecodeFacts.parsed_sources_raises src path e earlier later
                   files He Hp).
Qed.

Module UriFacts.

Lemma split_parts_no_slash (s : string) :
  forall p, In p (Py.split "/" s) -> Py.contains_char "/" p = false.
Proof.
  induction s as [|c r IH]; simpl.
  - intros p [<-|[]]. reflexivity.
  - destruct (Ascii.eqb_spec c "/") as [->|Hc].
    + intros p [<-|Hp]; [reflexivity | now apply IH].
    + destruct (Py.split "/" r) as [|h t] eqn:E.
      * intros p [<-|[]]. simpl.
        destruct (Ascii.eqb_spec c "/"); [contradiction | reflexivity].
      * intros p [<-|Hp].
        -- simpl. destruct (Ascii.eqb_spec c "/"); [contradiction|].
           simpl. apply IH. now left.
        -- apply IH. now right.
Qed.

(** A component as [Path(s)] keeps it: not empty, not a dot, no slash. *)
Definition component (p : string) : Prop :=
  Path.keep_part p = true /\ Py.contains_char "/" p = false.

Lemma of_str_components (s : string) :
  Forall component (Path.parts (Path.of_str s)).
Proof.
  apply Forall_forall. intros p Hp. unfold Path.of_str in Hp. simpl in Hp.
  apply filter_In in Hp. destruct Hp as [Hin Hkeep].
  split; [exact Hkeep | exact (@split_parts_no_slash s p Hin)].
Qed.

Lemma split_component (x rest : string) :
  Py.contains_char "/" x = false ->
  Py.split "/" (x ++ String "/" rest)%string = x :: Py.split "/" rest.
Proof.
  induction x as [|c r IH]; simpl; [reflexivity|].
  intros H. apply orb_false_iff in H. destruct H as [Hc H].
  rewrite Hc, (IH H). reflexivity.
Qed.

Lemma split_join (parts : list string) :
  parts <> [] -> Forall component parts ->
  Py.split "/" (Py.join "/" parts) = parts.
Proof.
  induction parts as [|x r IH]; [congruence|]. intros _ Hall.
  inversion Hall as [|? ? [_ Hx] Hr]; subst.
  destruct r as [|y r'].
  - simpl. now apply NameFacts.split_no_slash.
  - change (Py.join "/" (x :: y :: r'))
      with (x ++ String "/" (Py.join "/" (y :: r')))%string.
    rewrite (@split_component x _ Hx), IH;
      [reflexivity | discriminate | exact Hr].
Qed.

Lemma leading_join (parts : list string) :
  Forall component parts -> Py.leading "/" (Py.join "/" parts) = O.
Proof.
  intros Hall. destruct parts as [|x r]; [reflexivity|].
  inversion Hall as [|? ? [Hk Hx] Hr]; subst.
  destruct x as [|c x']; [discriminate Hk|].
  simpl in Hx. apply orb_false_iff in Hx. destruct Hx as [Hc _].
  destruct r; simpl; now rewrite Hc.
Qed.

Lemma filter_components (parts : list string) :
  Forall component parts -> filter Path.keep_part parts = parts.
Proof.
  induction 1 as [|x r [Hk _] _ IH]; simpl; [reflexivity|].
  now rewrite Hk, IH.
Qed.

(** A relative path made of components is read back from its text. *)
Lemma of_str_str_relative (parts : list string) :
  Forall component parts ->
  Path.of_str (Path.str {| Path.root := ""; Path.parts := parts |})
  = {| Path.root := ""; Path.parts := parts |}.
Proof.
  intros Hall. destruct parts as [|x r]; [reflexivity|].
  unfold Path.str. cbn [Path.root Path.parts]. cbn [append].
  unfold Path.of_str.
  rewrite (leading_join Hall), split_join, filter_components;
    [reflexivity | exact Hall | discriminate | exact Hall].
Qed.

Lemma strip_parts_app (other_parts p_parts rest : list string) :
  strip_parts other_parts p_parts = Some rest ->
  p_parts = other_parts ++ rest.
Proof.
  revert p_parts. induction other_parts as [|x r IH]; intros [|y q]; simpl;
    try discriminate.
  - now intros [= <-].
  - now intros [= <-].
  - destruct (String.eqb_spec x y) as [->|_]; [|discriminate].
    intros H. now rewrite (IH q H).
Qed.

Lemma strip_parts_complete (other_parts rest : list string) :
  strip_parts other_parts (other_parts ++ rest) = Some rest.
Proof.
  induction other_parts as [|x r IH]; simpl; [now destruct rest|].
  now rewrite String.eqb_refl.
Qed.

End UriFacts.

(** X28. [_relative_uri] never raises.  For a file under the target
    directory it is the text of the remaining components, joined by
    slashes ([.] when there are none), and the target joined with it
    is the path of the file again; for any other file it is the text
    of the file's own path. *)
Theorem relative_uri_round_trip (file_path : string) (target : Path.t) :
  (forall rest,
      Path.root (Path.of_str file_path) = Path.root target ->
      Path.parts (Path.of_str file_path) = Path.parts target ++ rest ->
      SARIFReporter._relative_uri file_path target
      = Path.str {| Path.root := ""; Path.parts := rest |}
      /\ Path.joinpath target (SARIFReporter._relative_uri file_path target)
         = Path.of_str file_path)
  /\ ((Path.root (Path.of_str file_path) <> Path.root target
       \/ forall rest, Path.parts (Path.of_str file_path)
                       <> Path.parts target ++ rest) ->
      SARIFReporter._relative_uri file_path target
      = Path.str (Path.of_str file_path)).
Proof.
  split.
  - intros rest Hroot Hparts.
    assert (SARIFReporter._relative_uri file_path target
            = Path.str {| Path.root := ""; Path.parts := rest |}) as Huri.
    { unfold SARIFReporter._relative_uri, relative_to.
      rewrite Hroot, String.eqb_refl, Hparts, UriFacts.strip_parts_complete.
      reflexivity. }
    split; [exact Huri|]. rewrite Huri.
    assert (Forall UriFacts.component rest) as Hrest.
    { pose proof (UriFacts.of_str_components file_path) as Hall.
      rewrite Hparts in Hall. apply Forall_app in Hall. tauto. }
    unfold Path.joinpath. rewrite (UriFacts.of_str_str_relative Hrest).
    cbn [Path.root Path.parts String.eqb].
    rewrite <- Hroot, <- Hparts. now destruct (Path.of_str file_path).
  - intros Hout. unfold SARIFReporter._relative_uri, relative_to.
    destruct (String.eqb_spec (Path.root (Path.of_str file_path))
                              (Path.root target)) as [Hroot|Hroot].
    + destruct (strip_parts (Path.parts target)
                            (Path.parts (Path.of_str file_path)))
        as [rest|] eqn:E; [|reflexivity].
      apply UriFacts.strip_parts_app in E.
      destruct Hout as [Hne|Hne]; [contradiction | now destruct (Hne rest)].
    + reflexivity.
Qed.

(* ================================================================== *)
(** ** A sample project for the parser, the walk and the scanner       *)
(* ================================================================== *)

(** A node without children on one row. *)
Definition leaf (node_type text : string) (row : Z) : ts.Node :=
  ts.mkNode node_type (Py.Ok text) row row [].

(** [/srv/shop/server.js]:
<<
   1  const express = require('express');
   2
   3  function load(id) {
   4    return rows[id];
   5  }
   6
   7  app.get('/items/:id', auth, (req, res) => {
   8    res.json(load(req.params.id));
   9  });
>> *)
Definition shop_server : Path.t := Path.of_str "/srv/shop/server.js".

Definition shop_load : ts.Node :=
  ts.mkNode "function_declaration"
            (Py.Ok "function load(id) { return rows[id]; }") 2 4 [].

Definition shop_handler : ts.Node :=
  ts.mkNode "arrow_function"
            (Py.Ok "(req, res) => { res.json(load(req.params.id)); }") 6 8 [].

Definition shop_args : ts.Node :=
  ts.mkNode "arguments"
            (Py.Ok "('/items/:id', auth, (req, res) => { res.json(load(req.params.id)); })")
            6 8
            [leaf "string" "'/items/:id'" 6; leaf "identifier" "auth" 6;
             shop_handler].

Definition shop_matches (query : string) : list ts.Match :=
  if String.eqb query "function_defs" then
    [(0%nat, [("name", [leaf "identifier" "load" 2]); ("func", [shop_load])])]
  else if String.eqb query "function_calls" then
    [(1%nat, [("obj", [leaf "identifier" "res" 7]);
              ("method_name", [leaf "property_identifier" "json" 7])]);
     (0%nat, [("fn_name", [leaf "identifier" "load" 7])])]
  else if String.eqb query "require_imports" then
    [(0%nat, [("name", [leaf "identifier" "express" 0]);
              ("req_fn", [leaf "identifier" "require" 0]);
              ("source", [leaf "string" "'express'" 0]);
              ("decl", [leaf "lexical_declaration"
                             "const express = require('express');" 0])])]
  else if String.eqb query "express_routes" then
    [(0%nat, [("obj", [leaf "identifier" "app" 6]);
              ("method", [leaf "property_identifier" "get" 6]);
              ("args", [shop_args])])]
  else [].

Definition shop_source : ts.Source :=
  {| ts.parses := fun p => String.eqb (Path.str p) "/srv/shop/server.js";
     ts.run_query := fun query p =>
       if String.eqb (Path.str p) "/srv/shop/server.js"
       then shop_matches query else [] |}.

Definition shop_dir : Path.t := Path.of_str "/srv/shop".

Definition shop_rglob (directory : Path.t) : list Path.t :=
  if String.eqb (Path.str directory) "/srv/shop" then
    map Path.of_str ["/srv/shop/server.js"; "/srv/shop/README.md";
                     "/srv/shop/node_modules";
                     "/srv/shop/node_modules/express.js"]
  else [].

Definition shop_fs : Path.FileSystem :=
  Path.plain_fs [] ["/srv/shop/server.js"; "/srv/shop/README.md";
                    "/srv/shop/node_modules/express.js"].

Definition shop_graph : DependencyGraph :=
  returned __init__
           (build_graph_directory shop_fs shop_rglob shop_source shop_dir __init__).

Definition shop_route : RouteInfo.t :=
  RouteInfo.mk "/srv/shop/server.js" "GET" "/items/:id" 7 9
               "(req, res) => { res.json(load(req.params.id)); }" ["auth"].

(** The same project checked out under a directory called [build]. *)
Definition nested_dir : Path.t := Path.of_str "/home/dev/build/shop".

Definition nested_rglob (directory : Path.t) : list Path.t :=
  if String.eqb (Path.str directory) "/home/dev/build/shop" then
    [Path.of_str "/home/dev/build/shop/server.js"]
  else [].

Definition nested_fs : Path.FileSystem :=
  Path.plain_fs [] ["/home/dev/build/shop/server.js"].

(** A file system on which the project directory cannot be searched:
    [is_file] raises [PermissionError] on its children. *)
Definition locked_fs : os.FileSystem :=
  {| os.resolve := fun p => os.Return p;
     os.is_file := fun p =>
       if String.prefix "/home/dev/build/shop/" (Path.str p)
       then os.Throw (os.OSError "PermissionError" "Permission denied")
       else os.Return false |}.

(** A file has no children. *)
Definition file_rglob (target : Path.t) : list Path.t := [].

(** A source whose only definition has a name that does not decode. *)
Definition broken_source : ts.Source :=
  {| ts.parses := fun _ => true;
     ts.run_query := fun query _ =>
       if String.eqb query "function_defs" then
         [(0%nat, [("name", [ts.mkNode "identifier"
                                       (Py.Raise (Py.ValueError "invalid start byte"))
                                       2 2 []]);
                   ("func", [shop_load])])]
       else [] |}.

Lemma build_graph_directory_nodes_witness :
  (exists files,
      parsed_sources shop_source (Walk._walk_sources shop_fs shop_rglob shop_dir)
      = Py.Ok files
      /\ build_graph shop_fs files __init__ = Py.Ok shop_graph)
  /\ (forall k d,
         registered shop_graph k d ->
         exists child,
           In child (shop_rglob shop_dir)
           /\ Path.is_file shop_fs child = true
           /\ In (Path.suffix child) Walk._JS_EXTENSIONS
           /\ (forall part, In part (Walk.parts_of child) ->
                            ~ In part Walk._SKIP_DIRS)
           /\ k = node_id_of (Path.str child) (FunctionDef.name d)
           /\ FunctionDef.file_path d = Path.str child)
  /\ ids_match shop_graph.
Proof.
  apply (@build_graph_directory_nodes shop_fs shop_rglob shop_source shop_dir
                                      shop_graph).
  reflexivity.
Defined.

Lemma build_graph_directory_under_skipped_dir_witness :
  (forall paths,
      Fallible._walk_sources locked_fs nested_rglob nested_dir = os.Return paths ->
      paths = [])
  /\ ((forall child, In child (nested_rglob nested_dir) ->
                     exists file, os.is_file locked_fs child = os.Return file) ->
      Fallible._walk_sources locked_fs nested_rglob nested_dir = os.Return []
      /\ Fallible.build_graph locked_fs nested_rglob shop_source nested_dir shop_graph
         = Fallible.phase2 locked_fs shop_graph
      /\ Fallible.build_graph locked_fs nested_rglob shop_source nested_dir __init__
         = os.Return __init__)
  /\ (forall earlier child later e,
         Walk.sorted (nested_rglob nested_dir) = earlier ++ child :: later ->
         (forall c, In c earlier ->
                    exists file, os.is_file locked_fs c = os.Return file) ->
         os.is_file locked_fs child = os.Throw e ->
         Fallible._walk_sources locked_fs nested_rglob nested_dir = os.Throw e
         /\ Fallible.build_graph locked_fs nested_rglob shop_source nested_dir
                                 shop_graph
            = os.Throw e)
  /\ (forall fs0,
         Fallible.build_graph (os.returning fs0) nested_rglob shop_source
                              nested_dir shop_graph
         = os.of_py (build_graph_directory fs0 nested_rglob shop_source
                                           nested_dir shop_graph)).
Proof.
  apply (@build_graph_directory_under_skipped_dir
           locked_fs nested_rglob shop_source nested_dir shop_graph).
  - intros child [<-|[]]. exists ["server.js"]. reflexivity.
  - exists "build". split; simpl; tauto.
Defined.

Lemma extract_string_strips_delimiters_witness :
  (forall q body c,
      "'./util'" = String q (body ++ String c "")%string ->
      In q ["'"; "034"; "`"]%char ->
      TreeSitterParser._extract_string (leaf "string" "'./util'" 0) = Py.Ok body)
  /\ ((String.length "'./util'" < 2)%nat
      \/ TreeSitterParser.opens_with_quote "'./util'" = false ->
      TreeSitterParser._extract_string (leaf "string" "'./util'" 0)
      = Py.Ok "'./util'").
Proof.
  apply (@extract_string_strips_delimiters (leaf "string" "'./util'" 0) "'./util'").
  reflexivity.
Defined.

Lemma find_routes_invariants_witness :
  (ts.parses shop_source shop_server = false -> [shop_route] = [])
  /\ (List.length [shop_route]
      <= List.length (ts.run_query shop_source "express_routes" shop_server))%nat
  /\ (forall r, In r [shop_route] ->
                exists m, In m (ts.run_query shop_source "express_routes" shop_server)
                          /\ RouteFacts.route_from shop_server m r)
  /\ exists chosen,
      RouteFacts.subsequence chosen
                             (ts.run_query shop_source "express_routes" shop_server)
      /\ Forall2 (RouteFacts.route_from shop_server) chosen [shop_route].
Proof.
  apply (@find_routes_invariants shop_source shop_server [shop_route]).
  reflexivity.
Defined.


Lemma scan_of_a_single_file_witness :
  cli._discover_files shop_fs file_rglob shop_server = [shop_server]
  /\ build_graph_directory shop_fs file_rglob shop_source shop_server __init__
     = Py.Ok __init__
  /\ forall route depth,
      get_route_context shop_fs Py.insertion_order __init__ route depth
      = Py.Ok (fallback_block route).
Proof.
  apply (@scan_of_a_single_file shop_fs Py.insertion_order file_rglob shop_source
                                shop_server); reflexivity.
Defined.

Lemma strip_fences_unwraps_witness :
  llm.strip_fences
    ("  " ++ (llm.fence ++ "json" ++ String "010" ("{ }" ++ String "010" llm.fence))
       ++ String "010" "")%string
  = llm.Return (Text.strip "{ }")
  /\ (forall raw_text,
         String.prefix llm.fence (Text.strip raw_text) = false ->
         llm.strip_fences raw_text = llm.Return raw_text).
Proof.
  apply (@strip_fences_unwraps "  " "json" "{ }" (String "010" ""));
    reflexivity.
Defined.

Lemma finders_raise_only_on_decoding_witness :
  build_graph_directory shop_fs shop_rglob broken_source shop_dir __init__
  = Py.Raise (Py.ValueError "invalid start byte").
Proof.
  apply (proj2 (proj2 (proj2 (proj2
           (@finders_raise_only_on_decoding
              broken_source shop_server (Py.ValueError "invalid start byte")))))
           shop_fs shop_rglob shop_dir __init__ [] [] []);
    reflexivity.
Defined.
